(** * gdalcacaview: the raster windowing and stretch engine

    A shallow embedding of the raster half of [gdalcacaview.c]: the stretch
    rule matcher ([get_stretch_for_gdal]), the overview selector
    ([gdal_get_best_overview]), the radiometric stretches ([do_stretch]), the
    window mapper ([prepare_for_reading]) and the two image composers
    ([gdal_read_multiband], [gdal_read_singleband]) with their driver
    [gdal_load_image]; around it the parser of the rule strings
    ([stretch_from_string]), the opening and closing of a file
    ([gdal_open_file], [gdal_close_file]), the gamma of the display
    ([set_gamma]), the loop of [main] over the events of a redraw, and the
    overview selector of the first version of the program.

    C [double] and [float] are IEEE-754 binary64 and binary32, taken from the
    executable specification of the Standard Library ([SpecFloat]); C [int]
    is a 32-bit two's complement integer carried in [Z].  GDAL, libcaca and
    libc are outside the program: their calls are modelled from their
    documented behaviour, or left as section variables where the result is
    data of the outside world (pixel reads, [atof], allocation contents). *)

From Stdlib Require Import ZArith List String Ascii Bool Lia.
From Stdlib Require Import SpecFloat DecimalString.
Import ListNotations.
Open Scope string_scope.
Open Scope list_scope.
Open Scope Z_scope.

(** ** Outcomes of a C call

    [Ret] is a normal return, [Err] a return through the error path with
    the text left in [szGDALMessages], [Undef] a run that leaves defined C
    behaviour (division by zero, a NULL or out-of-range access, a
    floating-point value that does not fit the integer it is assigned to). *)

Inductive outcome (A : Type) : Type :=
| Ret (a : A)
| Err (msg : string)
| Undef.

Arguments Ret {A} a.
Arguments Err {A} msg.
Arguments Undef {A}.

Definition bind {A B : Type} (m : outcome A) (k : A -> outcome B) : outcome B :=
  match m with
  | Ret a => k a
  | Err msg => Err msg
  | Undef => Undef
  end.

Notation "x <- m ;; k" := (bind m (fun x => k))
  (at level 61, m at next level, right associativity).

Definition defined {A : Type} (o : option A) : outcome A :=
  match o with
  | Some a => Ret a
  | None => Undef
  end.

(** ** C arithmetic *)

Module C.

(** *** [int] and [unsigned int] *)

Definition INT_MIN : Z := - 2 ^ 31.
Definition INT_MAX : Z := 2 ^ 31 - 1.

(** Two's complement wrap-around of a 32-bit [int]. *)
Definition wrap (z : Z) : Z := (z + 2 ^ 31) mod 2 ^ 32 - 2 ^ 31.

(** Conversion to [unsigned int]. *)
Definition unsigned (z : Z) : Z := z mod 2 ^ 32.

Definition add (a b : Z) : Z := wrap (a + b).
Definition sub (a b : Z) : Z := wrap (a - b).
Definition mul (a b : Z) : Z := wrap (a * b).

(** [a / b] on [int]: truncation towards zero, undefined for [b = 0]. *)
Definition div (a b : Z) : option Z :=
  if b =? 0 then None else Some (wrap (Z.quot a b)).

(** [abs] of <stdlib.h>. *)
Definition abs (a : Z) : Z := wrap (Z.abs a).

(** The byte stored by an assignment to a [char], read back unsigned. *)
Definition to_uchar (z : Z) : Z := z mod 256.

(** *** [double] and [float] *)

Definition double : Type := spec_float.
Definition float : Type := spec_float.

Definition dprec : Z := 53.
Definition demax : Z := 1024.
Definition fprec : Z := 24.
Definition femax : Z := 128.

Definition dadd : double -> double -> double := SFadd dprec demax.
Definition dsub : double -> double -> double := SFsub dprec demax.
Definition dmul : double -> double -> double := SFmul dprec demax.
Definition ddiv : double -> double -> double := SFdiv dprec demax.
Definition dneg : double -> double := SFopp.

(** Comparisons; [a > b] is [lt b a] and [a >= b] is [le b a]. *)
Definition lt : spec_float -> spec_float -> bool := SFltb.
Definition le : spec_float -> spec_float -> bool := SFleb.
Definition eq : spec_float -> spec_float -> bool := SFeqb.
Definition gt (a b : spec_float) : bool := SFltb b a.
Definition ge (a b : spec_float) : bool := SFleb b a.

(** [(double) i] for an [int] [i]; exact. *)
Definition double_of_int (z : Z) : double :=
  binary_normalize dprec demax z 0 false.

(** [(float) i]; rounds to nearest. *)
Definition float_of_int (z : Z) : float :=
  binary_normalize fprec femax z 0 false.

(** Promotion of a [float] to [double]; exact. *)
Definition double_of_float (f : float) : double :=
  match f with
  | S754_finite s m e => binary_round dprec demax s m e
  | _ => f
  end.

(** Assignment of a [double] to a [float]; rounds to nearest. *)
Definition float_of_double (d : double) : float :=
  match d with
  | S754_finite s m e => binary_round fprec femax s m e
  | _ => d
  end.

(** The integral part of a finite value, towards zero. *)
Definition trunc (x : spec_float) : option Z :=
  match x with
  | S754_zero _ => Some 0
  | S754_finite s m e =>
      let mag := match e with
                 | Zneg p => Z.shiftr (Zpos m) (Zpos p)
                 | _ => Z.shiftl (Zpos m) e
                 end in
      Some (cond_Zopp s mag)
  | _ => None
  end.

(** Assignment of a floating-point value to an [int]: the integral part
    when it fits, undefined otherwise (NaN, infinities, out of range). *)
Definition int_of_double (x : spec_float) : option Z :=
  match trunc x with
  | Some z => if (INT_MIN <=? z) && (z <=? INT_MAX) then Some z else None
  | None => None
  end.

(** Assignment of a floating-point value to a [char] of the pixel buffer. *)
Definition uchar_of_float (x : float) : option Z :=
  option_map to_uchar (int_of_double x).

(** [round] of <math.h>: to the nearest integer, halves away from zero. *)
Definition round (x : double) : double :=
  match x with
  | S754_finite s m (Zneg p) =>
      let q := Z.shiftr (Zpos m + Z.shiftl 1 (Zpos p - 1)) (Zpos p) in
      binary_normalize dprec demax (cond_Zopp s q) 0 s
  | _ => x
  end.

Definition dzero : double := S754_zero false.
Definition fzero : float := S754_zero false.

End C.

(** ** The GDAL objects the program reads

    Modelled from the GDAL C API: a dataset has a raster size, an optional
    affine geotransform and numbered bands; a band has string metadata, an
    optional raster attribute table and a list of overviews. *)

Module GDAL.

Inductive GDALRATFieldUsage : Type :=
| GFU_Generic | GFU_PixelCount | GFU_Name | GFU_Min | GFU_Max | GFU_MinMax
| GFU_Red | GFU_Green | GFU_Blue | GFU_Alpha
| GFU_RedMin | GFU_GreenMin | GFU_BlueMin | GFU_AlphaMin
| GFU_RedMax | GFU_GreenMax | GFU_BlueMax | GFU_AlphaMax.

Definition usage_eqb (a b : GDALRATFieldUsage) : bool :=
  match a, b with
  | GFU_Generic, GFU_Generic | GFU_PixelCount, GFU_PixelCount
  | GFU_Name, GFU_Name | GFU_Min, GFU_Min | GFU_Max, GFU_Max
  | GFU_MinMax, GFU_MinMax | GFU_Red, GFU_Red | GFU_Green, GFU_Green
  | GFU_Blue, GFU_Blue | GFU_Alpha, GFU_Alpha | GFU_RedMin, GFU_RedMin
  | GFU_GreenMin, GFU_GreenMin | GFU_BlueMin, GFU_BlueMin
  | GFU_AlphaMin, GFU_AlphaMin | GFU_RedMax, GFU_RedMax
  | GFU_GreenMax, GFU_GreenMax | GFU_BlueMax, GFU_BlueMax
  | GFU_AlphaMax, GFU_AlphaMax => true
  | _, _ => false
  end.

(** One column of a raster attribute table: its usage and the integer
    value of each row ([GDALRATGetValueAsInt]). *)
Record RATColumn : Type := {
  col_usage : GDALRATFieldUsage;
  col_value : nat -> Z
}.

Record GDALRasterAttributeTable : Type := {
  rat_rows : nat;
  rat_columns : list RATColumn
}.

Definition GDALRATGetRowCount (rat : GDALRasterAttributeTable) : Z :=
  Z.of_nat (rat_rows rat).

Definition GDALRATGetColumnCount (rat : GDALRasterAttributeTable) : Z :=
  Z.of_nat (List.length (rat_columns rat)).

(** [GDALRATValuesIOAsInteger (rath, GF_Read, col, 0, n, buf)]: the first
    [n] rows of the column. *)
Definition GDALRATValuesIOAsInteger (c : RATColumn) (n : nat) : list Z :=
  map (col_value c) (seq 0 n).

(** A band or an overview of a band, as [GDALRasterIO] and the size
    queries see it. *)
Record RasterBand : Type := {
  band_id : Z;
  band_xsize : Z;
  band_ysize : Z;
  band_metadata : list (string * string);
  band_rat : option GDALRasterAttributeTable;
  band_overviews : list (Z * Z * Z)   (* id, x size, y size *)
}.

(** A band handle; [None] is the NULL handle. *)
Definition GDALRasterBandH : Type := option RasterBand.

(** The six coefficients [adfTransform[0..5]] of an affine geotransform. *)
Record GeoTransform : Type := {
  gt0 : C.double; gt1 : C.double; gt2 : C.double;
  gt3 : C.double; gt4 : C.double; gt5 : C.double
}.

Record GDALDataset : Type := {
  ds_xsize : Z;
  ds_ysize : Z;
  ds_geotransform : option GeoTransform;
  ds_bands : list RasterBand
}.

Definition GDALGetRasterCount (ds : GDALDataset) : Z :=
  Z.of_nat (List.length (ds_bands ds)).

Definition GDALGetRasterXSize (ds : GDALDataset) : Z := ds_xsize ds.
Definition GDALGetRasterYSize (ds : GDALDataset) : Z := ds_ysize ds.

(** Bands are numbered from 1; any other number gives NULL. *)
Definition GDALGetRasterBand (ds : GDALDataset) (n : Z) : GDALRasterBandH :=
  if (1 <=? n) && (n <=? GDALGetRasterCount ds)
  then nth_error (ds_bands ds) (Z.to_nat (n - 1))
  else None.

(** The size queries answer 0 on a NULL handle. *)
Definition GDALGetRasterBandXSize (h : GDALRasterBandH) : Z :=
  match h with Some b => band_xsize b | None => 0 end.

Definition GDALGetRasterBandYSize (h : GDALRasterBandH) : Z :=
  match h with Some b => band_ysize b | None => 0 end.

Fixpoint lookup (key : string) (md : list (string * string)) : option string :=
  match md with
  | [] => None
  | (k, v) :: rest => if String.eqb k key then Some v else lookup key rest
  end.

Definition GDALGetMetadataItem (h : GDALRasterBandH) (key : string)
  : option string :=
  match h with Some b => lookup key (band_metadata b) | None => None end.

Definition GDALGetDefaultRAT (h : GDALRasterBandH)
  : option GDALRasterAttributeTable :=
  match h with Some b => band_rat b | None => None end.

Definition GDALGetOverviewCount (h : GDALRasterBandH) : Z :=
  match h with
  | Some b => Z.of_nat (List.length (band_overviews b))
  | None => 0
  end.

(** The [i]-th overview of a band, itself a band handle. *)
Definition GDALGetOverview (h : GDALRasterBandH) (i : Z) : GDALRasterBandH :=
  match h with
  | Some b =>
      if i <? 0 then None else
      match nth_error (band_overviews b) (Z.to_nat i) with
      | Some (id, xs, ys) =>
          Some {| band_id := id; band_xsize := xs; band_ysize := ys;
                  band_metadata := []; band_rat := None;
                  band_overviews := [] |}
      | None => None
      end
  | None => None
  end.

(** [GDALGetGeoTransform]: the coefficients, or [None] when the call does
    not answer [CE_None]. *)
Definition GDALGetGeoTransform (ds : GDALDataset) : option GeoTransform :=
  ds_geotransform ds.

(** [GDALApplyGeoTransform]. *)
Definition GDALApplyGeoTransform (gt : GeoTransform) (dfPixel dfLine : C.double)
  : C.double * C.double :=
  (C.dadd (C.dadd (gt0 gt) (C.dmul dfPixel (gt1 gt))) (C.dmul dfLine (gt2 gt)),
   C.dadd (C.dadd (gt3 gt) (C.dmul dfPixel (gt4 gt))) (C.dmul dfLine (gt5 gt))).

(** The singularity threshold [0.000000000000001] of [GDALInvGeoTransform]. *)
Definition det_epsilon : C.double :=
  C.ddiv (C.double_of_int 1) (C.double_of_int (10 ^ 15)).

(** [GDALInvGeoTransform]: the inverse by the adjoint over the determinant,
    [None] (a zero return) when the determinant is below the threshold. *)
Definition GDALInvGeoTransform (gt_in : GeoTransform) : option GeoTransform :=
  let det := C.dsub (C.dmul (gt1 gt_in) (gt5 gt_in))
                    (C.dmul (gt2 gt_in) (gt4 gt_in)) in
  if C.lt (SFabs det) det_epsilon then None else
  let inv_det := C.ddiv (C.double_of_int 1) det in
  Some {| gt1 := C.dmul (gt5 gt_in) inv_det;
          gt4 := C.dmul (C.dneg (gt4 gt_in)) inv_det;
          gt2 := C.dmul (C.dneg (gt2 gt_in)) inv_det;
          gt5 := C.dmul (gt1 gt_in) inv_det;
          gt0 := C.dmul (C.dsub (C.dmul (gt2 gt_in) (gt3 gt_in))
                                (C.dmul (gt0 gt_in) (gt5 gt_in))) inv_det;
          gt3 := C.dmul (C.dadd (C.dmul (C.dneg (gt1 gt_in)) (gt3 gt_in))
                                (C.dmul (gt0 gt_in) (gt4 gt_in))) inv_det |}.

End GDAL.

Import GDAL.

(** ** The program's data *)

Definition PIX_PER_CELL : Z := 30.
Definition IMG_DEPTH : Z := 3.

Definition VIEWER_COMP_LT : Z := 0.
Definition VIEWER_COMP_GT : Z := 1.
Definition VIEWER_COMP_EQ : Z := 2.

Definition VIEWER_MODE_COLORTABLE : Z := 1.
Definition VIEWER_MODE_GREYSCALE : Z := 2.
Definition VIEWER_MODE_RGB : Z := 3.
Definition VIEWER_MODE_PSEUDOCOLOR : Z := 4.

Definition VIEWER_STRETCHMODE_NONE : Z := 1.
Definition VIEWER_STRETCHMODE_LINEAR : Z := 2.
Definition VIEWER_STRETCHMODE_STDDEV : Z := 3.
Definition VIEWER_STRETCHMODE_HIST : Z := 4.

(** [struct stretch]: the rule part and the stretch part. *)
Record stretch : Type := {
  comp : Z;
  value : Z;
  ctband : Z;
  mode : Z;
  stretchmode : Z;
  stretchparam : list C.double;   (* [2] *)
  bands : list Z                  (* [3] *)
}.

(** [stretch->stretchparam[i]] and [stretch->bands[i]]. *)
Definition stretchparam_at (s : stretch) (i : nat) : C.double :=
  nth i (stretchparam s) C.dzero.

Definition bands_at (s : stretch) (i : nat) : Z := nth i (bands s) 0.

(** [struct stretchlist]: [num_stretches] is the length of the list. *)
Definition stretchlist : Type := list stretch.

Record extent : Type := {
  dCentreX : C.double;
  dCentreY : C.double;
  dMetersPerCell : C.double
}.

Record gdalFile : Type := {
  ds : GDALDataset;
  fullExtent : extent;
  file_stretch : stretch;
  adfTransform : GeoTransform
}.

(** [struct readInfo]: the arguments of [GDALRasterIO]. *)
Record readInfo : Type := {
  nXOff : Z; nYOff : Z; nXSize : Z; nYSize : Z;
  nDataOffset : Z;
  nBufXSize : Z; nBufYSize : Z
}.

(** [struct image]: the interleaved pixel bytes, the size and the dither. *)
Record image : Type := {
  pixels : list Z;
  w : Z;
  h : Z;
  dither : Z
}.

(** ** The stretch rule matcher *)

(** The four flags [hasRed], [hasGreen], [hasBlue], [hasAlpha] after the loop
    over the columns of a table. *)
Definition colour_flags (cols : list RATColumn) : bool * bool * bool * bool :=
  fold_left
    (fun '(hasRed, hasGreen, hasBlue, hasAlpha) c =>
       let usage := col_usage c in
       (if usage_eqb usage GFU_Red then true else hasRed,
        if usage_eqb usage GFU_Green then true else hasGreen,
        if usage_eqb usage GFU_Blue then true else hasBlue,
        if usage_eqb usage GFU_Alpha then true else hasAlpha))
    cols (false, false, false, false).

(** The comparison of a rule with the band count; [None] is the branch
    "invalid value for comparison". *)
Definition rule_comparison (rasterCount : Z) (pStretch : stretch) : option bool :=
  if comp pStretch =? VIEWER_COMP_LT then Some (rasterCount <? value pStretch)
  else if comp pStretch =? VIEWER_COMP_GT then Some (rasterCount >? value pStretch)
  else if comp pStretch =? VIEWER_COMP_EQ then Some (rasterCount =? value pStretch)
  else None.

(** The second test of the loop body: what [match] is after the colour
    table check, given its value [m] after the comparison. *)
Definition colour_table_check (d : GDALDataset) (rasterCount : Z)
  (pStretch : stretch) (m : bool) : bool :=
  if m && negb (ctband pStretch =? -1) && (ctband pStretch <=? rasterCount)
  then
    let bandh := GDALGetRasterBand d (ctband pStretch) in
    match GDALGetMetadataItem bandh "LAYER_TYPE" with
    | Some psz =>
        if String.eqb psz "thematic" then
          let '(hasRed, hasGreen, hasBlue, hasAlpha) :=
            match GDALGetDefaultRAT bandh with
            | Some rath => colour_flags (rat_columns rath)
            | None => (false, false, false, false)
            end in
          hasRed && hasGreen && hasBlue && hasAlpha
        else m
    | None => m
    end
  else m.

Fixpoint get_stretch_loop (d : GDALDataset) (rasterCount : Z)
  (stretches : list stretch) : option stretch :=
  match stretches with
  | [] => None
  | pStretch :: rest =>
      match rule_comparison rasterCount pStretch with
      | None => None
      | Some m =>
          if colour_table_check d rasterCount pStretch m
          then Some pStretch
          else get_stretch_loop d rasterCount rest
      end
  end.

(** [get_stretch_for_gdal]; [None] is the NULL return. *)
Definition get_stretch_for_gdal (stretchList : stretchlist) (d : GDALDataset)
  : option stretch :=
  get_stretch_loop d (GDALGetRasterCount d) stretchList.

(** ** The overview selector *)

(** [dPixelsPerCell] of overview [count], as the loop body computes it. *)
Definition overview_pixels_per_cell (d : GDALDataset) (bandh : GDALRasterBandH)
  (adf : GeoTransform) (e : extent) (count : Z) : outcome C.double :=
  let ovh := GDALGetOverview bandh count in
  nFactor <- defined (C.div (GDALGetRasterXSize d) (GDALGetRasterBandXSize ovh)) ;;
  Ret (C.ddiv (dMetersPerCell e) (C.dmul (gt1 adf) (C.double_of_int nFactor))).

(** The condition under which an overview replaces the best so far. *)
Definition improves (dPixelsPerCell dBestPixelsPerCell : C.double) : bool :=
  C.gt dPixelsPerCell (C.double_of_int PIX_PER_CELL)
  && C.lt (C.dsub dPixelsPerCell (C.double_of_int PIX_PER_CELL))
          (C.dsub dBestPixelsPerCell (C.double_of_int PIX_PER_CELL)).

(** The loop over the overviews, [todo] of them left from index [count]:
    the two variables [nBestIndex] and [dBestPixelsPerCell] after it. *)
Fixpoint best_overview_loop (d : GDALDataset) (bandh : GDALRasterBandH)
  (adf : GeoTransform) (e : extent) (todo : nat) (count : Z)
  (nBestIndex : Z) (dBestPixelsPerCell : C.double) : outcome (Z * C.double) :=
  match todo with
  | O => Ret (nBestIndex, dBestPixelsPerCell)
  | S todo' =>
      dPixelsPerCell <- overview_pixels_per_cell d bandh adf e count ;;
      if improves dPixelsPerCell dBestPixelsPerCell
      then best_overview_loop d bandh adf e todo' (count + 1)
             (count + 1) dPixelsPerCell
      else best_overview_loop d bandh adf e todo' (count + 1)
             nBestIndex dBestPixelsPerCell
  end.

(** [gdal_get_best_overview]: 0 for full resolution, overview index + 1
    otherwise. *)
Definition gdal_get_best_overview (d : GDALDataset) (e : extent) : outcome Z :=
  let bandh := GDALGetRasterBand d 1 in
  let nOverviews := GDALGetOverviewCount bandh in
  if nOverviews =? 0 then Ret 0 else
  match GDALGetGeoTransform d with
  | None => Ret 0
  | Some adf =>
      best <- best_overview_loop d bandh adf e (Z.to_nat nOverviews) 0
                0 (C.ddiv (dMetersPerCell e) (gt1 adf)) ;;
      Ret (fst best)
  end.

(** ** The radiometric stretches *)

(** The final clamp of a computed sample [dVal] (a [float]) to 0..255. *)
Definition clamp_sample (dVal : C.float) : C.float :=
  if C.lt dVal (C.float_of_int 0) then C.float_of_int 0
  else if C.gt dVal (C.float_of_int 255) then C.float_of_int 255
  else dVal.

(** One sample of the standard deviation stretch. *)
Definition stddev_sample (dMin dMax mean stddev param0 : C.double)
  (v : C.float) : C.float :=
  if C.le (C.double_of_float v) dMin || C.eq v (C.float_of_int 0)
  then C.float_of_int 0
  else if C.ge (C.double_of_float v) dMax then C.float_of_int 255
  else
    clamp_sample
      (C.float_of_double
         (C.ddiv
            (C.dmul
               (C.dadd (C.dsub (C.double_of_float v) mean) (C.dmul stddev param0))
               (C.double_of_int 255))
            (C.dmul (C.dmul stddev (C.double_of_int 2)) param0))).

(** [dStep] of the linear and histogram branches. *)
Definition stretch_step (lo hi : C.double) : C.double :=
  C.ddiv (C.dsub hi lo) (C.double_of_int 255).

(** One sample of the rescale between two bounds: the loop body shared, word
    for word, by the linear branch (bounds [dMin], [dMax]) and the histogram
    branch (bounds [dStretchMin], [dStretchMax]). *)
Definition rescale_sample (lo hi : C.double) (v : C.float) : C.float :=
  if C.le (C.double_of_float v) lo then C.float_of_int 0
  else if C.ge (C.double_of_float v) hi then C.float_of_int 255
  else
    clamp_sample
      (C.float_of_double
         (C.dmul (C.dsub (C.double_of_float v) lo) (stretch_step lo hi))).

(** A loop [for (n = 0; n < size; n++) pBuffer[n] = f (pBuffer[n])]. *)
Definition map_buffer (f : C.float -> C.float) (size : Z)
  (pBuffer : list C.float) : outcome (list C.float) :=
  if size <=? Z.of_nat (List.length pBuffer)
  then Ret (map f (firstn (Z.to_nat size) pBuffer)
            ++ skipn (Z.to_nat size) pBuffer)
  else Undef.

(** The block that [CPLMalloc (n * sizeof (int))] hands out, once it holds
    [contents]; [CPLMalloc (0)] returns NULL. *)
Definition CPLMalloc_block (n : nat) (contents : list Z) : option (list Z) :=
  match n with
  | O => None
  | S _ => Some contents
  end.

(** [pHisto] after the loop over the columns: the rows of the last column
    whose usage is [GFU_PixelCount], NULL when there is none or the table
    has no row. *)
Definition read_histogram (rath : GDALRasterAttributeTable) : option (list Z) :=
  fold_left
    (fun pHisto c =>
       if usage_eqb (col_usage c) GFU_PixelCount
       then CPLMalloc_block (rat_rows rath)
              (GDALRATValuesIOAsInteger c (rat_rows rath))
       else pHisto)
    (rat_columns rath) None.

(** [dSumHisto]. *)
Definition sum_histogram (pHisto : list Z) : C.double :=
  fold_left (fun acc v => C.dadd acc (C.double_of_int v)) pHisto C.dzero.

(** The scan from the bottom: [cells] are [pHisto[n..]]. *)
Fixpoint lower_scan (dMin dMax dBandLower : C.double) (nbins : Z)
  (cells : list Z) (n : Z) (dSumVals : C.double) : outcome C.double :=
  match cells with
  | [] => Ret dMin
  | c :: rest =>
      let dSumVals := C.dadd dSumVals (C.double_of_int c) in
      if C.gt dSumVals dBandLower
      then
        q <- defined (C.div n nbins) ;;
        Ret (C.dadd dMin (C.dmul (C.dsub dMax dMin) (C.double_of_int q)))
      else lower_scan dMin dMax dBandLower nbins rest (n + 1) dSumVals
  end.

(** The scan from the top: [cells] are [pHisto[n]], [pHisto[n-1]], ... *)
Fixpoint upper_scan (dMax dBandUpper : C.double) (nbins : Z)
  (cells : list Z) (n : Z) (dSumVals : C.double) : outcome C.double :=
  match cells with
  | [] => Ret dMax
  | c :: rest =>
      let dSumVals := C.dadd dSumVals (C.double_of_int c) in
      if C.gt dSumVals dBandUpper
      then
        q <- defined (C.div (C.sub (C.sub nbins n) 1) nbins) ;;
        Ret (C.dadd dMax (C.double_of_int q))
      else upper_scan dMax dBandUpper nbins rest (n - 1) dSumVals
  end.

Section Stretch.

(** [atof] of libc. *)
Variable atof : string -> C.double.

(** The [int] found one past the end of the block [pHisto]: the scan from
    the top starts at [n = nbins] and reads [pHisto[nbins]]. *)
Variable heap_past : Z.

(** [dStretchMin] and [dStretchMax] of the histogram branch. *)
Definition histogram_bounds (dMin dMax : C.double) (s : stretch)
  (nbins : Z) (pHisto : list Z) : outcome (C.double * C.double) :=
  let dSumHisto := sum_histogram pHisto in
  let dBandLower := C.dmul dSumHisto (stretchparam_at s 0) in
  let dBandUpper := C.dmul dSumHisto (stretchparam_at s 1) in
  dStretchMin <- lower_scan dMin dMax dBandLower nbins pHisto 0 C.dzero ;;
  dStretchMax <- upper_scan dMax dBandUpper nbins
                   (rev (pHisto ++ [heap_past])) nbins C.dzero ;;
  Ret (dStretchMin, dStretchMax).

(** [do_stretch]: [Ret] the buffer after a return of 1, [Err] after -1. *)
Definition do_stretch (pBuffer : list C.float) (bandh : GDALRasterBandH)
  (size : Z) (s : stretch) : outcome (list C.float) :=
  match GDALGetMetadataItem bandh "STATISTICS_MINIMUM",
        GDALGetMetadataItem bandh "STATISTICS_MAXIMUM" with
  | Some pszMin, Some pszMax =>
      let dMin := atof pszMin in
      let dMax := atof pszMax in
      if stretchmode s =? VIEWER_STRETCHMODE_STDDEV then
        match GDALGetMetadataItem bandh "STATISTICS_STDDEV",
              GDALGetMetadataItem bandh "STATISTICS_MEAN" with
        | Some pszStdDev, Some pszMean =>
            let stddev := atof pszStdDev in
            let mean := atof pszMean in
            map_buffer
              (stddev_sample dMin dMax mean stddev (stretchparam_at s 0))
              size pBuffer
        | _, _ => Err "Statistics not available. Run gdalcalcstats first"
        end
      else if stretchmode s =? VIEWER_STRETCHMODE_HIST then
        match GDALGetDefaultRAT bandh with
        | None => Err "Histogram not available. Run gdalcalcstats first"
        | Some rath =>
            let nbins := GDALRATGetRowCount rath in
            match read_histogram rath with
            | None => Err "Histogram not available. Run gdalcalcstats first"
            | Some pHisto =>
                b <- histogram_bounds dMin dMax s nbins pHisto ;;
                map_buffer (rescale_sample (fst b) (snd b)) size pBuffer
            end
        end
      else if stretchmode s =? VIEWER_STRETCHMODE_LINEAR then
        map_buffer (rescale_sample dMin dMax) size pBuffer
      else if negb (stretchmode s =? VIEWER_STRETCHMODE_NONE) then
        Err "stretch not currently supported"
      else Ret pBuffer
  | _, _ => Err "Statistics not available. Run gdalcalcstats first"
  end.

End Stretch.

(** ** The window mapper *)

Section Window.

(** The canvas size in cells: the globals [ww] and [wh]. *)
Variables ww wh : Z.

(** The clip of one coordinate from below: [if (x1 < 0) { leftExtra =
    abs(x1); x1 = 0; }], giving the extra and the coordinate. *)
Definition clip_low (x1 : C.double) : outcome (Z * C.double) :=
  if C.lt x1 (C.double_of_int 0)
  then
    i <- defined (C.int_of_double x1) ;;
    Ret (C.abs i, C.double_of_int 0)
  else Ret (0, x1).

(** The clip from above: [if (x2 >= width) { rightExtra = (x2 - width - 1);
    x2 = width - 1; }]. *)
Definition clip_high (x2 : C.double) (width : Z) : outcome (Z * C.double) :=
  if C.ge x2 (C.double_of_int width)
  then
    extra <- defined (C.int_of_double
               (C.dsub (C.dsub x2 (C.double_of_int width)) (C.double_of_int 1))) ;;
    Ret (extra, C.double_of_int (C.sub width 1))
  else Ret (0, x2).

(** [extra = (extra / (double)origIn) * dataSize], back in an [int]. *)
Definition rescale_extra (extra origIn dataSize : Z) : outcome Z :=
  defined (C.int_of_double
    (C.dmul (C.ddiv (C.double_of_int extra) (C.double_of_int origIn))
            (C.double_of_int dataSize))).

(** The first half of [prepare_for_reading]: the corners [(x1, y1)] and
    [(x2, y2)] of the view in pixels of the level read; [Err] after a
    return of 0. *)
Definition source_corners (d : GDALDataset) (ovh : GDALRasterBandH)
  (e : extent) : outcome (C.double * C.double * C.double * C.double) :=
  let width := GDALGetRasterBandXSize ovh in
  nFactor <- defined (C.div (GDALGetRasterXSize d) width) ;;
  let halfW := C.dmul (C.ddiv (C.double_of_int ww) (C.double_of_int 2))
                      (dMetersPerCell e) in
  let halfH := C.dmul (C.ddiv (C.double_of_int wh) (C.double_of_int 2))
                      (dMetersPerCell e) in
  let dTLX := C.dsub (dCentreX e) halfW in
  let dBRX := C.dadd (dCentreX e) halfW in
  let dTLY := C.dadd (dCentreY e) halfH in
  let dBRY := C.dsub (dCentreY e) halfH in
  match GDALGetGeoTransform d with
  | None => Err "Image has no geotransform"
  | Some adf =>
      let adf :=
        {| gt0 := gt0 adf;
           gt1 := C.dmul (gt1 adf) (C.double_of_int nFactor);
           gt2 := gt2 adf;
           gt3 := gt3 adf;
           gt4 := gt4 adf;
           gt5 := C.dmul (gt5 adf) (C.double_of_int nFactor) |} in
      match GDALInvGeoTransform adf with
      | None => Err "Unable to invert transform"
      | Some adfInvert =>
          let '(x1, y1) := GDALApplyGeoTransform adfInvert dTLX dTLY in
          let '(x2, y2) := GDALApplyGeoTransform adfInvert dBRX dBRY in
          Ret (x1, y1, x2, y2)
      end
  end.

(** The second half: the clip to the level and the window in the
    destination buffer. *)
Definition clip_window (dataWidth dataHeight width height : Z)
  (corners : C.double * C.double * C.double * C.double) : outcome readInfo :=
  let '(x1, y1, x2, y2) := corners in
  origWidthIn <- defined (C.int_of_double (C.round (C.dsub x2 x1))) ;;
  origHeightIn <- defined (C.int_of_double (C.round (C.dsub y2 y1))) ;;
  l <- clip_low x1 ;;
  r <- clip_high x2 width ;;
  t <- clip_low y1 ;;
  b <- clip_high y2 height ;;
  let '(leftExtra, x1) := l in
  let '(rightExtra, x2) := r in
  let '(topExtra, y1) := t in
  let '(bottomExtra, y2) := b in
  widthIn <- defined (C.int_of_double (C.round (C.dsub x2 x1))) ;;
  heightIn <- defined (C.int_of_double (C.round (C.dsub y2 y1))) ;;
  tlx <- defined (C.int_of_double x1) ;;
  tly <- defined (C.int_of_double y1) ;;
  leftExtra <- rescale_extra leftExtra origWidthIn dataWidth ;;
  rightExtra <- rescale_extra rightExtra origWidthIn dataWidth ;;
  topExtra <- rescale_extra topExtra origHeightIn dataHeight ;;
  bottomExtra <- rescale_extra bottomExtra origHeightIn dataHeight ;;
  Ret {| nXOff := tlx;
         nYOff := tly;
         nXSize := widthIn;
         nYSize := heightIn;
         nDataOffset := C.add leftExtra (C.mul topExtra dataWidth);
         nBufXSize := C.sub (C.sub dataWidth leftExtra) rightExtra;
         nBufYSize := C.sub (C.sub dataHeight topExtra) bottomExtra |}.

(** [prepare_for_reading]: [Ret] the filled [readInfo] after a return of 1,
    [Err] after a return of 0. *)
Definition prepare_for_reading (dataWidth dataHeight : Z) (d : GDALDataset)
  (ovh : GDALRasterBandH) (e : extent) : outcome readInfo :=
  corners <- source_corners d ovh e ;;
  clip_window dataWidth dataHeight
    (GDALGetRasterBandXSize ovh) (GDALGetRasterBandYSize ovh) corners.

End Window.

(** ** The image composers *)

(** All the samples of a buffer as pixel bytes. *)
Fixpoint bytes_of_buffer (pBuffer : list C.float) : outcome (list Z) :=
  match pBuffer with
  | [] => Ret []
  | v :: rest =>
      b <- defined (C.uchar_of_float v) ;;
      bs <- bytes_of_buffer rest ;;
      Ret (b :: bs)
  end.

(** The copy of one band into the interleaved buffer: byte [i] goes to
    [px[count + i * IMG_DEPTH]]. *)
Fixpoint store_channel (count : nat) (bytes px : list Z) : list Z :=
  match bytes, px with
  | b :: bs, p0 :: p1 :: p2 :: rest =>
      match count with
      | O => b :: p1 :: p2 :: store_channel count bs rest
      | S O => p0 :: b :: p2 :: store_channel count bs rest
      | _ => p0 :: p1 :: b :: store_channel count bs rest
      end
  | _, _ => px
  end.

(** The greyscale copy: every sample three times. *)
Fixpoint replicate_grey (bytes : list Z) : list Z :=
  match bytes with
  | [] => []
  | b :: bs => b :: b :: b :: replicate_grey bs
  end.

(** [p[i]] for a block [p] of [int]; out of the block the read is
    undefined. *)
Definition read_int (p : list Z) (i : Z) : outcome Z :=
  if i <? 0 then Undef else defined (nth_error p (Z.to_nat i)).

(** The colour table copy: for every sample the three looked up bytes. *)
Fixpoint lookup_colours (pRed pGreen pBlue : list Z) (pBuffer : list C.float)
  : outcome (list Z) :=
  match pBuffer with
  | [] => Ret []
  | v :: rest =>
      i <- defined (C.int_of_double v) ;;
      r <- read_int pRed i ;;
      g <- read_int pGreen i ;;
      b <- read_int pBlue i ;;
      px <- lookup_colours pRed pGreen pBlue rest ;;
      Ret (C.to_uchar r :: C.to_uchar g :: C.to_uchar b :: px)
  end.

Section Render.

Variables ww wh : Z.
Variable atof : string -> C.double.
Variable heap_past : Z.

(** The contents of a fresh [CPLMalloc] block of [n] ints. *)
Variable CPLMalloc_ints : nat -> list Z.

(** [GDALRasterIO (ovh, GF_Read, info, &pBuffer[info.nDataOffset], ...,
    line stride)]: the buffer after the read.  The program ignores the
    error code. *)
Variable GDALRasterIO :
  GDALRasterBandH -> readInfo -> Z -> list C.float -> list C.float.

(** [caca_create_dither (bpp, w, h, pitch, masks)]; [None] is NULL. *)
Variable caca_create_dither : Z -> Z -> Z -> Z -> option Z.

(** [CPLCalloc]: a zeroed block. *)
Definition zero_pixels (n : Z) : list Z := repeat 0 (Z.to_nat n).
Definition zero_buffer (n : Z) : list C.float := repeat C.fzero (Z.to_nat n).

(** The band, or the overview of it, that a level reads from. *)
Definition level_band (bandh : GDALRasterBandH) (overviewIndex : Z)
  : GDALRasterBandH :=
  if overviewIndex =? 0 then bandh
  else GDALGetOverview bandh (overviewIndex - 1).

(** The last step of both composers. *)
Definition finish_image (px : list Z) (w h : Z) : outcome image :=
  match caca_create_dither (8 * IMG_DEPTH) w h (IMG_DEPTH * w) with
  | None => Err "Unable to create dither"
  | Some dth => Ret {| pixels := px; w := w; h := h; dither := dth |}
  end.

(** The loop over the three bands of [gdal_read_multiband], [todo] bands
    left from index [count]. *)
Fixpoint read_bands (d : GDALDataset) (overviewIndex : Z) (s : stretch)
  (info : readInfo) (w h : Z) (todo count : nat)
  (pBuffer : list C.float) (px : list Z) : outcome (list Z) :=
  match todo with
  | O => Ret px
  | S todo' =>
      let bandh := GDALGetRasterBand d (bands_at s count) in
      let ovh := level_band bandh overviewIndex in
      let pBuffer := GDALRasterIO ovh info w pBuffer in
      pBuffer <- do_stretch atof heap_past pBuffer bandh
                   (C.wrap (C.unsigned (w * h))) s ;;
      bytes <- bytes_of_buffer pBuffer ;;
      read_bands d overviewIndex s info w h todo' (S count) pBuffer
        (store_channel count bytes px)
  end.

Definition gdal_read_multiband (d : GDALDataset) (overviewIndex : Z)
  (s : stretch) (e : extent) : outcome image :=
  let bandh := GDALGetRasterBand d (bands_at s 0) in
  let ovh := level_band bandh overviewIndex in
  let w := C.unsigned (C.mul PIX_PER_CELL ww) in
  let h := C.unsigned (C.mul PIX_PER_CELL wh) in
  info <- prepare_for_reading ww wh (C.wrap w) (C.wrap h) d ovh e ;;
  let n := C.unsigned (w * h) in
  px <- read_bands d overviewIndex s info w h 3 0
          (zero_buffer n) (zero_pixels (n * IMG_DEPTH)) ;;
  finish_image px w h.

(** The three blocks [pRed], [pGreen], [pBlue] while the columns are
    read; [None] is NULL. *)
Definition colour_blocks : Type :=
  (option (list Z) * option (list Z) * option (list Z))%type.

(** The loop over the columns of the colour table branch.  A red or green
    column is read into a fresh block of its own; a blue column gets a
    fresh block [pBlue], and its rows are read into [pGreen].  On a table
    without rows every block is NULL and nothing is read. *)
Fixpoint read_colour_columns (rows : nat) (cols : list RATColumn)
  (blocks : colour_blocks) : outcome colour_blocks :=
  match cols with
  | [] => Ret blocks
  | c :: rest =>
      let '(pRed, pGreen, pBlue) := blocks in
      let eUsage := col_usage c in
      if usage_eqb eUsage GFU_Red then
        read_colour_columns rows rest
          (CPLMalloc_block rows (GDALRATValuesIOAsInteger c rows),
           pGreen, pBlue)
      else if usage_eqb eUsage GFU_Green then
        read_colour_columns rows rest
          (pRed, CPLMalloc_block rows (GDALRATValuesIOAsInteger c rows),
           pBlue)
      else if usage_eqb eUsage GFU_Blue then
        match rows, pGreen with
        | O, _ => read_colour_columns rows rest (pRed, pGreen, None)
        | S _, None => Undef
        | S _, Some _ =>
            read_colour_columns rows rest
              (pRed, Some (GDALRATValuesIOAsInteger c rows),
               Some (CPLMalloc_ints rows))
        end
      else read_colour_columns rows rest blocks
  end.

Definition gdal_read_singleband (d : GDALDataset) (overviewIndex : Z)
  (s : stretch) (e : extent) : outcome image :=
  let bandh := GDALGetRasterBand d (bands_at s 0) in
  let ovh := level_band bandh overviewIndex in
  let w := C.unsigned (C.mul PIX_PER_CELL ww) in
  let h := C.unsigned (C.mul PIX_PER_CELL wh) in
  info <- prepare_for_reading ww wh (C.wrap w) (C.wrap h) d ovh e ;;
  let n := C.unsigned (w * h) in
  let pBuffer := GDALRasterIO ovh info w (zero_buffer n) in
  pBuffer <- do_stretch atof heap_past pBuffer bandh (C.wrap n) s ;;
  if mode s =? VIEWER_MODE_COLORTABLE then
    match GDALGetDefaultRAT bandh with
    | None => Err "Unable to Raster Attribute Table"
    | Some rath =>
        blocks <- read_colour_columns (rat_rows rath) (rat_columns rath)
                    (None, None, None) ;;
        match blocks with
        | (Some pRed, Some pGreen, Some pBlue) =>
            px <- lookup_colours pRed pGreen pBlue pBuffer ;;
            finish_image px w h
        | _ => Err "Unable to find Red, Green and Blue columns"
        end
    end
  else if mode s =? VIEWER_MODE_GREYSCALE then
    bytes <- bytes_of_buffer pBuffer ;;
    finish_image (replicate_grey bytes) w h
  else Err "Unsupported stretch".

(** [gdal_load_image]: [Ret] the image, [Err] for the NULL return with the
    message of the stage that failed. *)
Definition gdal_load_image (file : gdalFile) (e : extent) : outcome image :=
  overviewIndex <- gdal_get_best_overview (ds file) e ;;
  if mode (file_stretch file) =? VIEWER_MODE_RGB
  then gdal_read_multiband (ds file) overviewIndex (file_stretch file) e
  else gdal_read_singleband (ds file) overviewIndex (file_stretch file) e.

End Render.


(** ** The rule strings

    [CSLTokenizeString2] of GDAL's string list module, [isspace] and [atol]
    of libc, modelled from their documented behaviour for the flags the
    program passes (the quoting flags are never set). *)

Module Text.

(** [isspace] in the C locale. *)
Definition isspace (c : ascii) : bool :=
  let n := nat_of_ascii c in
  Nat.eqb n 32 || (Nat.leb 9 n && Nat.leb n 13).

(** [strchr (pszDelimiters, c) != NULL] for a character that is not NUL. *)
Fixpoint strchr (s : string) (c : ascii) : bool :=
  match s with
  | EmptyString => false
  | String x rest => Ascii.eqb x c || strchr rest c
  end.

Definition CSLT_ALLOWEMPTYTOKENS : Z := 2.
Definition CSLT_STRIPLEADSPACES : Z := 16.
Definition CSLT_STRIPENDSPACES : Z := 32.

Definition flag_set (nCSLTFlags flag : Z) : bool :=
  negb (Z.land nCSLTFlags flag =? 0).

(** The token without the spaces at its end. *)
Fixpoint strip_end (tok : string) : string :=
  match tok with
  | EmptyString => EmptyString
  | String c rest =>
      match strip_end rest with
      | EmptyString => if isspace c then EmptyString else String c EmptyString
      | kept => String c kept
      end
  end.

(** The token as it is added to the list, or not added when it is empty
    and empty tokens are not allowed. *)
Definition add_token (nCSLTFlags : Z) (tok : string) : list string :=
  let tok := if flag_set nCSLTFlags CSLT_STRIPENDSPACES
             then strip_end tok else tok in
  match tok with
  | EmptyString =>
      if flag_set nCSLTFlags CSLT_ALLOWEMPTYTOKENS then [tok] else []
  | _ => [tok]
  end.

(** The scan of the string: [tok] is the token collected so far and
    [bStartString] tells that nothing but leading spaces has been seen of
    it.  A delimiter closes the token; a delimiter at the very end of the
    string leaves one more empty token when those are allowed. *)
Fixpoint scan_tokens (pszDelimiters : string) (nCSLTFlags : Z)
  (pszString tok : string) (bStartString : bool) : list string :=
  match pszString with
  | EmptyString => add_token nCSLTFlags tok
  | String c rest =>
      if strchr pszDelimiters c then
        add_token nCSLTFlags tok
        ++ match rest with
           | EmptyString =>
               if flag_set nCSLTFlags CSLT_ALLOWEMPTYTOKENS
               then [EmptyString] else []
           | _ => scan_tokens pszDelimiters nCSLTFlags rest EmptyString true
           end
      else if flag_set nCSLTFlags CSLT_STRIPLEADSPACES
              && bStartString && isspace c
      then scan_tokens pszDelimiters nCSLTFlags rest tok bStartString
      else scan_tokens pszDelimiters nCSLTFlags rest
             (String.append tok (String c EmptyString)) false
  end.

(** [CSLTokenizeString2 (pszString, pszDelimiters, nCSLTFlags)]: the list
    of tokens; [pszTokens[n]] is NULL from the length of the list on. *)
Definition CSLTokenizeString2 (pszString pszDelimiters : string)
  (nCSLTFlags : Z) : list string :=
  match pszString with
  | EmptyString => []
  | _ => scan_tokens pszDelimiters nCSLTFlags pszString EmptyString true
  end.

(** The value of the digits at the head of a string, and what [atol]
    reads: spaces, an optional sign, digits; clamped to a 64-bit [long]. *)
Fixpoint leading_digits (s : string) (acc : Z) : Z :=
  match s with
  | EmptyString => acc
  | String c rest =>
      let n := nat_of_ascii c in
      if Nat.leb 48 n && Nat.leb n 57
      then leading_digits rest (10 * acc + (Z.of_nat n - 48))
      else acc
  end.

Fixpoint atol_from (s : string) : Z :=
  match s with
  | EmptyString => 0
  | String c rest =>
      if isspace c then atol_from rest
      else if Ascii.eqb c "-" then - leading_digits rest 0
      else if Ascii.eqb c "+" then leading_digits rest 0
      else leading_digits s 0
  end.

Definition atol (s : string) : Z :=
  Z.max (- 2 ^ 63) (Z.min (2 ^ 63 - 1) (atol_from s)).

(** [snprintf (buf, size, ...)]: the text cut to [size - 1] characters. *)
Definition snprintf (size : Z) (text : string) : string :=
  substring 0 (Z.to_nat (size - 1)) text.

(** ["%d"] of an [int]. *)
Definition format_d (z : Z) : string :=
  DecimalString.NilZero.string_of_int (Z.to_int z).

End Text.

Definition GDAL_ERROR_SIZE : Z := 1024.

(** The strings of [pszDefaultStretchRules]. *)
Definition pszDefaultStretchRules : list string :=
  [ "equal,1,1:colortable,none,,1";
    "equal,1,-1:greyscale,none,,1";
    "equal,2,-1:greyscale,none,,1";
    "equal,3,-1:rgb,none,,1|2|3";
    "less,6,-1:rgb,stddev,2.0,4|3|2";
    "greater,5,-1:rgb,stddev,2.0,5|4|2" ].

(** Assignments to the fields of a [struct stretch]. *)
Definition set_rule_part (s : stretch) (c v ct : Z) : stretch :=
  {| comp := c; value := v; ctband := ct;
     mode := mode s; stretchmode := stretchmode s;
     stretchparam := stretchparam s; bands := bands s |}.

Definition set_stretch_part (s : stretch) (m sm : Z)
  (params : list C.double) (bs : list Z) : stretch :=
  {| comp := comp s; value := value s; ctband := ctband s;
     mode := m; stretchmode := sm;
     stretchparam := params; bands := bs |}.

(** [a[i] = v] on an array held as a list, slots never written reading as
    [d]. *)
Definition array_set {A : Type} (d : A) (a : list A) (i : nat) (v : A)
  : list A :=
  firstn i (a ++ repeat d (i - List.length a)) ++ v :: skipn (S i) a.

(** The loop [i = 0; while (i < limit) { if (tokens[i] == NULL) break;
    a[i] = conv (tokens[i]); i++; }]. *)
Fixpoint store_tokens {A : Type} (d : A) (conv : string -> A)
  (limit : nat) (tokens : list string) (i : nat) (a : list A) : list A :=
  match limit, tokens with
  | S limit', tok :: rest =>
      store_tokens d conv limit' rest (S i) (array_set d a i (conv tok))
  | _, _ => a
  end.

Definition rule_flags : Z :=
  Z.lor (Z.lor Text.CSLT_STRIPLEADSPACES Text.CSLT_STRIPENDSPACES)
        Text.CSLT_ALLOWEMPTYTOKENS.

Definition list_flags : Z :=
  Z.lor Text.CSLT_STRIPLEADSPACES Text.CSLT_STRIPENDSPACES.

(** [rulepart_from_string]: the part left of the colon.  [Ret] is the struct
    after a return of 1; [Err] is a return of 0 with the line printed on
    stderr (without its newline). *)
Definition rulepart_from_string (newStretch : stretch) (pszString : string)
  : outcome stretch :=
  let pszTokens := Text.CSLTokenizeString2 pszString "," rule_flags in
  match nth_error pszTokens 0 with
  | None => Err "Missing comparison in rule string"
  | Some pszTmp =>
      match
        (if String.eqb pszTmp "less" then Some VIEWER_COMP_LT
         else if String.eqb pszTmp "greater" then Some VIEWER_COMP_GT
         else if String.eqb pszTmp "equal" then Some VIEWER_COMP_EQ
         else None)
      with
      | None => Err (String.append "Unable to understand comparison " pszTmp)
      | Some c =>
          match nth_error pszTokens 1 with
          | None => Err "Missing comparison value in rule string"
          | Some pszValue =>
              match nth_error pszTokens 2 with
              | None => Err "Missing color table band value in rule string"
              | Some pszBand =>
                  Ret (set_rule_part newStretch c
                         (C.wrap (Text.atol pszValue))
                         (C.wrap (Text.atol pszBand)))
              end
          end
      end
  end.

Section Parse.

(** [atof] of libc. *)
Variable atof : string -> C.double.

(** [stretchpart_from_string]: the part right of the colon. *)
Definition stretchpart_from_string (newStretch : stretch) (pszString : string)
  : outcome stretch :=
  let pszTokens := Text.CSLTokenizeString2 pszString "," rule_flags in
  match nth_error pszTokens 0 with
  | None => Err "Missing value in rule string"
  | Some pszTmp =>
      match
        (if String.eqb pszTmp "colortable" then Some VIEWER_MODE_COLORTABLE
         else if String.eqb pszTmp "greyscale" then Some VIEWER_MODE_GREYSCALE
         else if String.eqb pszTmp "rgb" then Some VIEWER_MODE_RGB
         else None)
      with
      | None => Err (String.append "Unable to understand stretch mode " pszTmp)
      | Some m =>
          match nth_error pszTokens 1 with
          | None => Err "Missing value in rule string"
          | Some pszMode =>
              match
                (if String.eqb pszMode "none" || String.eqb pszMode EmptyString
                 then Some VIEWER_STRETCHMODE_NONE
                 else if String.eqb pszMode "linear"
                 then Some VIEWER_STRETCHMODE_LINEAR
                 else if String.eqb pszMode "stddev"
                 then Some VIEWER_STRETCHMODE_STDDEV
                 else if String.eqb pszMode "histogram"
                 then Some VIEWER_STRETCHMODE_HIST
                 else None)
              with
              | None =>
                  Err (String.append "Unable to understand stretch mode "
                         pszMode)
              | Some sm =>
                  match nth_error pszTokens 2 with
                  | None => Err "Missing value in rule string"
                  | Some pszParams =>
                      let params :=
                        store_tokens C.dzero atof 2
                          (Text.CSLTokenizeString2 pszParams "|" list_flags)
                          0 (stretchparam newStretch) in
                      match nth_error pszTokens 3 with
                      | None => Err "Missing value in rule string"
                      | Some pszBands =>
                          let bs :=
                            store_tokens 0
                              (fun t => C.wrap (Text.atol t)) 3
                              (Text.CSLTokenizeString2 pszBands "|" list_flags)
                              0 (bands newStretch) in
                          Ret (set_stretch_part newStretch m sm params bs)
                      end
                  end
              end
          end
      end
  end.

(** [stretch_from_string]: the rule, a colon, the stretch. *)
Definition stretch_from_string (newStretch : stretch) (pszString : string)
  : outcome stretch :=
  let pszRuleAndStretch := Text.CSLTokenizeString2 pszString ":" rule_flags in
  match nth_error pszRuleAndStretch 0 with
  | None => Err "Missing rule string"
  | Some pszRule =>
      newStretch <- rulepart_from_string newStretch pszRule ;;
      match nth_error pszRuleAndStretch 1 with
      | None => Err "Missing stretch string"
      | Some pszStretch => stretchpart_from_string newStretch pszStretch
      end
  end.

(** The loop of [main] over a table of rule strings: entry [i] of the
    stretch list starts as the block [fresh i] that [CPLRealloc] hands out;
    [Err] is the [exit (1)] on a string that does not parse. *)
Fixpoint load_rules (fresh : nat -> stretch) (i : nat) (rules : list string)
  : outcome stretchlist :=
  match rules with
  | [] => Ret []
  | pszRule :: rest =>
      s <- stretch_from_string (fresh i) pszRule ;;
      l <- load_rules fresh (S i) rest ;;
      Ret (s :: l)
  end.

End Parse.

(** ** Opening and closing a file *)

(** [MAX] of cpl_port.h: [((a > b) ? a : b)]. *)
Definition MAX (a b : C.double) : C.double := if C.gt a b then a else b.

(** What every query of the program answers on a NULL dataset handle:
    size 0, no band, no geotransform. *)
Definition NULL_dataset : GDALDataset :=
  {| ds_xsize := 0; ds_ysize := 0; ds_geotransform := None; ds_bands := [] |}.

(** [gdal_close_file]: [file->ds = NULL]. *)
Definition gdal_close_file (file : gdalFile) : gdalFile :=
  {| ds := NULL_dataset;
     fullExtent := fullExtent file;
     file_stretch := file_stretch file;
     adfTransform := adfTransform file |}.

Section Status.

(** ["%.2f"] of a [double]. *)
Variable format_2f : C.double -> string.

(** [get_stretch_as_string]: the text of the status line. *)
Definition get_stretch_as_string (s : stretch) : string :=
  let szMode :=
    if mode s =? VIEWER_MODE_COLORTABLE then
      Text.snprintf GDAL_ERROR_SIZE
        (String.append "Color Table " (Text.format_d (bands_at s 0)))
    else if mode s =? VIEWER_MODE_GREYSCALE then
      Text.snprintf GDAL_ERROR_SIZE
        (String.append "GreyScale " (Text.format_d (bands_at s 0)))
    else if mode s =? VIEWER_MODE_RGB then
      Text.snprintf GDAL_ERROR_SIZE
        (String.append "RGB "
           (String.append (Text.format_d (bands_at s 0))
              (String.append " "
                 (String.append (Text.format_d (bands_at s 1))
                    (String.append " " (Text.format_d (bands_at s 2)))))))
    else if mode s =? VIEWER_MODE_PSEUDOCOLOR then
      Text.snprintf GDAL_ERROR_SIZE
        (String.append "PseudoColor " (Text.format_d (bands_at s 0)))
    else EmptyString in
  let szStretchMode :=
    if stretchmode s =? VIEWER_STRETCHMODE_NONE then
      Text.snprintf GDAL_ERROR_SIZE " No Stretch"
    else if stretchmode s =? VIEWER_STRETCHMODE_LINEAR then
      Text.snprintf GDAL_ERROR_SIZE
        (String.append " Linear Stretch "
           (String.append (format_2f (stretchparam_at s 0))
              (String.append " - " (format_2f (stretchparam_at s 1)))))
    else if stretchmode s =? VIEWER_STRETCHMODE_STDDEV then
      Text.snprintf GDAL_ERROR_SIZE
        (String.append " Standard Deviation "
           (format_2f (stretchparam_at s 0)))
    else if stretchmode s =? VIEWER_STRETCHMODE_HIST then
      Text.snprintf GDAL_ERROR_SIZE
        (String.append " Histogram Stretch "
           (String.append (format_2f (stretchparam_at s 0))
              (String.append " - " (format_2f (stretchparam_at s 1)))))
    else EmptyString in
  String.append szMode szStretchMode.

End Status.

Section Open.

Variables ww wh : Z.

(** [GDALOpen (pszFile, GA_ReadOnly)]; [None] is NULL. *)
Variable GDALOpen : string -> option GDALDataset.

Variable format_2f : C.double -> string.

(** The extent that shows the whole dataset. *)
Definition full_extent (d : GDALDataset) (adf : GeoTransform) : extent :=
  let xsize := GDALGetRasterXSize d in
  let ysize := GDALGetRasterYSize d in
  {| dCentreX :=
       C.dadd (gt0 adf)
         (C.dmul (gt1 adf) (C.double_of_int (C.wrap (Z.quot xsize 2))));
     dCentreY :=
       C.dadd (gt3 adf)
         (C.dmul (gt5 adf) (C.double_of_int (C.wrap (Z.quot ysize 2))));
     dMetersPerCell :=
       MAX (C.ddiv (C.dmul (gt1 adf) (C.double_of_int xsize))
                   (C.double_of_int ww))
           (C.ddiv (C.dmul (C.dneg (gt5 adf)) (C.double_of_int ysize))
                   (C.double_of_int wh)) |}.

(** [gdal_open_file]: the new value of [pszStretchStatusString] when the
    call sets it, and [Ret] the filled [struct gdalFile] after a return of
    1, [Err] after a return of 0.  [pCmdStretch] is the stretch of the
    command line, [None] for NULL. *)
Definition gdal_open_file (pszFile : string) (stretchList : stretchlist)
  (pCmdStretch : option stretch) : option string * outcome gdalFile :=
  match GDALOpen pszFile with
  | None =>
      (None,
       Err (Text.snprintf GDAL_ERROR_SIZE
              (String.append "Could not open "
                 (String.append pszFile " with GDAL"))))
  | Some d =>
      match
        (match pCmdStretch with
         | Some s => Some s
         | None => get_stretch_for_gdal stretchList d
         end)
      with
      | None =>
          (None,
           Err (Text.snprintf GDAL_ERROR_SIZE
                  (String.append "Could not find stretch to use for "
                     pszFile)))
      | Some s =>
          (Some (get_stretch_as_string format_2f s),
           match GDALGetGeoTransform d with
           | None => Err (Text.snprintf GDAL_ERROR_SIZE "No Geo Transform")
           | Some adf =>
               Ret {| ds := d;
                      fullExtent := full_extent d adf;
                      file_stretch := s;
                      adfTransform := adf |}
           end)
      end
  end.

End Open.

Section Session.

Variables ww wh : Z.
Variable atof : string -> C.double.
Variable heap_past : Z.
Variable CPLMalloc_ints : nat -> list Z.
Variable GDALRasterIO :
  GDALRasterBandH -> readInfo -> Z -> list C.float -> list C.float.
Variable caca_create_dither : Z -> Z -> Z -> Z -> option Z.

(** [gdal_load_image] with its effect on the file: a reader that returns
    -1 has the file closed before NULL is returned. *)
Definition gdal_load_image_on (file : gdalFile) (e : extent)
  : outcome image * gdalFile :=
  match gdal_load_image ww wh atof heap_past CPLMalloc_ints GDALRasterIO
          caca_create_dither file e with
  | Ret im => (Ret im, file)
  | Err msg => (Err msg, gdal_close_file file)
  | Undef => (Undef, file)
  end.

End Session.

(** ** The gamma of the display *)

(** [p[i]] for a block [p] of [float]; out of the block the read is
    undefined. *)
Definition read_float (p : list C.float) (i : Z) : outcome C.float :=
  if i <? 0 then Undef else defined (nth_error p (Z.to_nat i)).

Definition GAMMA_MAX : Z := 100.

(** [GAMMA_FACTOR], the [float] constant [1.04f]. *)
Definition GAMMA_FACTOR : C.float :=
  SFdiv C.fprec C.femax (C.float_of_int 104) (C.float_of_int 100).

(** The table [gammatab] as [main] fills it: [gammatab[0] = 1.0] and
    [gammatab[i + 1] = gammatab[i] * GAMMA_FACTOR], [GAMMA_MAX + 1] slots. *)
Fixpoint fill_gammatab (n : nat) (last : C.float) : list C.float :=
  match n with
  | O => []
  | S n' =>
      let next := SFmul C.fprec C.femax last GAMMA_FACTOR in
      next :: fill_gammatab n' next
  end.

Definition gammatab : list C.float :=
  C.float_of_int 1 :: fill_gammatab (Z.to_nat GAMMA_MAX) (C.float_of_int 1).

(** [set_gamma]: the global [g] after the call and the gamma handed to
    [caca_set_dither_gamma], when there is an image; nothing without one.
    A read outside [gammatab] is undefined. *)
Definition set_gamma (has_image : bool) (g new_gamma : Z)
  : outcome (Z * option C.float) :=
  if negb has_image then Ret (g, None) else
  let g := new_gamma in
  let g := if g >? GAMMA_MAX then GAMMA_MAX else g in
  let g := if g <? - GAMMA_MAX then - GAMMA_MAX else g in
  t <- read_float gammatab (if g <? 0 then C.sub 0 g else g) ;;
  Ret (g,
       Some (C.float_of_double
               (if g <? 0
                then C.ddiv (C.double_of_int 1) (C.double_of_float t)
                else C.double_of_float t))).

(** ** The overview selector of the first version

    [gdal_get_best_overview] as src/gdalcacaview.c has it: the first
    overview that is smaller than [MAX_OVERVIEW_SIZE] both ways, -1 when
    there is none. *)

Module FirstVersion.

Definition MAX_OVERVIEW_SIZE : Z := 3000.

(** The loop [while (count < GDALGetOverviewCount (bandh))], [todo]
    overviews left from index [count]. *)
Fixpoint overview_loop (bandh : GDALRasterBandH) (todo : nat) (count : Z)
  (overviewIndex : Z) : Z :=
  match todo with
  | O => overviewIndex
  | S todo' =>
      let ovh := GDALGetOverview bandh count in
      if (GDALGetRasterBandXSize ovh <? MAX_OVERVIEW_SIZE)
         && (GDALGetRasterBandYSize ovh <? MAX_OVERVIEW_SIZE)
      then count
      else overview_loop bandh todo' (count + 1) overviewIndex
  end.

Definition gdal_get_best_overview (d : GDALDataset) : Z :=
  let bandh := GDALGetRasterBand d 1 in
  overview_loop bandh (Z.to_nat (GDALGetOverviewCount bandh)) 0 (-1).

End FirstVersion.

(** ** The event loop of [main] *)

Module Keys.

Definition STATUS_DITHERING : Z := 1.

(** The [double] constants [0.9], [1.1] and [0.2]. *)
Definition ZOOM_IN_FACTOR : C.double :=
  C.ddiv (C.double_of_int 9) (C.double_of_int 10).
Definition ZOOM_OUT_FACTOR : C.double :=
  C.ddiv (C.double_of_int 11) (C.double_of_int 10).
Definition PAN_STEP : C.double :=
  C.ddiv (C.double_of_int 2) (C.double_of_int 10).

(** The key codes of caca.h and of the character constants. *)
Definition CACA_KEY_ESCAPE : Z := 27.
Definition CACA_KEY_UP : Z := 273.
Definition CACA_KEY_DOWN : Z := 274.
Definition CACA_KEY_LEFT : Z := 275.
Definition CACA_KEY_RIGHT : Z := 276.

Definition chr (c : ascii) : Z := Z.of_N (N_of_ascii c).

(** What [caca_get_event] hands to the loop. *)
Inductive caca_event : Type :=
| KeyPress (ch : Z)
| Resize (width height : Z)
| Quit.

(** The variables of [main] and the globals that the loop over the events
    of one redraw reads and writes. *)
Record view : Type := {
  dither_algorithm : Z;
  quit : Z;
  update : Z;
  help : Z;
  status : Z;
  new_status : Z;
  new_help : Z;
  rezoom : Z;
  dispExtent : extent;
  g : Z;
  ww : Z;
  wh : Z
}.

Definition with_dither (v : view) (da : Z) : view :=
  {| dither_algorithm := da; quit := quit v; update := 1; help := help v;
     status := status v; new_status := STATUS_DITHERING;
     new_help := new_help v; rezoom := rezoom v;
     dispExtent := dispExtent v; g := g v; ww := ww v; wh := wh v |}.

(** [dispExtent = e; update = 1; rezoom = 1;]. *)
Definition with_extent (v : view) (e : extent) : view :=
  {| dither_algorithm := dither_algorithm v; quit := quit v; update := 1;
     help := help v; status := status v; new_status := new_status v;
     new_help := new_help v; rezoom := 1;
     dispExtent := e; g := g v; ww := ww v; wh := wh v |}.

(** [update = 1; g = g']. *)
Definition with_gamma (v : view) (g' : Z) : view :=
  {| dither_algorithm := dither_algorithm v; quit := quit v; update := 1;
     help := help v; status := status v; new_status := new_status v;
     new_help := new_help v; rezoom := rezoom v;
     dispExtent := dispExtent v; g := g'; ww := ww v; wh := wh v |}.

Definition with_new_help (v : view) (nh : Z) : view :=
  {| dither_algorithm := dither_algorithm v; quit := quit v; update := 1;
     help := help v; status := status v; new_status := new_status v;
     new_help := nh; rezoom := rezoom v;
     dispExtent := dispExtent v; g := g v; ww := ww v; wh := wh v |}.

Definition with_quit (v : view) : view :=
  {| dither_algorithm := dither_algorithm v; quit := 1; update := update v;
     help := help v; status := status v; new_status := new_status v;
     new_help := new_help v; rezoom := rezoom v;
     dispExtent := dispExtent v; g := g v; ww := ww v; wh := wh v |}.

(** [ww = width; wh = height; update = 1; rezoom = 1;]. *)
Definition with_size (v : view) (width height : Z) : view :=
  {| dither_algorithm := dither_algorithm v; quit := quit v; update := 1;
     help := help v; status := status v; new_status := new_status v;
     new_help := new_help v; rezoom := 1;
     dispExtent := dispExtent v; g := g v; ww := width; wh := height |}.

(** [if (status || new_status) status = new_status;
     if (help || new_help) help = new_help;]. *)
Definition settle (v : view) : view :=
  {| dither_algorithm := dither_algorithm v; quit := quit v;
     update := update v;
     help :=
       if negb (help v =? 0) || negb (new_help v =? 0)
       then new_help v else help v;
     status :=
       if negb (status v =? 0) || negb (new_status v =? 0)
       then new_status v else status v;
     new_status := new_status v; new_help := new_help v;
     rezoom := rezoom v; dispExtent := dispExtent v; g := g v;
     ww := ww v; wh := wh v |}.

Definition zoomed (e : extent) (factor : C.double) : extent :=
  {| dCentreX := dCentreX e; dCentreY := dCentreY e;
     dMetersPerCell := C.dmul (dMetersPerCell e) factor |}.

(** The length of a pan: [(cells * PAN_STEP) * dispExtent.dMetersPerCell]. *)
Definition pan_step (cells : Z) (e : extent) : C.double :=
  C.dmul (C.dmul (C.double_of_int cells) PAN_STEP) (dMetersPerCell e).

Definition panned_x (e : extent) (plus : bool) (cells : Z) : extent :=
  {| dCentreX :=
       (if plus then C.dadd else C.dsub) (dCentreX e) (pan_step cells e);
     dCentreY := dCentreY e;
     dMetersPerCell := dMetersPerCell e |}.

Definition panned_y (e : extent) (plus : bool) (cells : Z) : extent :=
  {| dCentreX := dCentreX e;
     dCentreY :=
       (if plus then C.dadd else C.dsub) (dCentreY e) (pan_step cells e);
     dMetersPerCell := dMetersPerCell e |}.

Section Loop.

(** [im != NULL]. *)
Variable has_image : bool.

(** [gdalfile.fullExtent]. *)
Variable fullExtent : extent.

(** The array that [caca_get_dither_algorithm_list] returns, with its
    closing NULL: names and descriptions in turn. *)
Variable algos : list (option string).

(** [algos[i]]; out of the array the read is undefined. *)
Definition read_algos (i : Z) : outcome (option string) :=
  if i <? 0 then Undef else defined (nth_error algos (Z.to_nat i)).

(** [while (algos[dither_algorithm * 2 + 2] != NULL) dither_algorithm++;]
    The loop leaves the array, or stops, within [fuel] rounds when [fuel]
    is the length of the array. *)
Fixpoint last_algorithm (fuel : nat) (da : Z) : outcome Z :=
  a <- read_algos (C.add (C.mul da 2) 2) ;;
  match a with
  | None => Ret da
  | Some _ =>
      match fuel with
      | O => Undef
      | S fuel' => last_algorithm fuel' (C.add da 1)
      end
  end.

(** [caca_set_dither_algorithm (im->dither, algos[dither_algorithm * 2])]:
    the two reads; the call itself changes no variable of the program. *)
Definition set_dither_algorithm (da : Z) : outcome unit :=
  _ <- read_algos (C.mul da 2) ;;
  if has_image then Ret tt else Undef.

(** [set_gamma (new_gamma)] on the view. *)
Definition key_gamma (v : view) (new_gamma : Z) : outcome view :=
  r <- set_gamma has_image (g v) new_gamma ;;
  Ret (with_gamma v (fst r)).

(** The [switch (ch)] of a key press. *)
Definition key_press (ch : Z) (v : view) : outcome view :=
  if ch =? chr "d" then
    let da := C.add (dither_algorithm v) 1 in
    a <- read_algos (C.mul da 2) ;;
    let da := match a with None => 0 | Some _ => da end in
    _ <- set_dither_algorithm da ;;
    Ret (with_dither v da)
  else if ch =? chr "D" then
    let da := C.sub (dither_algorithm v) 1 in
    da <- (if da <? 0 then last_algorithm (List.length algos) da
           else Ret da) ;;
    _ <- set_dither_algorithm da ;;
    Ret (with_dither v da)
  else if ch =? chr "+" then
    Ret (if rezoom v =? 0
         then with_extent v (zoomed (dispExtent v) ZOOM_IN_FACTOR) else v)
  else if ch =? chr "-" then
    Ret (if rezoom v =? 0
         then with_extent v (zoomed (dispExtent v) ZOOM_OUT_FACTOR) else v)
  else if ch =? chr "G" then key_gamma v (C.add (g v) 1)
  else if ch =? chr "g" then key_gamma v (C.sub (g v) 1)
  else if (ch =? chr "x") || (ch =? chr "X") then
    if rezoom v =? 0
    then
      r <- set_gamma has_image (g v) 0 ;;
      Ret (with_gamma (with_extent v fullExtent) (fst r))
    else Ret v
  else if (ch =? chr "k") || (ch =? chr "K") || (ch =? CACA_KEY_UP) then
    Ret (if rezoom v =? 0
         then with_extent v (panned_y (dispExtent v) true (wh v)) else v)
  else if (ch =? chr "j") || (ch =? chr "J") || (ch =? CACA_KEY_DOWN) then
    Ret (if rezoom v =? 0
         then with_extent v (panned_y (dispExtent v) false (wh v)) else v)
  else if (ch =? chr "h") || (ch =? chr "H") || (ch =? CACA_KEY_LEFT) then
    Ret (if rezoom v =? 0
         then with_extent v (panned_x (dispExtent v) false (ww v)) else v)
  else if (ch =? chr "l") || (ch =? chr "L") || (ch =? CACA_KEY_RIGHT) then
    Ret (if rezoom v =? 0
         then with_extent v (panned_x (dispExtent v) true (ww v)) else v)
  else if ch =? chr "?" then
    Ret (with_new_help v (if help v =? 0 then 1 else 0))
  else if (ch =? chr "q") || (ch =? chr "Q") || (ch =? CACA_KEY_ESCAPE) then
    Ret (with_quit v)
  else Ret v.

(** One round of [while (event)]. *)
Definition handle_event (ev : caca_event) (v : view) : outcome view :=
  v <- match ev with
       | KeyPress ch => key_press ch v
       | Resize width height => Ret (with_size v width height)
       | Quit => Ret (with_quit v)
       end ;;
  Ret (settle v).

(** The loop [while (event)] over the events waiting at one redraw. *)
Fixpoint events_loop (events : list caca_event) (v : view) : outcome view :=
  match events with
  | [] => Ret v
  | ev :: rest =>
      v <- handle_event ev v ;;
      events_loop rest v
  end.

End Loop.

End Keys.

(** * Vocabulary of the properties *)

(** ** The stretch rule matcher *)

(** The comparator of a rule holds on a band count. *)
Definition comparator_holds (rasterCount : Z) (r : stretch) : bool :=
  ((comp r =? VIEWER_COMP_LT) && (rasterCount <? value r))
  || ((comp r =? VIEWER_COMP_GT) && (value r <? rasterCount))
  || ((comp r =? VIEWER_COMP_EQ) && (rasterCount =? value r)).

Definition valid_comparator (r : stretch) : Prop :=
  comp r = VIEWER_COMP_LT \/ comp r = VIEWER_COMP_GT \/ comp r = VIEWER_COMP_EQ.

(** Band [n] of the dataset is tagged thematic. *)
Definition is_thematic (d : GDALDataset) (n : Z) : bool :=
  match GDALGetMetadataItem (GDALGetRasterBand d n) "LAYER_TYPE" with
  | Some psz => String.eqb psz "thematic"
  | None => false
  end.

(** The attribute table of band [n] has a column of usage [u]. *)
Definition has_usage (d : GDALDataset) (n : Z) (u : GDALRATFieldUsage) : bool :=
  match GDALGetDefaultRAT (GDALGetRasterBand d n) with
  | Some rath => existsb (fun c => usage_eqb (col_usage c) u) (rat_columns rath)
  | None => false
  end.

Definition exposes_rgba (d : GDALDataset) (n : Z) : bool :=
  has_usage d n GFU_Red && has_usage d n GFU_Green
  && has_usage d n GFU_Blue && has_usage d n GFU_Alpha.







(** ** The overview selector *)

Definition target : C.double := C.double_of_int PIX_PER_CELL.

(** A density exceeds, or is below, the target [PIX_PER_CELL]. *)
Definition exceeds_target (p : C.double) : bool := C.gt p target.
Definition below_target (p : C.double) : bool := C.lt p target.

(** [p] is strictly closer to the target than [q], by the differences the
    program compares. *)
Definition closer (p q : C.double) : bool :=
  C.lt (C.dsub p target) (C.dsub q target).

(** The pixels per cell of a level: 0 is full resolution, [k] is overview
    [k - 1]. *)
Definition level_pixels_per_cell (d : GDALDataset) (adf : GeoTransform)
  (e : extent) (k : Z) : outcome C.double :=
  if k =? 0 then Ret (C.ddiv (dMetersPerCell e) (gt1 adf))
  else overview_pixels_per_cell d (GDALGetRasterBand d 1) adf e (k - 1).

(** The pixels per cell of a level in the words of the specification: the
    metres per cell divided by the ground size of a pixel of that level,
    which is the pixel size of the dataset times the ratio of the width of
    the dataset to the width of the level.  Level 0 is full resolution,
    level [k] is overview [k - 1]. *)
Definition spec_pixels_per_cell (d : GDALDataset) (adf : GeoTransform)
  (e : extent) (k : Z) : C.double :=
  let width :=
    if k =? 0 then GDALGetRasterXSize d
    else GDALGetRasterBandXSize
           (GDALGetOverview (GDALGetRasterBand d 1) (k - 1)) in
  C.ddiv (dMetersPerCell e)
    (C.dmul (gt1 adf)
       (C.ddiv (C.double_of_int (GDALGetRasterXSize d))
               (C.double_of_int width))).

(** Every overview of band 1 has a non-zero width. *)
Definition overviews_sized (d : GDALDataset) : Prop :=
  forall j, 0 <= j < GDALGetOverviewCount (GDALGetRasterBand d 1) ->
            GDALGetRasterBandXSize
              (GDALGetOverview (GDALGetRasterBand d 1) j) <> 0.

(** A call ends on the error path, with a message for the caller. *)
Definition signals_failure {A : Type} (o : outcome A) : Prop :=
  exists msg, o = Err msg.

(** ** The stretches, in the words of the specification *)

Definition spec_clamp (x : C.double) : C.double :=
  if C.lt x (C.double_of_int 0) then C.double_of_int 0
  else if C.gt x (C.double_of_int 255) then C.double_of_int 255
  else x.

(** Linear: [clamp (0, 255, (value - min) * 255 / (max - min))]. *)
Definition spec_linear (dMin dMax v : C.double) : C.double :=
  spec_clamp (C.ddiv (C.dmul (C.dsub v dMin) (C.double_of_int 255))
                     (C.dsub dMax dMin)).

(** The bin at which the cumulative count first exceeds a threshold. *)
Fixpoint first_exceeding (threshold : C.double) (cells : list Z) (n : Z)
  (sum : C.double) : option Z :=
  match cells with
  | [] => None
  | c :: rest =>
      let sum := C.dadd sum (C.double_of_int c) in
      if C.gt sum threshold then Some n
      else first_exceeding threshold rest (n + 1) sum
  end.

(** Histogram, lower bound: the position of the first bin whose cumulative
    count exceeds [totalCount * stretchParams[0]], interpolated over
    [min, max]. *)
Definition spec_stretch_min (dMin dMax param0 : C.double) (histo : list Z)
  : C.double :=
  let nbins := Z.of_nat (List.length histo) in
  match first_exceeding (C.dmul (sum_histogram histo) param0) histo 0 C.dzero with
  | Some n =>
      C.dadd dMin
        (C.dmul (C.dsub dMax dMin)
                (C.ddiv (C.double_of_int n) (C.double_of_int nbins)))
  | None => dMin
  end.

(** ** The window mapper *)

(** A coordinate lies inside [0, size). *)
Definition in_bounds (x : C.double) (size : Z) : bool :=
  C.le (C.double_of_int 0) x && C.lt x (C.double_of_int size).

(** The four corners of the view lie inside a level of [width] by
    [height] pixels. *)
Definition corners_inside
  (corners : C.double * C.double * C.double * C.double)
  (width height : Z) : bool :=
  let '(x1, y1, x2, y2) := corners in
  in_bounds x1 width && in_bounds x2 width
  && in_bounds y1 height && in_bounds y2 height.

(** ** Rules and rule strings *)

(** No character of [s] is one of the delimiters. *)
Fixpoint free_of (pszDelimiters s : string) : bool :=
  match s with
  | EmptyString => true
  | String c rest =>
      negb (Text.strchr pszDelimiters c) && free_of pszDelimiters rest
  end.

(** A rule whose comparator, display mode and stretch mode are among those
    that the readers of the program know. *)
Definition well_formed (r : stretch) : Prop :=
  valid_comparator r
  /\ (mode r = VIEWER_MODE_COLORTABLE \/ mode r = VIEWER_MODE_GREYSCALE
      \/ mode r = VIEWER_MODE_RGB)
  /\ (stretchmode r = VIEWER_STRETCHMODE_NONE
      \/ stretchmode r = VIEWER_STRETCHMODE_LINEAR
      \/ stretchmode r = VIEWER_STRETCHMODE_STDDEV
      \/ stretchmode r = VIEWER_STRETCHMODE_HIST).

(** The bands that a rule displays are bands of the dataset: the first one
    always, all three in RGB mode. *)
Definition displayed_bands_exist (d : GDALDataset) (r : stretch) : Prop :=
  let n := GDALGetRasterCount d in
  1 <= bands_at r 0 <= n
  /\ (mode r = VIEWER_MODE_RGB ->
      1 <= bands_at r 1 <= n /\ 1 <= bands_at r 2 <= n).

(** The block [init] after the parse of a rule with one band and no
    stretch, and of an RGB rule. *)
Definition single_band_rule (init : stretch) (c v ct m : Z) : stretch :=
  set_stretch_part (set_rule_part init c v ct) m VIEWER_STRETCHMODE_NONE
    (stretchparam init) (array_set 0 (bands init) 0 1).

Definition three_band_rule (init : stretch) (c v ct sm : Z)
  (params : list C.double) (b0 b1 b2 : Z) : stretch :=
  set_stretch_part (set_rule_part init c v ct) VIEWER_MODE_RGB sm params
    (array_set 0 (array_set 0 (array_set 0 (bands init) 0 b0) 1 b1) 2 b2).

(** ** Samples and pixels *)

(** A sample that compares neither below 0 nor above 255. *)
Definition displayable (v : C.float) : Prop :=
  C.lt v (C.float_of_int 0) = false /\ C.gt v (C.float_of_int 255) = false.

(** The stretch modes that rewrite the samples. *)
Definition rewrites_samples (s : stretch) : Prop :=
  stretchmode s = VIEWER_STRETCHMODE_LINEAR
  \/ stretchmode s = VIEWER_STRETCHMODE_STDDEV
  \/ stretchmode s = VIEWER_STRETCHMODE_HIST.

(** A read leaves the buffer at its length. *)
Definition keeps_length
  (GDALRasterIO :
     GDALRasterBandH -> readInfo -> Z -> list C.float -> list C.float)
  : Prop :=
  forall bandh info stride pBuffer,
    List.length (GDALRasterIO bandh info stride pBuffer)
    = List.length pBuffer.

(** The attribute table [rath] has a column of usage [u]. *)
Definition has_column (rath : GDALRasterAttributeTable)
  (u : GDALRATFieldUsage) : bool :=
  existsb (fun c => usage_eqb (col_usage c) u) (rat_columns rath).

(** The messages that the loading of an image leaves in [szGDALMessages]. *)
Definition load_messages : list string :=
  [ "Image has no geotransform";
    "Unable to invert transform";
    "Statistics not available. Run gdalcalcstats first";
    "Histogram not available. Run gdalcalcstats first";
    "stretch not currently supported";
    "Unable to create dither";
    "Unable to Raster Attribute Table";
    "Unable to find Red, Green and Blue columns";
    "Unsupported stretch" ].

(** The messages that a stretch leaves. *)
Definition stretch_messages : list string :=
  [ "Statistics not available. Run gdalcalcstats first";
    "Histogram not available. Run gdalcalcstats first";
    "stretch not currently supported" ].

(** ** The first version's overviews *)

(** Overview [i] of the band is smaller than [MAX_OVERVIEW_SIZE] both
    ways. *)
Definition small_overview (bandh : GDALRasterBandH) (i : Z) : bool :=
  (GDALGetRasterBandXSize (GDALGetOverview bandh i)
   <? FirstVersion.MAX_OVERVIEW_SIZE)
  && (GDALGetRasterBandYSize (GDALGetOverview bandh i)
      <? FirstVersion.MAX_OVERVIEW_SIZE).
(** The band carries the statistics of its range. *)
Definition has_range_statistics (bandh : GDALRasterBandH) : Prop :=
  exists pszMin pszMax,
    GDALGetMetadataItem bandh "STATISTICS_MINIMUM" = Some pszMin
    /\ GDALGetMetadataItem bandh "STATISTICS_MAXIMUM" = Some pszMax.

(** Every message with which [o] fails satisfies [P]. *)
Definition failing {A : Type} (P : string -> Prop) (o : outcome A) : Prop :=
  match o with
  | Err msg => P msg
  | _ => True
  end.

(** ** The event loop *)

(** The array of [caca_get_dither_algorithm_list]: the names and
    descriptions, closed by NULL. *)
Definition algorithm_list (names : list string) : list (option string) :=
  map Some names ++ [None].

(** The dithering algorithm is one of the [n] of the list and the gamma
    index one of the table. *)
Definition in_range (n : Z) (v : Keys.view) : Prop :=
  0 <= Keys.dither_algorithm v < n
  /\ - GAMMA_MAX <= Keys.g v <= GAMMA_MAX.

(** ** The bounds of the histogram stretch *)



(** * Concrete inputs *)

(** [atof] on a string of decimal digits with an optional minus sign. *)
Fixpoint digits_value (s : string) (acc : Z) : Z :=
  match s with
  | EmptyString => acc
  | String c rest =>
      digits_value rest (10 * acc + (Z.of_nat (Ascii.nat_of_ascii c) - 48))
  end.

Definition atof_integers (s : string) : C.double :=
  match s with
  | String "-" rest => C.dneg (C.double_of_int (digits_value rest 0))
  | _ => C.double_of_int (digits_value s 0)
  end.

(** A rule, fields in the order of the rule string. *)
Definition rule (c v ct m sm : Z) (p0 p1 : C.double) (b : list Z) : stretch :=
  {| comp := c; value := v; ctband := ct; mode := m; stretchmode := sm;
     stretchparam := [p0; p1]; bands := b |}.

(** The rules [pszDefaultStretchRules], as [stretch_from_string] parses
    them (fields no token sets are left at zero). *)
Definition default_rules : stretchlist :=
  [ rule VIEWER_COMP_EQ 1 1 VIEWER_MODE_COLORTABLE VIEWER_STRETCHMODE_NONE
      C.dzero C.dzero [1; 0; 0];
    rule VIEWER_COMP_EQ 1 (-1) VIEWER_MODE_GREYSCALE VIEWER_STRETCHMODE_NONE
      C.dzero C.dzero [1; 0; 0];
    rule VIEWER_COMP_EQ 2 (-1) VIEWER_MODE_GREYSCALE VIEWER_STRETCHMODE_NONE
      C.dzero C.dzero [1; 0; 0];
    rule VIEWER_COMP_EQ 3 (-1) VIEWER_MODE_RGB VIEWER_STRETCHMODE_NONE
      C.dzero C.dzero [1; 2; 3];
    rule VIEWER_COMP_LT 6 (-1) VIEWER_MODE_RGB VIEWER_STRETCHMODE_STDDEV
      (C.double_of_int 2) C.dzero [4; 3; 2];
    rule VIEWER_COMP_GT 5 (-1) VIEWER_MODE_RGB VIEWER_STRETCHMODE_STDDEV
      (C.double_of_int 2) C.dzero [5; 4; 2] ].

(** A north-up geotransform: origin (0, 100), pixels of 1 by 1. *)
Definition unit_transform : GeoTransform :=
  {| gt0 := C.double_of_int 0; gt1 := C.double_of_int 1;
     gt2 := C.double_of_int 0; gt3 := C.double_of_int 100;
     gt4 := C.double_of_int 0; gt5 := C.double_of_int (-1) |}.

(** The statistics of a band with values from 0 to 510. *)
Definition wide_statistics : list (string * string) :=
  [ ("STATISTICS_MINIMUM", "0"); ("STATISTICS_MAXIMUM", "510");
    ("STATISTICS_MEAN", "255"); ("STATISTICS_STDDEV", "100") ].

(** A continuous band of 100 by 100 pixels with overviews of 50 and 25. *)
Definition continuous_band (id : Z) : RasterBand :=
  {| band_id := id; band_xsize := 100; band_ysize := 100;
     band_metadata := wide_statistics;
     band_rat := None;
     band_overviews := [(10 * id + 1, 50, 50); (10 * id + 2, 25, 25)] |}.

Definition column (u : GDALRATFieldUsage) (values : list Z) : RATColumn :=
  {| col_usage := u; col_value := fun row => nth row values 0 |}.

(** A colour table of two classes: class 1 is (255, 128, 64). *)
Definition two_class_table : GDALRasterAttributeTable :=
  {| rat_rows := 2;
     rat_columns := [ column GFU_Red [0; 255]; column GFU_Green [0; 128];
                      column GFU_Blue [0; 64]; column GFU_Alpha [0; 255] ] |}.

(** A thematic band with that table. *)
Definition thematic_band : RasterBand :=
  {| band_id := 1; band_xsize := 100; band_ysize := 100;
     band_metadata := ("LAYER_TYPE", "thematic") :: wide_statistics;
     band_rat := Some two_class_table;
     band_overviews := [] |}.

(** A band with a histogram of four bins of ten pixels each. *)
Definition flat_histogram_table : GDALRasterAttributeTable :=
  {| rat_rows := 4;
     rat_columns := [ column GFU_PixelCount [10; 10; 10; 10] ] |}.

Definition dataset (gt : option GeoTransform) (bs : list RasterBand)
  : GDALDataset :=
  {| ds_xsize := 100; ds_ysize := 100; ds_geotransform := gt; ds_bands := bs |}.

Definition continuous_dataset : GDALDataset :=
  dataset (Some unit_transform) [continuous_band 1].


Definition rgb_dataset : GDALDataset :=
  dataset (Some unit_transform)
    [continuous_band 1; continuous_band 2; continuous_band 3].

(** A square band with its pyramid of overviews, each given by its width,
    and the dataset of that one band, pixels of one metre. *)
Definition pyramid_band (size : Z) (levels : list Z) : RasterBand :=
  {| band_id := 1; band_xsize := size; band_ysize := size;
     band_metadata := wide_statistics;
     band_rat := None;
     band_overviews := map (fun s => (s, s, s)) levels |}.

Definition pyramid_dataset (size : Z) (levels : list Z) : GDALDataset :=
  {| ds_xsize := size; ds_ysize := size;
     ds_geotransform := Some unit_transform;
     ds_bands := [pyramid_band size levels] |}.


Definition thematic_dataset : GDALDataset :=
  dataset (Some unit_transform) [thematic_band].

Definition unreferenced_dataset : GDALDataset :=
  dataset None [continuous_band 1].


Definition colortable_rule : stretch :=
  rule VIEWER_COMP_EQ 1 1 VIEWER_MODE_COLORTABLE VIEWER_STRETCHMODE_NONE
    C.dzero C.dzero [1; 0; 0].

Definition rgb_rule : stretch :=
  rule VIEWER_COMP_EQ 3 (-1) VIEWER_MODE_RGB VIEWER_STRETCHMODE_NONE
    C.dzero C.dzero [1; 2; 3].

Definition greyscale_rule : stretch :=
  rule VIEWER_COMP_EQ 1 (-1) VIEWER_MODE_GREYSCALE VIEWER_STRETCHMODE_NONE
    C.dzero C.dzero [1; 0; 0].

Definition linear_rule : stretch :=
  rule VIEWER_COMP_EQ 1 (-1) VIEWER_MODE_GREYSCALE VIEWER_STRETCHMODE_LINEAR
    C.dzero C.dzero [1; 0; 0].

Definition stddev_rule : stretch :=
  rule VIEWER_COMP_EQ 1 (-1) VIEWER_MODE_GREYSCALE VIEWER_STRETCHMODE_STDDEV
    (C.double_of_int 2) C.dzero [1; 0; 0].

Definition one_half : C.double :=
  C.ddiv (C.double_of_int 1) (C.double_of_int 2).

(** A histogram stretch clipping the lower half: parameters 0.5 and 1. *)
Definition histogram_rule : stretch :=
  rule VIEWER_COMP_EQ 1 (-1) VIEWER_MODE_GREYSCALE VIEWER_STRETCHMODE_HIST
    one_half (C.double_of_int 1) [1; 0; 0].

(** A view centred on [(cx, cy)]. *)
Definition view (cx cy : Z) (metersPerCell : C.double) : extent :=
  {| dCentreX := C.double_of_int cx; dCentreY := C.double_of_int cy;
     dMetersPerCell := metersPerCell |}.

(** One pixel per cell, eight pixels per cell, 1/1024 of a pixel per cell. *)
Definition one_meter : C.double := C.double_of_int 1.
Definition eight_meters : C.double := C.double_of_int 8.
Definition deep_zoom : C.double :=
  C.ddiv (C.double_of_int 1) (C.double_of_int 1024).

(** A pixel read that fills the whole buffer with one value. *)
Definition constant_read (v : C.float)
  : GDALRasterBandH -> readInfo -> Z -> list C.float -> list C.float :=
  fun _ _ _ pBuffer => map (fun _ => v) pBuffer.

(** A dither creation that succeeds, and fresh blocks filled with 171. *)
Definition dither_created : Z -> Z -> Z -> Z -> option Z :=
  fun _ _ _ _ => Some 1.

Definition stale_block : nat -> list Z := fun n => repeat 171 n.

(** An open file on the three band dataset, shown as RGB. *)
Definition rgb_file : gdalFile :=
  {| ds := rgb_dataset;
     fullExtent := view 50 50 (C.double_of_int 100);
     file_stretch := rgb_rule;
     adfTransform := unit_transform |}.

(** ** Further examples *)

(** An open file on a dataset of 100 by 100 pixels, shown by rule [s]. *)
Definition open_file (d : GDALDataset) (s : stretch) : gdalFile :=
  {| ds := d;
     fullExtent := view 50 50 (C.double_of_int 100);
     file_stretch := s;
     adfTransform := unit_transform |}.

Definition grey_file : gdalFile := open_file continuous_dataset greyscale_rule.

Definition thematic_file : gdalFile :=
  open_file thematic_dataset colortable_rule.

(** A [GDALOpen] that finds the single band dataset under every name, a
    ["%.2f"] that prints nothing, and a dither creation that fails. *)
Definition open_continuous : string -> option GDALDataset :=
  fun _ => Some continuous_dataset.

Definition format_nothing : C.double -> string := fun _ => EmptyString.

Definition dither_refused : Z -> Z -> Z -> Z -> option Z :=
  fun _ _ _ _ => None.

(** The view of [main] before the first event, on a canvas of 80 by 24. *)
Definition first_view (rezoom : Z) : Keys.view :=
  {| Keys.dither_algorithm := 0; Keys.quit := 0; Keys.update := 1;
     Keys.help := 0; Keys.status := 0; Keys.new_status := 0;
     Keys.new_help := 0; Keys.rezoom := rezoom;
     Keys.dispExtent := view 50 50 one_meter; Keys.g := 0;
     Keys.ww := 80; Keys.wh := 24 |}.

(** Two dithering algorithms with their descriptions. *)
Definition two_algorithms : list string :=
  [ "none"; "no dithering"; "fstein"; "Floyd-Steinberg dithering" ].


(** * Properties *)

(** ** Order facts on the IEEE comparisons *)

Ltac split_signs :=
  repeat match goal with s : bool |- _ => destruct s end;
  simpl; try discriminate; try reflexivity.

Lemma SFcompare_Lt_trans (a b c : spec_float) :
  SFcompare a b = Some Lt -> SFcompare b c = Some Lt -> SFcompare a c = Some Lt.
Proof.
  destruct a as [sa|sa| |sa ma ea], b as [sb|sb| |sb mb eb],
           c as [sc|sc| |sc mc ec]; simpl; try discriminate; split_signs.
  all: destruct (Z.compare_spec ea eb), (Z.compare_spec eb ec),
         (Z.compare_spec ea ec);
    subst; try lia; try discriminate; try reflexivity.
  all: change (Pos.compare_cont Eq) with Pos.compare;
    destruct (Pos.compare_spec ma mb), (Pos.compare_spec mb mc),
      (Pos.compare_spec ma mc);
    subst; simpl; try lia; try discriminate; try reflexivity.
Qed.

Lemma SFcompare_Lt_asym (a b : spec_float) :
  SFcompare a b = Some Lt -> SFcompare b a = Some Gt.
Proof.
  destruct a as [sa|sa| |sa ma ea], b as [sb|sb| |sb mb eb]; simpl;
    try discriminate; split_signs.
  all: rewrite (Z.compare_antisym ea eb);
    change (Pos.compare_cont Eq) with Pos.compare;
    rewrite (Pos.compare_antisym ma mb);
    destruct (ea ?= eb), (ma ?= mb)%positive; simpl;
    (discriminate || reflexivity).
Qed.

Lemma SFltb_Lt (a b : spec_float) :
  SFltb a b = true <-> SFcompare a b = Some Lt.
Proof.
  unfold SFltb. destruct (SFcompare a b) as [[| |]|]; split; congruence.
Qed.

Lemma lt_trans (a b c : spec_float) :
  C.lt a b = true -> C.lt b c = true -> C.lt a c = true.
Proof.
  unfold C.lt. rewrite !SFltb_Lt. apply SFcompare_Lt_trans.
Qed.

Lemma lt_asym (a b : spec_float) : C.lt a b = true -> C.lt b a = false.
Proof.
  unfold C.lt. rewrite SFltb_Lt. intros H.
  unfold SFltb. now rewrite (SFcompare_Lt_asym _ _ H).
Qed.

Lemma lt_irrefl (a : spec_float) : C.lt a a = false.
Proof.
  destruct (C.lt a a) eqn:H; [|reflexivity].
  pose proof (lt_asym _ _ H). congruence.
Qed.

(** If [a < c] fails and [b < c] holds, [a < b] fails. *)
Lemma lt_false_below (a b c : spec_float) :
  C.lt a c = false -> C.lt b c = true -> C.lt a b = false.
Proof.
  intros Hac Hbc. destruct (C.lt a b) eqn:Hab; [|reflexivity].
  rewrite (lt_trans _ _ _ Hab Hbc) in Hac. discriminate.
Qed.

Lemma SFcompare_antisym (a b : spec_float) :
  SFcompare b a = option_map CompOpp (SFcompare a b).
Proof.
  destruct a as [sa|sa| |sa ma ea], b as [sb|sb| |sb mb eb]; simpl;
    try reflexivity; split_signs.
  all: rewrite (Z.compare_antisym ea eb);
    change (Pos.compare_cont Eq) with Pos.compare;
    rewrite (Pos.compare_antisym ma mb);
    destruct (ea ?= eb), (ma ?= mb)%positive; reflexivity.
Qed.

Lemma le_not_gt (a b : spec_float) : C.le a b = true -> C.lt b a = false.
Proof.
  unfold C.le, C.lt, SFleb, SFltb. rewrite (SFcompare_antisym a b).
  destruct (SFcompare a b) as [[| |]|]; simpl; congruence.
Qed.

Lemma lt_not_ge (a b : spec_float) : C.lt a b = true -> C.ge a b = false.
Proof.
  unfold C.ge, C.lt, SFleb, SFltb. rewrite (SFcompare_antisym a b).
  destruct (SFcompare a b) as [[| |]|]; simpl; congruence.
Qed.

(** A value in the range of [int] is not changed by the wrap-around. *)
Lemma wrap_small (z : Z) : C.INT_MIN <= z <= C.INT_MAX -> C.wrap z = z.
Proof.
  unfold C.wrap, C.INT_MIN, C.INT_MAX.
  change (2 ^ 31) with 2147483648. change (2 ^ 32) with 4294967296.
  intros H. rewrite Z.mod_small by lia. lia.
Qed.

(** ** Inversion of [bind] *)

Lemma bind_Ret {A B : Type} (m : outcome A) (k : A -> outcome B) (b : B) :
  bind m k = Ret b -> exists a, m = Ret a /\ k a = Ret b.
Proof.
  destruct m as [a| |]; simpl; intros H; try discriminate.
  exists a. split; [reflexivity | exact H].
Qed.

(** ** The stretch rule matcher *)

Lemma colour_flags_from (cols : list RATColumn) (r g b a : bool) :
  fold_left
    (fun '(hasRed, hasGreen, hasBlue, hasAlpha) c =>
       let usage := col_usage c in
       (if usage_eqb usage GFU_Red then true else hasRed,
        if usage_eqb usage GFU_Green then true else hasGreen,
        if usage_eqb usage GFU_Blue then true else hasBlue,
        if usage_eqb usage GFU_Alpha then true else hasAlpha))
    cols (r, g, b, a)
  = (r || existsb (fun c => usage_eqb (col_usage c) GFU_Red) cols,
     g || existsb (fun c => usage_eqb (col_usage c) GFU_Green) cols,
     b || existsb (fun c => usage_eqb (col_usage c) GFU_Blue) cols,
     a || existsb (fun c => usage_eqb (col_usage c) GFU_Alpha) cols).
Proof.
  revert r g b a.
  induction cols as [|c cols IH]; intros r g b a; simpl.
  - now rewrite !orb_false_r.
  - rewrite IH.
    destruct (usage_eqb (col_usage c) GFU_Red),
             (usage_eqb (col_usage c) GFU_Green),
             (usage_eqb (col_usage c) GFU_Blue),
             (usage_eqb (col_usage c) GFU_Alpha);
      simpl; rewrite ?orb_true_r; reflexivity.
Qed.

Lemma colour_flags_exists (cols : list RATColumn) :
  colour_flags cols
  = (existsb (fun c => usage_eqb (col_usage c) GFU_Red) cols,
     existsb (fun c => usage_eqb (col_usage c) GFU_Green) cols,
     existsb (fun c => usage_eqb (col_usage c) GFU_Blue) cols,
     existsb (fun c => usage_eqb (col_usage c) GFU_Alpha) cols).
Proof. unfold colour_flags. now rewrite colour_flags_from. Qed.

Lemma rule_comparison_valid (rasterCount : Z) (r : stretch) :
  valid_comparator r ->
  rule_comparison rasterCount r = Some (comparator_holds rasterCount r).
Proof.
  unfold valid_comparator, rule_comparison, comparator_holds.
  unfold VIEWER_COMP_LT, VIEWER_COMP_GT, VIEWER_COMP_EQ.
  intros [H | [H | H]]; rewrite H; simpl;
    rewrite ?orb_false_r, ?Z.gtb_ltb; reflexivity.
Qed.

(** On a thematic band the check of the program is the conjunction of the
    four column tests. *)
Lemma colour_table_check_thematic (d : GDALDataset) (r : stretch) :
  is_thematic d (ctband r) = true ->
  colour_table_check d (GDALGetRasterCount d) r true
  = if negb (ctband r =? -1) && (ctband r <=? GDALGetRasterCount d)
    then exposes_rgba d (ctband r) else true.
Proof.
  unfold is_thematic, colour_table_check, exposes_rgba, has_usage. intros Hth.
  simpl andb.
  destruct (negb (ctband r =? -1) && (ctband r <=? GDALGetRasterCount d));
    [|reflexivity].
  destruct (GDALGetMetadataItem (GDALGetRasterBand d (ctband r)) "LAYER_TYPE")
    as [psz|]; [|discriminate].
  rewrite Hth.
  destruct (GDALGetDefaultRAT (GDALGetRasterBand d (ctband r))) as [rath|].
  - now rewrite colour_flags_exists.
  - reflexivity.
Qed.












(** With the default rules a thematic band with its colour columns takes the
    colour table rule, and a dataset of six bands the last rule. *)
Example thematic_dataset_takes_colour_table :
  get_stretch_for_gdal default_rules thematic_dataset = Some colortable_rule.
Proof. reflexivity. Qed.

(** A single continuous band also takes the colour table rule: the check is
    skipped for a band that is not thematic, and the greyscale rule behind
    it is not reached. *)
Example continuous_dataset_takes_colour_table :
  get_stretch_for_gdal default_rules continuous_dataset = Some colortable_rule.
Proof. reflexivity. Qed.

(** ** The overview selector *)

Lemma improves_split (p best : C.double) :
  improves p best = exceeds_target p && closer p best.
Proof. reflexivity. Qed.

Lemma overview_pixels_per_cell_defined d bandh adf e count :
  GDALGetRasterBandXSize (GDALGetOverview bandh count) <> 0 ->
  exists p, overview_pixels_per_cell d bandh adf e count = Ret p.
Proof.
  intros Hx. unfold overview_pixels_per_cell, C.div.
  destruct (Z.eqb_spec (GDALGetRasterBandXSize (GDALGetOverview bandh count)) 0)
    as [H0|_]; [contradiction|].
  simpl. eexists. reflexivity.
Qed.

Lemma best_overview_loop_inv d bandh adf e :
  forall todo count nBest dBest,
    (forall j, count <= j < count + Z.of_nat todo ->
               GDALGetRasterBandXSize (GDALGetOverview bandh j) <> 0) ->
    exists k pk,
      best_overview_loop d bandh adf e todo count nBest dBest = Ret (k, pk)
      /\ ((k = nBest /\ pk = dBest)
          \/ (count < k <= count + Z.of_nat todo
              /\ overview_pixels_per_cell d bandh adf e (k - 1) = Ret pk
              /\ exceeds_target pk = true
              /\ closer pk dBest = true))
      /\ (forall j p,
            count <= j < count + Z.of_nat todo ->
            overview_pixels_per_cell d bandh adf e j = Ret p ->
            exceeds_target p = true ->
            closer p pk = false).
Proof.
  induction todo as [|todo IH]; intros count nBest dBest Hx.
  - exists nBest, dBest. simpl. repeat split; auto. intros j p Hj. lia.
  - destruct (overview_pixels_per_cell_defined d bandh adf e count) as [p Hp].
    { apply Hx. lia. }
    cbn [best_overview_loop]. rewrite Hp. cbn [bind].
    rewrite improves_split.
    destruct (exceeds_target p) eqn:Hex; cbn [andb];
      [destruct (closer p dBest) eqn:Hcl|].
    + destruct (IH (count + 1) (count + 1) p) as (k & pk & Hrun & Hsel & Hmin).
      { intros j Hj. apply Hx. lia. }
      exists k, pk. split; [exact Hrun|]. split.
      * right. destruct Hsel as [[-> ->] | (Hk & Hkp & Hkex & Hkcl)].
        -- replace (count + 1 - 1) with count by lia.
           repeat split; auto; lia.
        -- repeat split; auto; try lia.
           unfold closer in *. eapply lt_trans; eassumption.
      * intros j q Hj Hq Hqex.
        destruct (Z.eq_dec j count) as [->|Hne].
        -- rewrite Hp in Hq. injection Hq as <-.
           destruct Hsel as [[_ ->] | (_ & _ & _ & Hkcl)].
           ++ apply lt_irrefl.
           ++ apply lt_asym. exact Hkcl.
        -- apply (Hmin j q); auto. lia.
    + destruct (IH (count + 1) nBest dBest) as (k & pk & Hrun & Hsel & Hmin).
      { intros j Hj. apply Hx. lia. }
      exists k, pk. split; [exact Hrun|]. split.
      * destruct Hsel as [? | (Hk & Hkp & Hkex & Hkcl)]; [left; assumption|].
        right. repeat split; auto; lia.
      * intros j q Hj Hq Hqex.
        destruct (Z.eq_dec j count) as [->|Hne].
        -- rewrite Hp in Hq. injection Hq as <-.
           destruct Hsel as [[_ ->] | (_ & _ & _ & Hkcl)]; [exact Hcl|].
           unfold closer in *. eapply lt_false_below; eassumption.
        -- apply (Hmin j q); auto. lia.
    + destruct (IH (count + 1) nBest dBest) as (k & pk & Hrun & Hsel & Hmin).
      { intros j Hj. apply Hx. lia. }
      exists k, pk. split; [exact Hrun|]. split.
      * destruct Hsel as [? | (Hk & Hkp & Hkex & Hkcl)]; [left; assumption|].
        right. repeat split; auto; lia.
      * intros j q Hj Hq Hqex.
        destruct (Z.eq_dec j count) as [->|Hne].
        -- rewrite Hp in Hq. injection Hq as <-. congruence.
        -- apply (Hmin j q); auto. lia.
Qed.

(** The selection over the densities that the program computes, with the
    factor of an overview cut to an [int]: on a dataset with a
    geotransform, [gdal_get_best_overview] returns a
    level [k].  If [k] is an overview, its pixels per cell exceed the target
    [PIX_PER_CELL] (so they are not below it); if the pixels per cell of no
    overview exceed the target, [k] is 0, full resolution; and no overview
    whose pixels per cell exceed the target is strictly closer to the target
    than the returned level. *)
Theorem gdal_get_best_overview_selects
  (d : GDALDataset) (e : extent) (adf : GeoTransform) :
  GDALGetGeoTransform d = Some adf ->
  overviews_sized d ->
  let bandh := GDALGetRasterBand d 1 in
  let nOverviews := GDALGetOverviewCount bandh in
  exists k,
    gdal_get_best_overview d e = Ret k
    /\ 0 <= k <= nOverviews
    /\ (0 < k ->
        exists p, overview_pixels_per_cell d bandh adf e (k - 1) = Ret p
                  /\ exceeds_target p = true /\ below_target p = false)
    /\ ((forall j p, 0 <= j < nOverviews ->
                     overview_pixels_per_cell d bandh adf e j = Ret p ->
                     exceeds_target p = false) -> k = 0)
    /\ (exists pk,
          level_pixels_per_cell d adf e k = Ret pk
          /\ forall j p, 0 <= j < nOverviews ->
                         overview_pixels_per_cell d bandh adf e j = Ret p ->
                         exceeds_target p = true ->
                         closer p pk = false).
Proof.
  intros Hgt Hsized bandh nOverviews.
  assert (Hn : 0 <= nOverviews).
  { unfold nOverviews, GDALGetOverviewCount. destruct bandh; lia. }
  unfold gdal_get_best_overview. fold bandh. fold nOverviews.
  destruct (Z.eqb_spec nOverviews 0) as [Hz|Hnz].
  - exists 0. split; [reflexivity|]. split; [lia|]. split; [lia|].
    split; [reflexivity|].
    exists (C.ddiv (dMetersPerCell e) (gt1 adf)). split; [reflexivity|].
    intros j p Hj. lia.
  - rewrite Hgt.
    destruct (best_overview_loop_inv d bandh adf e (Z.to_nat nOverviews) 0 0
                (C.ddiv (dMetersPerCell e) (gt1 adf)))
      as (k & pk & Hrun & Hsel & Hmin).
    { intros j Hj. apply Hsized. fold bandh. fold nOverviews. lia. }
    rewrite Z2Nat.id in Hsel, Hmin by lia.
    exists k. rewrite Hrun. cbn [bind fst]. split; [reflexivity|].
    assert (Hover : 0 < k ->
              overview_pixels_per_cell d bandh adf e (k - 1) = Ret pk
              /\ exceeds_target pk = true /\ k <= nOverviews).
    { intros Hk. destruct Hsel as [[-> _] | (Hr & Hp & Hex & _)]; [lia|].
      repeat split; auto; lia. }
    split; [destruct Hsel as [[-> _] | (Hr & _)]; lia|].
    split; [|split].
    + intros Hk. destruct (Hover Hk) as (Hp & Hex & _).
      exists pk. repeat split; auto.
      unfold below_target. apply lt_asym. exact Hex.
    + intros Hnone. destruct Hsel as [[-> _] | (Hr & Hp & Hex & _)];
        [reflexivity|].
      rewrite (Hnone (k - 1) pk) in Hex by (auto; lia). discriminate.
    + exists pk. split.
      * unfold level_pixels_per_cell.
        destruct Hsel as [[-> ->] | (Hr & Hp & _)]; [reflexivity|].
        destruct (Z.eqb_spec k 0); [lia|]. exact Hp.
      * intros j p Hj. apply Hmin. lia.
Qed.

Lemma continuous_dataset_overviews_sized : overviews_sized continuous_dataset.
Proof.
  intros j Hj.
  change (GDALGetOverviewCount (GDALGetRasterBand continuous_dataset 1))
    with 2 in Hj.
  assert (Hc : j = 0 \/ j = 1) by lia.
  destruct Hc as [-> | ->]; vm_compute; discriminate.
Qed.

(** The continuous dataset at 100 metres per cell. *)
Lemma gdal_get_best_overview_selects_witness :
  (GDALGetGeoTransform continuous_dataset = Some unit_transform
   /\ overviews_sized continuous_dataset)
  /\ exists k,
       gdal_get_best_overview continuous_dataset
         (view 50 50 (C.double_of_int 100)) = Ret k
       /\ 0 <= k <= 2.
Proof.
  split; [split; [reflexivity | exact continuous_dataset_overviews_sized]|].
  destruct (gdal_get_best_overview_selects continuous_dataset
              (view 50 50 (C.double_of_int 100)) unit_transform
              eq_refl continuous_dataset_overviews_sized)
    as (k & Hk & Hrange & _).
  exists k. split; [exact Hk | exact Hrange].
Defined.

(** At 100, 70 and 20 metres per cell over pixels of one metre: the overview
    of factor 2 (50 and 35 pixels per cell), then full resolution. *)
Example best_overview_examples :
  gdal_get_best_overview continuous_dataset (view 50 50 (C.double_of_int 100))
    = Ret 1
  /\ gdal_get_best_overview continuous_dataset (view 50 50 (C.double_of_int 200))
    = Ret 2
  /\ gdal_get_best_overview continuous_dataset (view 50 50 (C.double_of_int 20))
    = Ret 0.
Proof. repeat split; reflexivity. Qed.

(** C4, the program on two pyramids that GDAL builds, pixels of one metre.

    A band of 100 pixels with overviews of 50, 25 and 13 pixels, at 220
    metres per cell: the overview of 13 pixels is returned, level 3.  A
    pixel of it covers 100 / 13 metres, so it gives 28.6 pixels per cell,
    below the target of 30; the program divides 100 by 13 as [int]s, takes
    the factor for 7 and the density for 220 / 7 = 31.4.

    A band of 101 pixels with an overview of 51, at 70 metres per cell:
    full resolution is returned, level 0, at 70 pixels per cell, although
    the overview gives 35.3 pixels per cell, above the target and closer
    to it; the program takes the factor 101 / 51 for 1 and the overview for
    no better than full resolution. *)
Theorem overview_factor_is_truncated :
  (gdal_get_best_overview (pyramid_dataset 100 [50; 25; 13])
     (view 50 50 (C.double_of_int 220)) = Ret 3
   /\ overview_pixels_per_cell (pyramid_dataset 100 [50; 25; 13])
        (Some (pyramid_band 100 [50; 25; 13])) unit_transform
        (view 50 50 (C.double_of_int 220)) 2
      = Ret (C.ddiv (C.double_of_int 220) (C.double_of_int 7))
   /\ below_target
        (spec_pixels_per_cell (pyramid_dataset 100 [50; 25; 13])
           unit_transform (view 50 50 (C.double_of_int 220)) 3) = true)
  /\ (gdal_get_best_overview (pyramid_dataset 101 [51])
        (view 50 50 (C.double_of_int 70)) = Ret 0
      /\ overview_pixels_per_cell (pyramid_dataset 101 [51])
           (Some (pyramid_band 101 [51])) unit_transform
           (view 50 50 (C.double_of_int 70)) 0
         = Ret (C.double_of_int 70)
      /\ exceeds_target
           (spec_pixels_per_cell (pyramid_dataset 101 [51]) unit_transform
              (view 50 50 (C.double_of_int 70)) 1) = true
      /\ closer
           (spec_pixels_per_cell (pyramid_dataset 101 [51]) unit_transform
              (view 50 50 (C.double_of_int 70)) 1)
           (spec_pixels_per_cell (pyramid_dataset 101 [51]) unit_transform
              (view 50 50 (C.double_of_int 70)) 0) = true).
Proof.
  split.
  - split; [vm_compute; reflexivity|].
    split; [vm_compute; reflexivity | vm_compute; reflexivity].
  - split; [vm_compute; reflexivity|].
    split; [vm_compute; reflexivity|].
    split; [vm_compute; reflexivity | vm_compute; reflexivity].
Qed.

(** ** The radiometric stretches *)

Lemma map_buffer_samples (f : C.float -> C.float) (size : Z)
  (pBuffer : list C.float) :
  size <= Z.of_nat (List.length pBuffer) ->
  exists out,
    map_buffer f size pBuffer = Ret out
    /\ forall n v, (n < Z.to_nat size)%nat ->
                   nth_error pBuffer n = Some v ->
                   nth_error out n = Some (f v).
Proof.
  intros Hsize. unfold map_buffer.
  destruct (Z.leb_spec size (Z.of_nat (List.length pBuffer))) as [_|Hgt];
    [|lia].
  eexists. split; [reflexivity|].
  intros n v Hn Hv.
  rewrite nth_error_app1.
  - rewrite nth_error_map, nth_error_firstn.
    destruct (Nat.ltb_spec n (Z.to_nat size)) as [_|Hge]; [|lia].
    now rewrite Hv.
  - rewrite length_map, length_firstn. lia.
Qed.

(** A sample that compares equal to 0 leaves the standard deviation stretch
    as 0, whatever the statistics and the parameter. *)
Lemma stddev_sample_zero (dMin dMax mean stddev param0 : C.double)
  (v : C.float) :
  C.eq v (C.float_of_int 0) = true ->
  stddev_sample dMin dMax mean stddev param0 v = S754_zero false.
Proof.
  intros Hz. unfold stddev_sample. rewrite Hz, orb_true_r. reflexivity.
Qed.

(** A sample at or below the lower bound is rescaled to 0, one at or above
    the upper bound (and above the lower) to 255. *)
Lemma rescale_sample_low (lo hi : C.double) (v : C.float) :
  C.le (C.double_of_float v) lo = true ->
  rescale_sample lo hi v = C.float_of_int 0.
Proof. intros H. unfold rescale_sample. now rewrite H. Qed.

Lemma rescale_sample_high (lo hi : C.double) (v : C.float) :
  C.le (C.double_of_float v) lo = false ->
  C.ge (C.double_of_float v) hi = true ->
  rescale_sample lo hi v = C.float_of_int 255.
Proof. intros Hlo Hhi. unfold rescale_sample. now rewrite Hlo, Hhi. Qed.

(** C7: with the four statistics present, the standard deviation stretch
    returns, and every sample of the buffer whose raw value is 0 is 0 after
    it, for every mean, standard deviation, minimum, maximum and stretch
    parameter. *)
Theorem stddev_stretch_keeps_zero
  (atof : string -> C.double) (heap_past : Z) (bandh : GDALRasterBandH)
  (s : stretch) (pBuffer : list C.float) (size : Z)
  (pszMin pszMax pszStdDev pszMean : string) :
  stretchmode s = VIEWER_STRETCHMODE_STDDEV ->
  GDALGetMetadataItem bandh "STATISTICS_MINIMUM" = Some pszMin ->
  GDALGetMetadataItem bandh "STATISTICS_MAXIMUM" = Some pszMax ->
  GDALGetMetadataItem bandh "STATISTICS_STDDEV" = Some pszStdDev ->
  GDALGetMetadataItem bandh "STATISTICS_MEAN" = Some pszMean ->
  size <= Z.of_nat (List.length pBuffer) ->
  exists out,
    do_stretch atof heap_past pBuffer bandh size s = Ret out
    /\ forall n v, (n < Z.to_nat size)%nat ->
                   nth_error pBuffer n = Some v ->
                   C.eq v (C.float_of_int 0) = true ->
                   nth_error out n = Some (S754_zero false).
Proof.
  intros Hmode Hmin Hmax Hsd Hmean Hsize.
  unfold do_stretch. rewrite Hmin, Hmax, Hmode, Hsd, Hmean.
  change (VIEWER_STRETCHMODE_STDDEV =? VIEWER_STRETCHMODE_STDDEV) with true.
  cbv iota.
  destruct (map_buffer_samples
              (stddev_sample (atof pszMin) (atof pszMax) (atof pszMean)
                 (atof pszStdDev) (stretchparam_at s 0))
              size pBuffer Hsize) as (out & Hout & Hnth).
  exists out. split; [exact Hout|].
  intros n v Hn Hv Hz.
  rewrite (Hnth n v Hn Hv). f_equal. apply stddev_sample_zero. exact Hz.
Qed.

(** A buffer holding 0, 300 and -0. *)
Lemma stddev_stretch_keeps_zero_witness :
  exists out,
    do_stretch atof_integers 0
      [C.float_of_int 0; C.float_of_int 300; S754_zero true]
      (Some (continuous_band 1)) 3 stddev_rule = Ret out
    /\ nth_error out 0 = Some (S754_zero false)
    /\ nth_error out 2 = Some (S754_zero false).
Proof.
  destruct (stddev_stretch_keeps_zero atof_integers 0
              (Some (continuous_band 1)) stddev_rule
              [C.float_of_int 0; C.float_of_int 300; S754_zero true] 3
              "0" "510" "100" "255"
              eq_refl eq_refl eq_refl eq_refl eq_refl
              ltac:(vm_compute; discriminate))
    as (out & Hout & Hnth).
  exists out. split; [exact Hout|]. split.
  - apply (Hnth 0%nat (C.float_of_int 0)); [vm_compute; lia | | ]; reflexivity.
  - apply (Hnth 2%nat (S754_zero true)); [vm_compute; lia | | ]; reflexivity.
Defined.

(** C2, the program at min = 0, max = 510: the sample 255 leaves the linear
    stretch as 255 and the sample 100 as 200, where
    [clamp (0, 255, (v - min) * 255 / (max - min))] is 127.5 and 50.  The
    program multiplies by [dStep = (max - min) / 255] instead of dividing
    by it. *)
Theorem linear_stretch_multiplies_by_step :
  do_stretch atof_integers 0 [C.float_of_int 255; C.float_of_int 100]
    (Some (continuous_band 1)) 2 linear_rule
  = Ret [C.float_of_int 255; C.float_of_int 200]
  /\ spec_linear (C.double_of_int 0) (C.double_of_int 510) (C.double_of_int 255)
     = C.ddiv (C.double_of_int 255) (C.double_of_int 2)
  /\ spec_linear (C.double_of_int 0) (C.double_of_int 510) (C.double_of_int 100)
     = C.double_of_int 50.
Proof. repeat split; vm_compute; reflexivity. Qed.

Lemma upper_scan_returns (dMax dBandUpper : C.double) (nbins : Z) :
  nbins <> 0 ->
  forall cells n dSumVals,
    exists hi, upper_scan dMax dBandUpper nbins cells n dSumVals = Ret hi.
Proof.
  intros Hn. induction cells as [|c rest IH]; intros n dSumVals; simpl.
  - eexists. reflexivity.
  - destruct (C.gt (C.dadd dSumVals (C.double_of_int c)) dBandUpper).
    + unfold C.div. destruct (Z.eqb_spec nbins 0); [contradiction|].
      simpl. eexists. reflexivity.
    + apply IH.
Qed.

(** C6, the program on a histogram of four bins of ten pixels, statistics
    0 and 100, parameters 0.5 and 1: the cumulative count first exceeds
    half of the total at bin 2 of 4, whose position interpolated over
    [0, 100] is 50; the program derives 0, whatever it reads past the end
    of the histogram.  [n / nbins] is a division of [int]s and is 0. *)
Theorem histogram_lower_bound_not_interpolated (heap_past : Z) :
  read_histogram flat_histogram_table = Some [10; 10; 10; 10]
  /\ (exists hi,
        histogram_bounds heap_past (C.double_of_int 0) (C.double_of_int 100)
          histogram_rule 4 [10; 10; 10; 10]
        = Ret (C.double_of_int 0, hi))
  /\ spec_stretch_min (C.double_of_int 0) (C.double_of_int 100) one_half
       [10; 10; 10; 10]
     = C.double_of_int 50.
Proof.
  split; [reflexivity|]. split; [|vm_compute; reflexivity].
  unfold histogram_bounds.
  set (lo := lower_scan _ _ _ _ _ _ _).
  assert (Hlo : lo = Ret (C.double_of_int 0)) by (vm_compute; reflexivity).
  rewrite Hlo. cbn [bind].
  match goal with
  | |- context [upper_scan ?dMax ?up ?nbins ?cells ?n ?sum] =>
      destruct (upper_scan_returns dMax up nbins ltac:(discriminate)
                  cells n sum) as [hi Hhi]
  end.
  exists hi. rewrite Hhi. reflexivity.
Qed.

(** With one bin and equal statistics the derived bounds cross when the
    [int] past the end of the histogram is large: the scan from the top
    stops at [n = nbins] and subtracts one from the maximum. *)
Example histogram_bounds_cross_on_one_bin :
  histogram_bounds 1000 (C.double_of_int 5) (C.double_of_int 5)
    histogram_rule 1 [10]
  = Ret (C.double_of_int 5, C.double_of_int 4).
Proof. vm_compute. reflexivity. Qed.

(** ** The window mapper *)

(** C3, the program on a view of 80 by 24 cells, one metre per cell, centred
    200 metres left of a level of 100 by 100 pixels: the view lies wholly
    left of the level (its right edge [x2] is negative), and the window to
    read has the width -160, not 0.  Only [x1] is clipped at 0 and only [x2]
    at the width. *)
Theorem view_left_of_level_has_negative_width :
  (exists x1 y1 x2 y2,
      source_corners 80 24 continuous_dataset (Some (continuous_band 1))
        (view (-200) 50 one_meter) = Ret (x1, y1, x2, y2)
      /\ C.lt x2 (C.double_of_int 0) = true)
  /\ exists info,
      prepare_for_reading 80 24 2400 720 continuous_dataset
        (Some (continuous_band 1)) (view (-200) 50 one_meter) = Ret info
      /\ nXSize info = -160
      /\ nYSize info = 24.
Proof.
  split.
  - do 4 eexists. split; [vm_compute; reflexivity | vm_compute; reflexivity].
  - eexists. split; [vm_compute; reflexivity|]. split; reflexivity.
Qed.

(** The same to the right of the level: the width read is -161. *)
Example view_right_of_level_has_negative_width :
  exists info,
    prepare_for_reading 80 24 2400 720 continuous_dataset
      (Some (continuous_band 1)) (view 300 50 one_meter) = Ret info
    /\ nXSize info = -161.
Proof. eexists. split; [vm_compute; reflexivity | reflexivity]. Qed.

(** A view inside the level, at one metre per cell: nothing is clipped. *)
Example view_inside_level_is_whole :
  prepare_for_reading 80 24 2400 720 continuous_dataset
    (Some (continuous_band 1)) (view 50 50 one_meter)
  = Ret {| nXOff := 10; nYOff := 38; nXSize := 80; nYSize := 24;
           nDataOffset := 0; nBufXSize := 2400; nBufYSize := 720 |}.
Proof. vm_compute. reflexivity. Qed.

Lemma clip_low_inside (x : C.double) (size : Z) :
  in_bounds x size = true -> clip_low x = Ret (0, x).
Proof.
  unfold in_bounds, clip_low. intros H. apply andb_true_iff in H.
  destruct H as [Hlo _]. now rewrite (le_not_gt _ _ Hlo).
Qed.

Lemma clip_high_inside (x : C.double) (size : Z) :
  in_bounds x size = true -> clip_high x size = Ret (0, x).
Proof.
  unfold in_bounds, clip_high. intros H. apply andb_true_iff in H.
  destruct H as [_ Hhi]. now rewrite (lt_not_ge _ _ Hhi).
Qed.

(** The rescale of an extra of 0 is 0 whenever it is defined. *)
Lemma rescale_extra_of_zero (origIn dataSize l : Z) :
  rescale_extra 0 origIn dataSize = Ret l -> l = 0.
Proof.
  unfold rescale_extra.
  change (C.double_of_int 0) with (S754_zero false).
  destruct (C.double_of_int origIn) as [so|so| |so mo eo],
           (C.double_of_int dataSize) as [sd|sd| |sd md ed];
    simpl; intros H; try discriminate; injection H as <-; reflexivity.
Qed.

(** For a view whose four corners lie inside the level nothing is clipped:
    whenever the window mapper returns, the offset into the destination is 0
    and the usable size is the whole destination. *)
Lemma clip_window_inside_level
  (dataWidth dataHeight width height : Z)
  (corners : C.double * C.double * C.double * C.double) (info : readInfo) :
  C.INT_MIN <= dataWidth <= C.INT_MAX ->
  C.INT_MIN <= dataHeight <= C.INT_MAX ->
  corners_inside corners width height = true ->
  clip_window dataWidth dataHeight width height corners = Ret info ->
  nDataOffset info = 0
  /\ nBufXSize info = dataWidth
  /\ nBufYSize info = dataHeight.
Proof.
  intros Hw Hh Hin Hrun.
  destruct corners as [[[x1 y1] x2] y2].
  unfold corners_inside in Hin.
  apply andb_true_iff in Hin. destruct Hin as [Hin Hy2].
  apply andb_true_iff in Hin. destruct Hin as [Hin Hy1].
  apply andb_true_iff in Hin. destruct Hin as [Hx1 Hx2].
  unfold clip_window in Hrun.
  rewrite (clip_low_inside x1 width Hx1), (clip_high_inside x2 width Hx2),
    (clip_low_inside y1 height Hy1), (clip_high_inside y2 height Hy2) in Hrun.
  apply bind_Ret in Hrun. destruct Hrun as (ow & _ & Hrun).
  apply bind_Ret in Hrun. destruct Hrun as (oh & _ & Hrun).
  cbn [bind] in Hrun.
  apply bind_Ret in Hrun. destruct Hrun as (wi & _ & Hrun).
  apply bind_Ret in Hrun. destruct Hrun as (hi & _ & Hrun).
  apply bind_Ret in Hrun. destruct Hrun as (tlx & _ & Hrun).
  apply bind_Ret in Hrun. destruct Hrun as (tly & _ & Hrun).
  apply bind_Ret in Hrun. destruct Hrun as (l & Hl & Hrun).
  apply bind_Ret in Hrun. destruct Hrun as (r & Hr & Hrun).
  apply bind_Ret in Hrun. destruct Hrun as (t & Ht & Hrun).
  apply bind_Ret in Hrun. destruct Hrun as (b & Hb & Hrun).
  apply rescale_extra_of_zero in Hl, Hr, Ht, Hb. subst l r t b.
  injection Hrun as <-. cbn [nDataOffset nBufXSize nBufYSize].
  unfold C.add, C.sub, C.mul.
  rewrite !Z.sub_0_r, Z.mul_0_l, Z.add_0_l.
  rewrite !(wrap_small dataWidth Hw), !(wrap_small dataHeight Hh).
  repeat split; reflexivity.
Qed.

(** C8, the program on a view of 80 by 24 cells at 1/1024 of a pixel per
    cell in the middle of a level of 100 by 100 pixels: the four corners lie
    inside the level, the view spans less than half a pixel, so
    [origWidthIn] and [origHeightIn] round to 0, and the rescale of the
    extras divides 0 by 0 and assigns the result to an [int].  No window
    with a zero offset and the full destination size comes out. *)
Theorem deep_zoom_inside_level_is_undefined :
  (exists corners,
      source_corners 80 24 continuous_dataset (Some (continuous_band 1))
        (view 50 50 deep_zoom) = Ret corners
      /\ corners_inside corners 100 100 = true)
  /\ (exists x1 y1 x2 y2,
        source_corners 80 24 continuous_dataset (Some (continuous_band 1))
          (view 50 50 deep_zoom) = Ret (x1, y1, x2, y2)
        /\ C.int_of_double (C.round (C.dsub x2 x1)) = Some 0
        /\ rescale_extra 0 0 2400 = Undef)
  /\ prepare_for_reading 80 24 2400 720 continuous_dataset
       (Some (continuous_band 1)) (view 50 50 deep_zoom) = Undef.
Proof.
  split; [|split].
  - eexists. split; [vm_compute; reflexivity | vm_compute; reflexivity].
  - do 4 eexists. split; [vm_compute; reflexivity|].
    split; [vm_compute; reflexivity | vm_compute; reflexivity].
  - vm_compute. reflexivity.
Qed.

(** ** The image composers *)

Lemma canvas_size_exact (cells : Z) :
  0 <= cells <= 71582788 ->
  C.unsigned (C.mul PIX_PER_CELL cells) = PIX_PER_CELL * cells.
Proof.
  unfold C.unsigned, C.mul, C.wrap, PIX_PER_CELL. intros H.
  change (2 ^ 31) with 2147483648. change (2 ^ 32) with 4294967296.
  rewrite (Z.mod_small (30 * cells + 2147483648)) by lia.
  rewrite Z.mod_small by lia. lia.
Qed.

Section RenderFacts.

Variables ww wh : Z.
Variable atof : string -> C.double.
Variable heap_past : Z.
Variable CPLMalloc_ints : nat -> list Z.
Variable GDALRasterIO :
  GDALRasterBandH -> readInfo -> Z -> list C.float -> list C.float.
Variable caca_create_dither : Z -> Z -> Z -> Z -> option Z.

Lemma finish_image_size (px : list Z) (iw ih : Z) (im : image) :
  finish_image caca_create_dither px iw ih = Ret im ->
  w im = iw /\ h im = ih.
Proof.
  unfold finish_image.
  destruct (caca_create_dither _ _ _ _) as [dth|]; [|discriminate].
  intros H. injection H as <-. split; reflexivity.
Qed.

Lemma gdal_read_multiband_size d overviewIndex s e im :
  gdal_read_multiband ww wh atof heap_past GDALRasterIO caca_create_dither
    d overviewIndex s e = Ret im ->
  w im = C.unsigned (C.mul PIX_PER_CELL ww)
  /\ h im = C.unsigned (C.mul PIX_PER_CELL wh).
Proof.
  unfold gdal_read_multiband. intros H.
  apply bind_Ret in H. destruct H as (info & _ & H).
  apply bind_Ret in H. destruct H as (px & _ & H).
  exact (finish_image_size _ _ _ _ H).
Qed.

Lemma gdal_read_singleband_size d overviewIndex s e im :
  gdal_read_singleband ww wh atof heap_past CPLMalloc_ints GDALRasterIO
    caca_create_dither d overviewIndex s e = Ret im ->
  w im = C.unsigned (C.mul PIX_PER_CELL ww)
  /\ h im = C.unsigned (C.mul PIX_PER_CELL wh).
Proof.
  unfold gdal_read_singleband. intros H.
  apply bind_Ret in H. destruct H as (info & _ & H).
  apply bind_Ret in H. destruct H as (pBuffer & _ & H).
  destruct (mode s =? VIEWER_MODE_COLORTABLE).
  - destruct (GDALGetDefaultRAT _) as [rath|]; [|discriminate].
    apply bind_Ret in H. destruct H as (blocks & _ & H).
    destruct blocks as [[[pRed|] [pGreen|]] [pBlue|]]; try discriminate.
    apply bind_Ret in H. destruct H as (px & _ & H).
    exact (finish_image_size _ _ _ _ H).
  - destruct (mode s =? VIEWER_MODE_GREYSCALE); [|discriminate].
    apply bind_Ret in H. destruct H as (bytes & _ & H).
    exact (finish_image_size _ _ _ _ H).
Qed.

End RenderFacts.

(** C10: for a canvas of [ww] by [wh] cells (sizes whose thirtyfold fits an
    [int]), every image returned by [gdal_read_multiband], by
    [gdal_read_singleband], and so by [gdal_load_image], has the width
    [PIX_PER_CELL * ww = 30 * ww] and the height [30 * wh], whatever the
    dataset, the view and the overview level. *)
Theorem rendered_image_size
  (ww wh : Z) (atof : string -> C.double) (heap_past : Z)
  (CPLMalloc_ints : nat -> list Z)
  (GDALRasterIO :
     GDALRasterBandH -> readInfo -> Z -> list C.float -> list C.float)
  (caca_create_dither : Z -> Z -> Z -> Z -> option Z) :
  0 <= ww <= 71582788 ->
  0 <= wh <= 71582788 ->
  (forall d overviewIndex s e im,
      gdal_read_multiband ww wh atof heap_past GDALRasterIO
        caca_create_dither d overviewIndex s e = Ret im ->
      w im = PIX_PER_CELL * ww /\ h im = PIX_PER_CELL * wh)
  /\ (forall d overviewIndex s e im,
        gdal_read_singleband ww wh atof heap_past CPLMalloc_ints GDALRasterIO
          caca_create_dither d overviewIndex s e = Ret im ->
        w im = PIX_PER_CELL * ww /\ h im = PIX_PER_CELL * wh)
  /\ (forall file e im,
        gdal_load_image ww wh atof heap_past CPLMalloc_ints GDALRasterIO
          caca_create_dither file e = Ret im ->
        w im = PIX_PER_CELL * ww /\ h im = PIX_PER_CELL * wh).
Proof.
  intros Hww Hwh.
  rewrite <- (canvas_size_exact ww Hww), <- (canvas_size_exact wh Hwh).
  split; [|split].
  - intros d overviewIndex s e im H.
    exact (gdal_read_multiband_size _ _ _ _ _ _ _ _ _ _ _ H).
  - intros d overviewIndex s e im H.
    exact (gdal_read_singleband_size _ _ _ _ _ _ _ _ _ _ _ _ H).
  - intros file e im H. unfold gdal_load_image in H.
    apply bind_Ret in H. destruct H as (overviewIndex & _ & H).
    destruct (mode (file_stretch file) =? VIEWER_MODE_RGB).
    + exact (gdal_read_multiband_size _ _ _ _ _ _ _ _ _ _ _ H).
    + exact (gdal_read_singleband_size _ _ _ _ _ _ _ _ _ _ _ _ H).
Qed.

(** Three renders of a canvas of one cell: 30 by 30 pixels each. *)
Lemma rendered_image_size_witness :
  (0 <= 1 <= 71582788 /\ 0 <= 1 <= 71582788)
  /\ (exists im,
        gdal_load_image 1 1 atof_integers 0 stale_block
          (constant_read (C.float_of_int 7)) dither_created rgb_file
          (view 50 50 eight_meters) = Ret im
        /\ w im = 30 /\ h im = 30)
  /\ (exists im,
        gdal_read_multiband 1 1 atof_integers 0
          (constant_read (C.float_of_int 7)) dither_created rgb_dataset 2
          rgb_rule (view 50 50 eight_meters) = Ret im
        /\ w im = 30 /\ h im = 30)
  /\ (exists im,
        gdal_read_singleband 1 1 atof_integers 0 stale_block
          (constant_read (C.float_of_int 7)) dither_created
          continuous_dataset 1 greyscale_rule (view 50 50 eight_meters) = Ret im
        /\ w im = 30 /\ h im = 30).
Proof.
  split; [lia|].
  destruct (rendered_image_size 1 1 atof_integers 0 stale_block
              (constant_read (C.float_of_int 7)) dither_created
              ltac:(lia) ltac:(lia)) as (Hmulti & Hsingle & Hload).
  split; [|split].
  - eexists. split; [vm_compute; reflexivity|].
    apply (Hload rgb_file (view 50 50 eight_meters)). vm_compute. reflexivity.
  - eexists. split; [vm_compute; reflexivity|].
    apply (Hmulti rgb_dataset 2 rgb_rule (view 50 50 eight_meters)).
    vm_compute. reflexivity.
  - eexists. split; [vm_compute; reflexivity|].
    apply (Hsingle continuous_dataset 1 greyscale_rule (view 50 50 eight_meters)).
    vm_compute. reflexivity.
Defined.

(** A rendered image of a 1 by 1 canvas: 30 by 30 pixels of three bytes. *)
Example rgb_render_example :
  exists im,
    gdal_load_image 1 1 atof_integers 0 stale_block
      (constant_read (C.float_of_int 7)) dither_created rgb_file
      (view 50 50 one_meter) = Ret im
    /\ pixels im = repeat 7 2700.
Proof. eexists. split; [vm_compute; reflexivity | vm_compute; reflexivity]. Qed.

(** C5, the program on a thematic band whose table gives class 1 the
    colour (255, 128, 64), every sample read being class 1: the blocks after
    the loop over the columns are the red column, the blue column in
    [pGreen], and a fresh block never written in [pBlue]; every pixel is
    written (255, 64, 171), 171 being what the fresh block holds, and not
    (255, 128, 64).  The read of the blue column has [pGreen] as its
    target. *)
Theorem colour_table_green_holds_blue_column :
  (forall fresh : nat -> list Z,
      read_colour_columns fresh 2 (rat_columns two_class_table)
        (None, None, None)
      = Ret (Some [0; 255], Some [0; 64], Some (fresh 2%nat)))
  /\ exists im,
      gdal_read_singleband 1 1 atof_integers 0 stale_block
        (constant_read (C.float_of_int 1)) dither_created thematic_dataset 0
        colortable_rule (view 50 50 one_meter) = Ret im
      /\ pixels im = List.concat (repeat [255; 64; 171] 900).
Proof.
  split; [intros fresh; reflexivity|].
  eexists. split; [vm_compute; reflexivity | vm_compute; reflexivity].
Qed.

(** ** A dataset without a geotransform *)

(** C9 in the words of the specification does not hold: on a dataset with
    overviews and no geotransform [gdal_get_best_overview] returns level 0,
    as it does for a dataset best read at full resolution, and signals no
    failure. *)
Lemma unreferenced_dataset_gets_level_zero :
  GDALGetGeoTransform unreferenced_dataset = None
  /\ GDALGetOverviewCount (GDALGetRasterBand unreferenced_dataset 1) = 2
  /\ gdal_get_best_overview unreferenced_dataset
       (view 50 50 (C.double_of_int 100)) = Ret 0
  /\ ~ signals_failure
         (gdal_get_best_overview unreferenced_dataset
            (view 50 50 (C.double_of_int 100))).
Proof.
  repeat split; try reflexivity.
  intros [msg Hmsg]. vm_compute in Hmsg. discriminate.
Qed.

Lemma gdal_get_best_overview_no_geotransform (d : GDALDataset) (e : extent) :
  GDALGetGeoTransform d = None -> gdal_get_best_overview d e = Ret 0.
Proof.
  intros Hgt. unfold gdal_get_best_overview.
  destruct (GDALGetOverviewCount (GDALGetRasterBand d 1) =? 0);
    [reflexivity|].
  now rewrite Hgt.
Qed.

Lemma prepare_for_reading_no_geotransform
  (ww wh dataWidth dataHeight : Z) (d : GDALDataset) (ovh : GDALRasterBandH)
  (e : extent) :
  GDALGetGeoTransform d = None ->
  GDALGetRasterBandXSize ovh <> 0 ->
  prepare_for_reading ww wh dataWidth dataHeight d ovh e
  = Err "Image has no geotransform".
Proof.
  intros Hgt Hx. unfold prepare_for_reading, source_corners, C.div.
  destruct (Z.eqb_spec (GDALGetRasterBandXSize ovh) 0); [contradiction|].
  cbn [defined bind]. now rewrite Hgt.
Qed.

(** C9, as amended: when the dataset carries no geotransform,
    [gdal_get_best_overview] does not fail; it returns level 0, full
    resolution.  The condition is reported by the window mapper:
    [prepare_for_reading] on any band of non-zero width fails with "Image has
    no geotransform", and so does [gdal_load_image] when the first band of
    the stretch has a non-zero width. *)
Theorem missing_geotransform_reported_by_window_mapper
  (d : GDALDataset) (e : extent) :
  GDALGetGeoTransform d = None ->
  gdal_get_best_overview d e = Ret 0
  /\ (forall ww wh dataWidth dataHeight ovh,
        GDALGetRasterBandXSize ovh <> 0 ->
        prepare_for_reading ww wh dataWidth dataHeight d ovh e
        = Err "Image has no geotransform")
  /\ (forall ww wh atof heap_past CPLMalloc_ints GDALRasterIO
             caca_create_dither file,
        ds file = d ->
        GDALGetRasterBandXSize
          (GDALGetRasterBand d (bands_at (file_stretch file) 0)) <> 0 ->
        gdal_load_image ww wh atof heap_past CPLMalloc_ints GDALRasterIO
          caca_create_dither file e
        = Err "Image has no geotransform").
Proof.
  intros Hgt. split; [|split].
  - apply gdal_get_best_overview_no_geotransform. exact Hgt.
  - intros. apply prepare_for_reading_no_geotransform; assumption.
  - intros ww wh atof heap_past CPLMalloc_ints GDALRasterIO
      caca_create_dither file Hds Hx.
    unfold gdal_load_image. rewrite Hds.
    rewrite (gdal_get_best_overview_no_geotransform d e Hgt). cbn [bind].
    destruct (mode (file_stretch file) =? VIEWER_MODE_RGB).
    + unfold gdal_read_multiband, level_band. cbn [Z.eqb].
      now rewrite prepare_for_reading_no_geotransform.
    + unfold gdal_read_singleband, level_band. cbn [Z.eqb].
      now rewrite prepare_for_reading_no_geotransform.
Qed.

(** The dataset without a geotransform, on a canvas of 80 by 24 cells. *)
Lemma missing_geotransform_reported_by_window_mapper_witness :
  GDALGetGeoTransform unreferenced_dataset = None
  /\ gdal_get_best_overview unreferenced_dataset
       (view 50 50 (C.double_of_int 100)) = Ret 0
  /\ prepare_for_reading 80 24 2400 720 unreferenced_dataset
       (Some (continuous_band 1)) (view 50 50 (C.double_of_int 100))
     = Err "Image has no geotransform".
Proof.
  destruct (missing_geotransform_reported_by_window_mapper
              unreferenced_dataset (view 50 50 (C.double_of_int 100)) eq_refl)
    as (Hlevel & Hwindow & _).
  split; [reflexivity|]. split; [exact Hlevel|].
  apply Hwindow. vm_compute. discriminate.
Defined.

(** ** The rule matcher, again *)

Lemma colour_table_check_true (d : GDALDataset) (n : Z) (r : stretch)
  (m : bool) :
  colour_table_check d n r m = true -> m = true.
Proof.
  unfold colour_table_check. destruct m; [reflexivity|]. simpl. auto.
Qed.

Lemma rule_comparison_holds (n : Z) (r : stretch) :
  rule_comparison n r = Some true -> comparator_holds n r = true.
Proof.
  unfold rule_comparison, comparator_holds.
  destruct (comp r =? VIEWER_COMP_LT) eqn:Hlt.
  - intros H. injection H as ->. reflexivity.
  - destruct (comp r =? VIEWER_COMP_GT) eqn:Hgt.
    + intros H. injection H as H. rewrite Z.gtb_ltb in H. rewrite H.
      simpl. reflexivity.
    + destruct (comp r =? VIEWER_COMP_EQ) eqn:Heq; [|discriminate].
      intros H. injection H as ->. simpl. reflexivity.
Qed.

(** X1: Whatever the list holds, a rule that [get_stretch_for_gdal] returns is
    a rule of the list whose comparator holds on the band count of the
    dataset. *)
Theorem get_stretch_for_gdal_sound
  (stretchList : stretchlist) (d : GDALDataset) (r : stretch) :
  get_stretch_for_gdal stretchList d = Some r ->
  In r stretchList /\ comparator_holds (GDALGetRasterCount d) r = true.
Proof.
  unfold get_stretch_for_gdal.
  induction stretchList as [|s rest IH]; simpl; [discriminate|].
  destruct (rule_comparison (GDALGetRasterCount d) s) as [m|] eqn:Hc;
    [|discriminate].
  destruct (colour_table_check d (GDALGetRasterCount d) s m) eqn:Hk.
  - intros H. injection H as <-. split; [left; reflexivity|].
    apply colour_table_check_true in Hk. subst m.
    apply rule_comparison_holds. exact Hc.
  - intros H. destruct (IH H) as [Hin Hholds]. split; [right|]; assumption.
Qed.

Lemma rule_comparison_invalid (n : Z) (r : stretch) :
  ~ valid_comparator r -> rule_comparison n r = None.
Proof.
  unfold valid_comparator, rule_comparison. intros H.
  destruct (Z.eqb_spec (comp r) VIEWER_COMP_LT); [tauto|].
  destruct (Z.eqb_spec (comp r) VIEWER_COMP_GT); [tauto|].
  destruct (Z.eqb_spec (comp r) VIEWER_COMP_EQ); [tauto|]. reflexivity.
Qed.

(** X2: A rule whose comparator is none of the three ends the search: the
    rules behind it are never looked at, and the answer is the answer on
    the rules in front of it. *)
Theorem get_stretch_for_gdal_stops_at_invalid
  (before after : list stretch) (bad : stretch) (d : GDALDataset) :
  ~ valid_comparator bad ->
  get_stretch_for_gdal (before ++ bad :: after) d
  = get_stretch_for_gdal before d.
Proof.
  intros Hbad. unfold get_stretch_for_gdal.
  induction before as [|s rest IH]; simpl.
  - now rewrite (rule_comparison_invalid _ _ Hbad).
  - destruct (rule_comparison (GDALGetRasterCount d) s) as [m|]; [|reflexivity].
    destruct (colour_table_check d (GDALGetRasterCount d) s m); [reflexivity|].
    exact IH.
Qed.

(** ** The rule parser *)

Lemma rulepart_from_string_fields (s r : stretch) (pszString : string) :
  rulepart_from_string s pszString = Ret r ->
  valid_comparator r
  /\ mode r = mode s /\ stretchmode r = stretchmode s
  /\ stretchparam r = stretchparam s /\ bands r = bands s.
Proof.
  unfold rulepart_from_string.
  destruct (nth_error _ 0) as [pszTmp|]; [|discriminate].
  destruct (String.eqb pszTmp "less");
    [|destruct (String.eqb pszTmp "greater");
      [|destruct (String.eqb pszTmp "equal"); [|discriminate]]].
  all: destruct (nth_error _ 1) as [pszValue|]; [|discriminate].
  all: destruct (nth_error _ 2) as [pszBand|]; [|discriminate].
  all: intros H; injection H as <-; unfold valid_comparator; simpl; auto 10.
Qed.

Section ParseFacts.

Variable atof : string -> C.double.

Lemma stretchpart_from_string_fields (s r : stretch) (pszString : string) :
  stretchpart_from_string atof s pszString = Ret r ->
  comp r = comp s /\ value r = value s /\ ctband r = ctband s
  /\ (mode r = VIEWER_MODE_COLORTABLE \/ mode r = VIEWER_MODE_GREYSCALE
      \/ mode r = VIEWER_MODE_RGB)
  /\ (stretchmode r = VIEWER_STRETCHMODE_NONE
      \/ stretchmode r = VIEWER_STRETCHMODE_LINEAR
      \/ stretchmode r = VIEWER_STRETCHMODE_STDDEV
      \/ stretchmode r = VIEWER_STRETCHMODE_HIST).
Proof.
  unfold stretchpart_from_string.
  destruct (nth_error _ 0) as [pszTmp|]; [|discriminate].
  destruct (String.eqb pszTmp "colortable");
    [|destruct (String.eqb pszTmp "greyscale");
      [|destruct (String.eqb pszTmp "rgb"); [|discriminate]]].
  all: destruct (nth_error _ 1) as [pszMode|]; [|discriminate].
  all: destruct (String.eqb pszMode "none" || String.eqb pszMode EmptyString);
    [|destruct (String.eqb pszMode "linear");
      [|destruct (String.eqb pszMode "stddev");
        [|destruct (String.eqb pszMode "histogram"); [|discriminate]]]].
  all: destruct (nth_error _ 2) as [pszParams|]; [|discriminate].
  all: destruct (nth_error _ 3) as [pszBands|]; [|discriminate].
  all: intros H; injection H as <-; simpl; auto 10.
Qed.

Lemma stretch_from_string_well_formed (s r : stretch) (pszString : string) :
  stretch_from_string atof s pszString = Ret r -> well_formed r.
Proof.
  unfold stretch_from_string.
  destruct (nth_error _ 0) as [pszRule|]; [|discriminate].
  intros H. apply bind_Ret in H. destruct H as (mid & Hrule & H).
  destruct (nth_error _ 1) as [pszStretch|]; [|discriminate].
  apply rulepart_from_string_fields in Hrule.
  apply stretchpart_from_string_fields in H.
  destruct Hrule as (Hv & _).
  destruct H as (Hc & _ & _ & Hm & Hsm).
  unfold well_formed, valid_comparator in *. rewrite Hc. auto.
Qed.

(** X3: A table of rule strings that parses gives one rule per string, and
    every rule has one of the three comparators, one of the display modes
    colour table, greyscale and RGB, and one of the four stretch modes,
    whatever the blocks held before. *)
Theorem load_rules_well_formed (fresh : nat -> stretch) (rules : list string) :
  forall i l, load_rules atof fresh i rules = Ret l ->
              List.length l = List.length rules /\ Forall well_formed l.
Proof.
  induction rules as [|pszRule rest IH]; intros i l H; simpl in H.
  - injection H as <-. split; [reflexivity | constructor].
  - apply bind_Ret in H. destruct H as (s & Hs & H).
    apply bind_Ret in H. destruct H as (l' & Hl & H).
    injection H as <-. destruct (IH _ _ Hl) as [Hlen Hall].
    split; [simpl; now rewrite Hlen|].
    constructor; [|exact Hall].
    exact (stretch_from_string_well_formed _ _ _ Hs).
Qed.

Lemma add_token_short (flags : Z) (tok : string) :
  (List.length (Text.add_token flags tok) <= 1)%nat.
Proof.
  unfold Text.add_token.
  destruct (if Text.flag_set flags Text.CSLT_STRIPENDSPACES then _ else _);
    [destruct (Text.flag_set flags Text.CSLT_ALLOWEMPTYTOKENS)|]; simpl; lia.
Qed.

Lemma scan_tokens_free (pszDelimiters : string) (flags : Z) (s : string) :
  free_of pszDelimiters s = true ->
  forall tok b,
    (List.length (Text.scan_tokens pszDelimiters flags s tok b) <= 1)%nat.
Proof.
  induction s as [|c rest IH]; simpl; intros Hfree tok b.
  - apply add_token_short.
  - apply andb_true_iff in Hfree. destruct Hfree as [Hc Hrest].
    apply negb_true_iff in Hc. rewrite Hc.
    destruct (Text.flag_set flags Text.CSLT_STRIPLEADSPACES && b
              && Text.isspace c); apply IH; exact Hrest.
Qed.

Lemma tokenize_free (pszDelimiters : string) (flags : Z) (s : string) :
  free_of pszDelimiters s = true ->
  nth_error (Text.CSLTokenizeString2 s pszDelimiters flags) 1 = None.
Proof.
  intros Hfree. apply nth_error_None.
  unfold Text.CSLTokenizeString2. destruct s as [|c rest]; [simpl; lia|].
  apply scan_tokens_free. exact Hfree.
Qed.

(** X4: A rule string without a colon is refused. *)
Theorem stretch_from_string_needs_colon (s : stretch) (pszString : string) :
  free_of ":" pszString = true ->
  exists msg, stretch_from_string atof s pszString = Err msg.
Proof.
  intros Hfree. unfold stretch_from_string.
  rewrite (tokenize_free ":" rule_flags pszString Hfree).
  destruct (nth_error _ 0) as [pszRule|]; [|eexists; reflexivity].
  destruct (rulepart_from_string s pszRule) as [mid|msg|] eqn:Hr; simpl.
  - eexists; reflexivity.
  - eexists; reflexivity.
  - unfold rulepart_from_string in Hr.
    destruct (nth_error _ 0) as [a|]; [|discriminate].
    destruct (if String.eqb a "less" then _ else _); [|discriminate].
    destruct (nth_error _ 1); [|discriminate].
    destruct (nth_error _ 2); discriminate.
Qed.

End ParseFacts.

Lemma nth_array_set {A : Type} (d : A) (a : list A) (i j : nat) (v : A) :
  nth j (array_set d a i v) d = if Nat.eqb j i then v else nth j a d.
Proof.
  unfold array_set.
  assert (Hlen : List.length (firstn i (a ++ repeat d (i - List.length a))) = i).
  { rewrite length_firstn, length_app, repeat_length. lia. }
  destruct (Nat.eqb_spec j i) as [->|Hne].
  - rewrite app_nth2 by lia. rewrite Hlen, Nat.sub_diag. reflexivity.
  - destruct (Nat.lt_ge_cases j i) as [Hlt|Hge].
    + rewrite app_nth1 by lia.
      rewrite nth_firstn.
      destruct (Nat.ltb_spec j i); [|lia].
      destruct (Nat.lt_ge_cases j (List.length a)) as [Hja|Hja].
      * now rewrite app_nth1 by lia.
      * rewrite app_nth2 by lia. rewrite (nth_overflow a) by lia.
        apply nth_repeat.
    + rewrite app_nth2 by lia. rewrite Hlen.
      destruct (j - i)%nat as [|k] eqn:Hk; [lia|]. cbn [nth].
      rewrite nth_skipn. f_equal. lia.
Qed.

Section DefaultRules.
Variable atof : string -> C.double.
Variable fresh : nat -> stretch.

Lemma load_default_rules :
  load_rules atof fresh 0 pszDefaultStretchRules
  = Ret [ single_band_rule (fresh 0%nat) VIEWER_COMP_EQ 1 1 VIEWER_MODE_COLORTABLE;
          single_band_rule (fresh 1%nat) VIEWER_COMP_EQ 1 (-1) VIEWER_MODE_GREYSCALE;
          single_band_rule (fresh 2%nat) VIEWER_COMP_EQ 2 (-1) VIEWER_MODE_GREYSCALE;
          three_band_rule (fresh 3%nat) VIEWER_COMP_EQ 3 (-1)
            VIEWER_STRETCHMODE_NONE (stretchparam (fresh 3%nat)) 1 2 3;
          three_band_rule (fresh 4%nat) VIEWER_COMP_LT 6 (-1)
            VIEWER_STRETCHMODE_STDDEV
            (array_set C.dzero (stretchparam (fresh 4%nat)) 0 (atof "2.0")) 4 3 2;
          three_band_rule (fresh 5%nat) VIEWER_COMP_GT 5 (-1)
            VIEWER_STRETCHMODE_STDDEV
            (array_set C.dzero (stretchparam (fresh 5%nat)) 0 (atof "2.0")) 5 4 2 ].
Proof. reflexivity. Qed.

End DefaultRules.


Lemma colour_table_check_no_band (d : GDALDataset) (n : Z) (r : stretch)
  (m : bool) :
  ctband r = -1 -> colour_table_check d n r m = m.
Proof.
  intros H. unfold colour_table_check. rewrite H. simpl.
  now rewrite andb_false_r.
Qed.

Lemma get_stretch_loop_plain (d : GDALDataset) (n : Z) (r : stretch)
  (rest : list stretch) :
  valid_comparator r -> ctband r = -1 ->
  get_stretch_loop d n (r :: rest)
  = if comparator_holds n r then Some r else get_stretch_loop d n rest.
Proof.
  intros Hv Hc. simpl. rewrite (rule_comparison_valid _ _ Hv).
  now rewrite colour_table_check_no_band.
Qed.

Lemma get_stretch_loop_cons (d : GDALDataset) (n : Z) (r : stretch)
  (rest : list stretch) :
  valid_comparator r ->
  get_stretch_loop d n (r :: rest)
  = if colour_table_check d n r (comparator_holds n r)
    then Some r else get_stretch_loop d n rest.
Proof.
  intros Hv. simpl. now rewrite (rule_comparison_valid _ _ Hv).
Qed.

Lemma single_band_rule_band (init : stretch) (c v ct m : Z) :
  bands_at (single_band_rule init c v ct m) 0 = 1.
Proof.
  unfold bands_at, single_band_rule. cbn [bands set_stretch_part].
  now rewrite nth_array_set.
Qed.

Lemma three_band_rule_bands (init : stretch) (c v ct sm : Z)
  (params : list C.double) (b0 b1 b2 : Z) :
  bands_at (three_band_rule init c v ct sm params b0 b1 b2) 0 = b0
  /\ bands_at (three_band_rule init c v ct sm params b0 b1 b2) 1 = b1
  /\ bands_at (three_band_rule init c v ct sm params b0 b1 b2) 2 = b2.
Proof.
  unfold bands_at, three_band_rule. cbn [bands set_stretch_part].
  rewrite !nth_array_set. cbn [Nat.eqb]. auto.
Qed.

Section DefaultMatch.
Variable atof : string -> C.double.
Variable fresh : nat -> stretch.

(** X5: The default rules parse, and on every dataset with at least one band
    one of them matches; the bands that the matching rule displays are
    bands of the dataset. *)
Theorem default_rules_always_match (d : GDALDataset) :
  1 <= GDALGetRasterCount d ->
  exists l r,
    load_rules atof fresh 0 pszDefaultStretchRules = Ret l
    /\ get_stretch_for_gdal l d = Some r
    /\ displayed_bands_exist d r.
Proof.
  intros Hn. pose proof (load_default_rules atof fresh) as Hload.
  match type of Hload with _ = Ret ?l => exists l end.
  assert (Hgoal : forall (l : stretchlist) (P : stretch -> Prop)
                         (o : outcome stretchlist),
             o = Ret l ->
             (exists r, get_stretch_for_gdal l d = Some r /\ P r) ->
             exists r, o = Ret l /\ get_stretch_for_gdal l d = Some r /\ P r).
  { intros l P o Ho [r Hr]. exists r. split; assumption. }
  apply Hgoal; [exact Hload|]. clear Hgoal Hload.
  unfold get_stretch_for_gdal, displayed_bands_exist.
  set (n := GDALGetRasterCount d) in *. clearbody n.
  assert (Hsingle : forall init c v ct m,
             m <> VIEWER_MODE_RGB ->
             1 <= bands_at (single_band_rule init c v ct m) 0 <= n
             /\ (mode (single_band_rule init c v ct m) = VIEWER_MODE_RGB ->
                 1 <= bands_at (single_band_rule init c v ct m) 1 <= n
                 /\ 1 <= bands_at (single_band_rule init c v ct m) 2 <= n)).
  { intros init c v ct m Hm. rewrite single_band_rule_band.
    split; [lia|]. intros Hrgb. contradiction. }
  assert (Hthree : forall init c v ct sm params b0 b1 b2,
             1 <= b0 <= n -> 1 <= b1 <= n -> 1 <= b2 <= n ->
             let r := three_band_rule init c v ct sm params b0 b1 b2 in
             1 <= bands_at r 0 <= n
             /\ (mode r = VIEWER_MODE_RGB ->
                 1 <= bands_at r 1 <= n /\ 1 <= bands_at r 2 <= n)).
  { intros init c v ct sm params b0 b1 b2 H0 H1 H2 r. subst r.
    destruct (three_band_rule_bands init c v ct sm params b0 b1 b2)
      as (-> & -> & ->). auto. }
  (* the colour table rule *)
  rewrite get_stretch_loop_cons by (right; right; reflexivity).
  destruct (colour_table_check d n _ _) eqn:Hct.
  { eexists. split; [reflexivity|].
    apply Hsingle. discriminate. }
  clear Hct.
  rewrite get_stretch_loop_plain by ((right; right; reflexivity) || reflexivity).
  match goal with |- context [comparator_holds n ?r] => destruct (comparator_holds n r) eqn:H2 end.
  { eexists. split; [reflexivity|].
    apply Hsingle. discriminate. }
  rewrite get_stretch_loop_plain by ((right; right; reflexivity) || reflexivity).
  match goal with |- context [comparator_holds n ?r] => destruct (comparator_holds n r) eqn:H3 end.
  { eexists. split; [reflexivity|].
    apply Hsingle. discriminate. }
  rewrite get_stretch_loop_plain by ((right; right; reflexivity) || reflexivity).
  match goal with |- context [comparator_holds n ?r] => destruct (comparator_holds n r) eqn:H4 end.
  { eexists. split; [reflexivity|].
    unfold comparator_holds in H4. cbn in H4. rewrite ?orb_false_r in H4.
    apply Z.eqb_eq in H4. apply Hthree; lia. }
  rewrite get_stretch_loop_plain by ((left; reflexivity) || reflexivity).
  unfold comparator_holds in H2, H3, H4.
  cbn in H2, H3, H4.
  rewrite ?orb_false_r in H2, H3, H4.
  apply Z.eqb_neq in H2, H3, H4.
  match goal with |- context [comparator_holds n ?r] => destruct (comparator_holds n r) eqn:H5 end.
  { eexists. split; [reflexivity|].
    unfold comparator_holds in H5. cbn in H5. rewrite ?orb_false_r in H5.
    apply Z.ltb_lt in H5. apply Hthree; lia. }
  rewrite get_stretch_loop_plain by ((right; left; reflexivity) || reflexivity).
  unfold comparator_holds in H5. cbn in H5. rewrite ?orb_false_r in H5.
  apply Z.ltb_ge in H5.
  assert (H6 : comparator_holds n
                 (three_band_rule (fresh 5%nat) VIEWER_COMP_GT 5 (-1)
                    VIEWER_STRETCHMODE_STDDEV
                    (array_set C.dzero (stretchparam (fresh 5%nat)) 0
                       (atof "2.0")) 5 4 2) = true).
  { unfold comparator_holds. cbn. rewrite orb_false_r.
    apply Z.ltb_lt. lia. }
  rewrite H6.
  eexists. split; [reflexivity|].
  apply Hthree; lia.
Qed.
End DefaultMatch.

Lemma get_stretch_for_gdal_sound_witness :
  In colortable_rule default_rules
  /\ comparator_holds (GDALGetRasterCount continuous_dataset) colortable_rule
     = true.
Proof.
  apply (get_stretch_for_gdal_sound default_rules continuous_dataset).
  reflexivity.
Defined.

Lemma get_stretch_for_gdal_stops_at_invalid_witness :
  get_stretch_for_gdal
    ([rgb_rule] ++ rule 7 1 (-1) VIEWER_MODE_GREYSCALE
                     VIEWER_STRETCHMODE_NONE C.dzero C.dzero [1; 0; 0]
                :: [greyscale_rule]) continuous_dataset
  = get_stretch_for_gdal [rgb_rule] continuous_dataset.
Proof.
  apply get_stretch_for_gdal_stops_at_invalid.
  unfold valid_comparator. simpl.
  intros [H|[H|H]]; discriminate H.
Defined.

Lemma load_rules_well_formed_witness :
  exists l,
    load_rules atof_integers (fun _ => greyscale_rule) 0
      pszDefaultStretchRules = Ret l
    /\ List.length l = List.length pszDefaultStretchRules
    /\ Forall well_formed l.
Proof.
  eexists. split; [vm_compute; reflexivity|].
  apply (load_rules_well_formed atof_integers (fun _ => greyscale_rule)
           pszDefaultStretchRules 0).
  vm_compute. reflexivity.
Defined.

Lemma stretch_from_string_needs_colon_witness :
  exists msg,
    stretch_from_string atof_integers greyscale_rule "equal,1,-1" = Err msg.
Proof.
  apply stretch_from_string_needs_colon. reflexivity.
Defined.

Lemma default_rules_always_match_witness :
  exists l r,
    load_rules atof_integers (fun _ => greyscale_rule) 0
      pszDefaultStretchRules = Ret l
    /\ get_stretch_for_gdal l rgb_dataset = Some r
    /\ displayed_bands_exist rgb_dataset r.
Proof.
  apply default_rules_always_match. vm_compute. discriminate.
Defined.

Lemma colour_table_check_not_thematic (d : GDALDataset) (n : Z) (r : stretch)
  (m : bool) :
  is_thematic d (ctband r) = false -> colour_table_check d n r m = m.
Proof.
  unfold is_thematic, colour_table_check. intros Hth.
  destruct (m && negb (ctband r =? -1) && (ctband r <=? n)); [|reflexivity].
  destruct (GDALGetMetadataItem _ "LAYER_TYPE") as [psz|]; [|reflexivity].
  now rewrite Hth.
Qed.

Section DefaultOneBand.
Variable atof : string -> C.double.
Variable fresh : nat -> stretch.

(** X6: With the default rules a dataset of one band is shown in greyscale
    only when that band is thematic and its attribute table lacks one of
    the four colour columns; a band that is not thematic gets the colour
    table rule, as a thematic band with the four columns does. *)
Theorem default_rules_on_one_band (d : GDALDataset) :
  GDALGetRasterCount d = 1 ->
  exists l r,
    load_rules atof fresh 0 pszDefaultStretchRules = Ret l
    /\ get_stretch_for_gdal l d = Some r
    /\ mode r = if is_thematic d 1 && negb (exposes_rgba d 1)
                then VIEWER_MODE_GREYSCALE else VIEWER_MODE_COLORTABLE.
Proof.
  intros Hn. pose proof (load_default_rules atof fresh) as Hload.
  match type of Hload with _ = Ret ?l => exists l end.
  unfold get_stretch_for_gdal.
  rewrite get_stretch_loop_cons by (right; right; reflexivity).
  rewrite get_stretch_loop_plain by ((right; right; reflexivity) || reflexivity).
  set (first := single_band_rule (fresh 0%nat) VIEWER_COMP_EQ 1 1
                  VIEWER_MODE_COLORTABLE) in *.
  set (second := single_band_rule (fresh 1%nat) VIEWER_COMP_EQ 1 (-1)
                   VIEWER_MODE_GREYSCALE) in *.
  assert (H1 : comparator_holds (GDALGetRasterCount d) first = true)
    by (rewrite Hn; reflexivity).
  assert (H2 : comparator_holds (GDALGetRasterCount d) second = true)
    by (rewrite Hn; reflexivity).
  rewrite H1, H2.
  destruct (is_thematic d 1) eqn:Hth.
  - rewrite (colour_table_check_thematic d first Hth).
    change (ctband first) with 1. rewrite Hn.
    cbn [Z.eqb negb Z.leb Z.compare Pos.compare Pos.compare_cont andb].
    destruct (exposes_rgba d 1).
    + exists first. split; [exact Hload|]. split; reflexivity.
    + exists second. split; [exact Hload|]. split; reflexivity.
  - rewrite (colour_table_check_not_thematic d _ first true Hth).
    exists first. split; [exact Hload|]. split; reflexivity.
Qed.

End DefaultOneBand.

Lemma default_rules_on_one_band_witness :
  exists l r,
    load_rules atof_integers (fun _ => greyscale_rule) 0
      pszDefaultStretchRules = Ret l
    /\ get_stretch_for_gdal l continuous_dataset = Some r
    /\ mode r = VIEWER_MODE_COLORTABLE.
Proof.
  apply (default_rules_on_one_band atof_integers (fun _ => greyscale_rule)
           continuous_dataset).
  reflexivity.
Defined.

(** ** The arrays of a rule *)

Lemma array_set_length {A : Type} (d : A) (a : list A) (i : nat) (v : A) :
  (i < List.length a)%nat ->
  List.length (array_set d a i v) = List.length a.
Proof.
  intros Hi. unfold array_set.
  rewrite length_app, length_firstn, length_app, repeat_length.
  cbn [List.length]. rewrite length_skipn. lia.
Qed.

Lemma store_tokens_length {A : Type} (d : A) (conv : string -> A)
  (limit : nat) :
  forall tokens i a,
    (i + limit <= List.length a)%nat ->
    List.length (store_tokens d conv limit tokens i a) = List.length a.
Proof.
  induction limit as [|limit IH]; intros tokens i a Hi; [reflexivity|].
  destruct tokens as [|tok rest]; [reflexivity|].
  cbn [store_tokens]. rewrite IH.
  - apply array_set_length. lia.
  - rewrite array_set_length by lia. lia.
Qed.

Section ArraySizes.

Variable atof : string -> C.double.

Lemma stretchpart_from_string_sizes (s r : stretch) (pszString : string) :
  List.length (stretchparam s) = 2%nat ->
  List.length (bands s) = 3%nat ->
  stretchpart_from_string atof s pszString = Ret r ->
  List.length (stretchparam r) = 2%nat /\ List.length (bands r) = 3%nat.
Proof.
  intros Hp Hb. unfold stretchpart_from_string.
  destruct (nth_error _ 0) as [pszTmp|]; [|discriminate].
  destruct (if String.eqb pszTmp "colortable" then _ else _) as [m|];
    [|discriminate].
  destruct (nth_error _ 1) as [pszMode|]; [|discriminate].
  destruct (if String.eqb pszMode "none" || _ then _ else _) as [sm|];
    [|discriminate].
  destruct (nth_error _ 2) as [pszParams|]; [|discriminate].
  destruct (nth_error _ 3) as [pszBands|]; [|discriminate].
  intros H.
  match type of H with
  | Ret ?x = Ret _ => assert (Hr : x = r) by congruence
  end.
  rewrite <- Hr. cbn [stretchparam bands set_stretch_part].
  rewrite !store_tokens_length by lia. split; assumption.
Qed.

(** X7: The parse of a rule string writes inside the two parameters and the
    three bands of the rule, however many parameters and bands the string
    lists: the arrays keep their sizes. *)
Theorem stretch_from_string_keeps_sizes (s r : stretch) (pszString : string) :
  List.length (stretchparam s) = 2%nat ->
  List.length (bands s) = 3%nat ->
  stretch_from_string atof s pszString = Ret r ->
  List.length (stretchparam r) = 2%nat /\ List.length (bands r) = 3%nat.
Proof.
  intros Hp Hb. unfold stretch_from_string.
  destruct (nth_error _ 0) as [pszRule|]; [|discriminate].
  intros H. apply bind_Ret in H. destruct H as (mid & Hrule & H).
  destruct (nth_error _ 1) as [pszStretch|]; [|discriminate].
  apply rulepart_from_string_fields in Hrule.
  destruct Hrule as (_ & _ & _ & Hmp & Hmb).
  apply (stretchpart_from_string_sizes mid r pszStretch);
    [rewrite Hmp; exact Hp | rewrite Hmb; exact Hb | exact H].
Qed.

End ArraySizes.

Lemma stretch_from_string_keeps_sizes_witness :
  exists r,
    stretch_from_string atof_integers greyscale_rule
      "less,4,-1:rgb,linear,1|2|3,4|3|2|1|5" = Ret r
    /\ List.length (stretchparam r) = 2%nat
    /\ List.length (bands r) = 3%nat.
Proof.
  eexists. split; [vm_compute; reflexivity|].
  eapply (stretch_from_string_keeps_sizes atof_integers greyscale_rule _
            "less,4,-1:rgb,linear,1|2|3,4|3|2|1|5");
    [reflexivity | reflexivity | vm_compute; reflexivity].
Defined.

(** ** What a stretch leaves in the buffer *)

Lemma map_buffer_length (f : C.float -> C.float) (size : Z)
  (pBuffer out : list C.float) :
  map_buffer f size pBuffer = Ret out ->
  List.length out = List.length pBuffer.
Proof.
  unfold map_buffer.
  destruct (size <=? Z.of_nat (List.length pBuffer)); [|discriminate].
  intros H. injection H as <-.
  rewrite length_app, length_map, <- length_app, firstn_skipn. reflexivity.
Qed.

Lemma map_buffer_rest (f : C.float -> C.float) (size : Z)
  (pBuffer out : list C.float) (n : nat) :
  map_buffer f size pBuffer = Ret out ->
  (Z.to_nat size <= n)%nat ->
  nth_error out n = nth_error pBuffer n.
Proof.
  unfold map_buffer.
  destruct (Z.leb_spec size (Z.of_nat (List.length pBuffer))) as [Hle|];
    [|discriminate].
  intros H Hn. injection H as <-.
  assert (Hlen : List.length (map f (firstn (Z.to_nat size) pBuffer))
                 = Z.to_nat size).
  { rewrite length_map, length_firstn. lia. }
  rewrite nth_error_app2 by lia. rewrite Hlen.
  rewrite nth_error_skipn. f_equal. lia.
Qed.

Lemma map_buffer_image (f : C.float -> C.float) (size : Z)
  (pBuffer out : list C.float) (n : nat) (v : C.float) :
  map_buffer f size pBuffer = Ret out ->
  (n < Z.to_nat size)%nat ->
  nth_error out n = Some v ->
  exists u, nth_error pBuffer n = Some u /\ v = f u.
Proof.
  unfold map_buffer.
  destruct (Z.leb_spec size (Z.of_nat (List.length pBuffer))) as [Hle|];
    [|discriminate].
  intros H Hn Hv. injection H as <-.
  rewrite nth_error_app1 in Hv by (rewrite length_map, length_firstn; lia).
  rewrite nth_error_map, nth_error_firstn in Hv.
  destruct (Nat.ltb_spec n (Z.to_nat size)) as [_|]; [|lia].
  destruct (nth_error pBuffer n) as [u|]; [|discriminate].
  injection Hv as <-. exists u. split; reflexivity.
Qed.

Lemma clamp_sample_displayable (dVal : C.float) :
  displayable (clamp_sample dVal).
Proof.
  unfold clamp_sample, displayable.
  destruct (C.lt dVal (C.float_of_int 0)) eqn:Hlo;
    [split; reflexivity|].
  destruct (C.gt dVal (C.float_of_int 255)) eqn:Hhi;
    [split; reflexivity|].
  split; assumption.
Qed.

Lemma stddev_sample_displayable (dMin dMax mean stddev param0 : C.double)
  (v : C.float) :
  displayable (stddev_sample dMin dMax mean stddev param0 v).
Proof.
  unfold stddev_sample.
  destruct (_ || _); [split; reflexivity|].
  destruct (C.ge _ _); [split; reflexivity|].
  apply clamp_sample_displayable.
Qed.

Lemma rescale_sample_displayable (lo hi : C.double) (v : C.float) :
  displayable (rescale_sample lo hi v).
Proof.
  unfold rescale_sample.
  destruct (C.le _ _); [split; reflexivity|].
  destruct (C.ge _ _); [split; reflexivity|].
  apply clamp_sample_displayable.
Qed.

(** The shape of a [do_stretch] that returns 1: either the buffer is
    untouched and the stretch mode is "none", or the first [size] samples
    went through one function whose values are all displayable. *)
Lemma do_stretch_returns (atof : string -> C.double) (heap_past : Z)
  (pBuffer out : list C.float) (bandh : GDALRasterBandH) (size : Z)
  (s : stretch) :
  do_stretch atof heap_past pBuffer bandh size s = Ret out ->
  (stretchmode s = VIEWER_STRETCHMODE_NONE /\ out = pBuffer)
  \/ (rewrites_samples s
      /\ exists f, (forall v, displayable (f v))
                   /\ map_buffer f size pBuffer = Ret out).
Proof.
  unfold do_stretch, rewrites_samples.
  destruct (GDALGetMetadataItem bandh "STATISTICS_MINIMUM") as [pszMin|];
    [|discriminate].
  destruct (GDALGetMetadataItem bandh "STATISTICS_MAXIMUM") as [pszMax|];
    [|discriminate].
  destruct (Z.eqb_spec (stretchmode s) VIEWER_STRETCHMODE_STDDEV) as [Hsd|_].
  { destruct (GDALGetMetadataItem bandh "STATISTICS_STDDEV"); [|discriminate].
    destruct (GDALGetMetadataItem bandh "STATISTICS_MEAN"); [|discriminate].
    intros H. right. split; [auto|].
    eexists. split; [|exact H]. intros v. apply stddev_sample_displayable. }
  destruct (Z.eqb_spec (stretchmode s) VIEWER_STRETCHMODE_HIST) as [Hh|_].
  { destruct (GDALGetDefaultRAT bandh) as [rath|]; [|discriminate].
    destruct (read_histogram rath) as [pHisto|]; [|discriminate].
    intros H. apply bind_Ret in H. destruct H as (b & _ & H).
    right. split; [auto|].
    eexists. split; [|exact H]. intros v. apply rescale_sample_displayable. }
  destruct (Z.eqb_spec (stretchmode s) VIEWER_STRETCHMODE_LINEAR) as [Hl|_].
  { intros H. right. split; [auto|].
    eexists. split; [|exact H]. intros v. apply rescale_sample_displayable. }
  destruct (Z.eqb_spec (stretchmode s) VIEWER_STRETCHMODE_NONE) as [Hn|_];
    [|discriminate].
  intros H. injection H as <-. left. split; [assumption | reflexivity].
Qed.

Lemma do_stretch_length (atof : string -> C.double) (heap_past : Z)
  (pBuffer out : list C.float) (bandh : GDALRasterBandH) (size : Z)
  (s : stretch) :
  do_stretch atof heap_past pBuffer bandh size s = Ret out ->
  List.length out = List.length pBuffer.
Proof.
  intros H. apply do_stretch_returns in H.
  destruct H as [[_ ->] | (_ & f & _ & H)]; [reflexivity|].
  exact (map_buffer_length _ _ _ _ H).
Qed.

(** X8: A stretch that returns leaves the buffer at its length and touches no
    sample from index [size] on. *)
Theorem do_stretch_frame (atof : string -> C.double) (heap_past : Z)
  (pBuffer out : list C.float) (bandh : GDALRasterBandH) (size : Z)
  (s : stretch) :
  do_stretch atof heap_past pBuffer bandh size s = Ret out ->
  List.length out = List.length pBuffer
  /\ forall n, (Z.to_nat size <= n)%nat ->
               nth_error out n = nth_error pBuffer n.
Proof.
  intros H. split; [exact (do_stretch_length _ _ _ _ _ _ _ H)|].
  apply do_stretch_returns in H.
  destruct H as [[_ ->] | (_ & f & _ & H)].
  - intros; reflexivity.
  - intros n Hn. exact (map_buffer_rest _ _ _ _ _ H Hn).
Qed.

(** X9: After a linear, standard deviation or histogram stretch that returns,
    none of the first [size] samples compares below 0 or above 255,
    whatever the statistics of the band and the parameters of the rule. *)
Theorem do_stretch_range (atof : string -> C.double) (heap_past : Z)
  (pBuffer out : list C.float) (bandh : GDALRasterBandH) (size : Z)
  (s : stretch) :
  rewrites_samples s ->
  do_stretch atof heap_past pBuffer bandh size s = Ret out ->
  forall n v, (n < Z.to_nat size)%nat ->
              nth_error out n = Some v -> displayable v.
Proof.
  intros Hs H n v Hn Hv. apply do_stretch_returns in H.
  destruct H as [[Hnone _] | (_ & f & Hf & H)].
  - exfalso. unfold rewrites_samples in Hs. rewrite Hnone in Hs.
    destruct Hs as [Hs|[Hs|Hs]]; discriminate Hs.
  - destruct (map_buffer_image _ _ _ _ _ _ H Hn Hv) as (u & _ & ->).
    apply Hf.
Qed.

Lemma do_stretch_frame_witness :
  exists out,
    do_stretch atof_integers 0
      [C.float_of_int 300; C.float_of_int 100; C.float_of_int 7]
      (Some (continuous_band 1)) 2 linear_rule = Ret out
    /\ List.length out = 3%nat
    /\ nth_error out 2 = Some (C.float_of_int 7).
Proof.
  eexists. split; [vm_compute; reflexivity|].
  destruct (do_stretch_frame atof_integers 0
              [C.float_of_int 300; C.float_of_int 100; C.float_of_int 7]
              _ (Some (continuous_band 1)) 2 linear_rule
              ltac:(vm_compute; reflexivity)) as [Hlen Hrest].
  split; [exact Hlen | exact (Hrest 2%nat ltac:(vm_compute; lia))].
Defined.

Lemma do_stretch_range_witness :
  exists out v,
    do_stretch atof_integers 0
      [C.float_of_int 300; C.float_of_int 100; C.float_of_int 7]
      (Some (continuous_band 1)) 3 stddev_rule = Ret out
    /\ nth_error out 1 = Some v
    /\ displayable v.
Proof.
  eexists. eexists. split; [vm_compute; reflexivity|].
  split; [vm_compute; reflexivity|].
  apply (do_stretch_range atof_integers 0
           [C.float_of_int 300; C.float_of_int 100; C.float_of_int 7]
           _ (Some (continuous_band 1)) 3 stddev_rule
           ltac:(right; left; reflexivity)
           ltac:(vm_compute; reflexivity) 1%nat);
    [vm_compute; lia | vm_compute; reflexivity].
Defined.

(** ** What a render needs *)

Lemma do_stretch_statistics (atof : string -> C.double) (heap_past : Z)
  (pBuffer out : list C.float) (bandh : GDALRasterBandH) (size : Z)
  (s : stretch) :
  do_stretch atof heap_past pBuffer bandh size s = Ret out ->
  has_range_statistics bandh.
Proof.
  unfold do_stretch, has_range_statistics.
  destruct (GDALGetMetadataItem bandh "STATISTICS_MINIMUM") as [pszMin|];
    [|discriminate].
  destruct (GDALGetMetadataItem bandh "STATISTICS_MAXIMUM") as [pszMax|];
    [|discriminate].
  intros _. exists pszMin, pszMax. split; reflexivity.
Qed.

Lemma do_stretch_mode (atof : string -> C.double) (heap_past : Z)
  (pBuffer out : list C.float) (bandh : GDALRasterBandH) (size : Z)
  (s : stretch) :
  do_stretch atof heap_past pBuffer bandh size s = Ret out ->
  stretchmode s = VIEWER_STRETCHMODE_NONE
  \/ stretchmode s = VIEWER_STRETCHMODE_LINEAR
  \/ stretchmode s = VIEWER_STRETCHMODE_STDDEV
  \/ stretchmode s = VIEWER_STRETCHMODE_HIST.
Proof.
  intros H. apply do_stretch_returns in H.
  unfold rewrites_samples in H.
  destruct H as [[H _] | ([H|[H|H]] & _)]; auto.
Qed.

Lemma store_channel_length (count : nat) (bytes px : list Z) :
  List.length (store_channel count bytes px) = List.length px.
Proof.
  revert px. induction bytes as [|b bs IH]; intros px; [reflexivity|].
  destruct px as [|p0 [|p1 [|p2 rest]]]; try reflexivity.
  destruct count as [|[|count]]; simpl; now rewrite IH.
Qed.

Lemma bytes_of_buffer_length (pBuffer : list C.float) :
  forall bytes, bytes_of_buffer pBuffer = Ret bytes ->
                List.length bytes = List.length pBuffer.
Proof.
  induction pBuffer as [|v rest IH]; intros bytes H; simpl in H.
  - injection H as <-. reflexivity.
  - apply bind_Ret in H. destruct H as (b & _ & H).
    apply bind_Ret in H. destruct H as (bs & Hbs & H).
    injection H as <-. simpl. now rewrite (IH _ Hbs).
Qed.

Lemma replicate_grey_length (bytes : list Z) :
  List.length (replicate_grey bytes) = (3 * List.length bytes)%nat.
Proof.
  induction bytes as [|b bs IH]; [reflexivity|]. simpl. rewrite IH. lia.
Qed.

Lemma replicate_grey_channels (bytes : list Z) :
  forall i k, (k < 3)%nat ->
              nth_error (replicate_grey bytes) (3 * i + k) = nth_error bytes i.
Proof.
  induction bytes as [|b bs IH]; intros i k Hk.
  - simpl. now rewrite !nth_error_nil.
  - destruct i as [|i].
    + destruct k as [|[|[|k]]]; try lia; reflexivity.
    + replace (3 * S i + k)%nat with (S (S (S (3 * i + k)))) by lia.
      simpl. apply IH. exact Hk.
Qed.

Lemma lookup_colours_length (pRed pGreen pBlue : list Z)
  (pBuffer : list C.float) :
  forall px, lookup_colours pRed pGreen pBlue pBuffer = Ret px ->
             List.length px = (3 * List.length pBuffer)%nat.
Proof.
  induction pBuffer as [|v rest IH]; intros px H; simpl in H.
  - injection H as <-. reflexivity.
  - apply bind_Ret in H. destruct H as (i & _ & H).
    apply bind_Ret in H. destruct H as (r & _ & H).
    apply bind_Ret in H. destruct H as (g & _ & H).
    apply bind_Ret in H. destruct H as (b & _ & H).
    apply bind_Ret in H. destruct H as (rest' & Hrest & H).
    injection H as <-. simpl. rewrite (IH _ Hrest). lia.
Qed.

Section RenderNeeds.

Variables ww wh : Z.
Variable atof : string -> C.double.
Variable heap_past : Z.
Variable CPLMalloc_ints : nat -> list Z.
Variable GDALRasterIO :
  GDALRasterBandH -> readInfo -> Z -> list C.float -> list C.float.
Variable caca_create_dither : Z -> Z -> Z -> Z -> option Z.

Lemma read_bands_returns (d : GDALDataset) (overviewIndex : Z) (s : stretch)
  (info : readInfo) (iw ih : Z) (todo : nat) :
  forall (count : nat) (pBuffer : list C.float) (px out : list Z),
    read_bands atof heap_past GDALRasterIO d overviewIndex s info iw ih
      todo count pBuffer px = Ret out ->
    List.length out = List.length px
    /\ (todo <> 0%nat ->
        stretchmode s = VIEWER_STRETCHMODE_NONE
        \/ stretchmode s = VIEWER_STRETCHMODE_LINEAR
        \/ stretchmode s = VIEWER_STRETCHMODE_STDDEV
        \/ stretchmode s = VIEWER_STRETCHMODE_HIST)
    /\ forall k, (count <= k < count + todo)%nat ->
                 has_range_statistics (GDALGetRasterBand d (bands_at s k)).
Proof.
  induction todo as [|todo IH]; intros count pBuffer px out H.
  - simpl in H. injection H as <-.
    split; [reflexivity|]. split; [congruence|]. intros k Hk. lia.
  - simpl in H. apply bind_Ret in H. destruct H as (buf & Hs & H).
    apply bind_Ret in H. destruct H as (bytes & _ & H).
    destruct (IH _ _ _ _ H) as (Hlen & _ & Hstat).
    split; [rewrite Hlen; apply store_channel_length|].
    split; [intros _; exact (do_stretch_mode _ _ _ _ _ _ _ Hs)|].
    intros k Hk.
    destruct (Nat.eq_dec k count) as [->|Hne].
    + exact (do_stretch_statistics _ _ _ _ _ _ _ Hs).
    + apply Hstat. lia.
Qed.

(** X10: An image comes out of [gdal_load_image] only for a rule whose display
    mode is colour table, greyscale or RGB and whose stretch mode is one of
    the four, and only when every band it displays (the first one, or all
    three in RGB mode) carries the statistics of its minimum and maximum;
    this holds for the stretch mode "none" as well. *)
Theorem gdal_load_image_needs (file : gdalFile) (e : extent) (im : image) :
  gdal_load_image ww wh atof heap_past CPLMalloc_ints GDALRasterIO
    caca_create_dither file e = Ret im ->
  let s := file_stretch file in
  (mode s = VIEWER_MODE_COLORTABLE \/ mode s = VIEWER_MODE_GREYSCALE
   \/ mode s = VIEWER_MODE_RGB)
  /\ (stretchmode s = VIEWER_STRETCHMODE_NONE
      \/ stretchmode s = VIEWER_STRETCHMODE_LINEAR
      \/ stretchmode s = VIEWER_STRETCHMODE_STDDEV
      \/ stretchmode s = VIEWER_STRETCHMODE_HIST)
  /\ has_range_statistics (GDALGetRasterBand (ds file) (bands_at s 0))
  /\ (mode s = VIEWER_MODE_RGB ->
      has_range_statistics (GDALGetRasterBand (ds file) (bands_at s 1))
      /\ has_range_statistics (GDALGetRasterBand (ds file) (bands_at s 2))).
Proof.
  intros H s. subst s. unfold gdal_load_image in H.
  apply bind_Ret in H. destruct H as (overviewIndex & _ & H).
  destruct (Z.eqb_spec (mode (file_stretch file)) VIEWER_MODE_RGB)
    as [Hrgb|Hrgb].
  - unfold gdal_read_multiband in H.
    apply bind_Ret in H. destruct H as (info & _ & H).
    apply bind_Ret in H. destruct H as (px & Hpx & _).
    apply read_bands_returns in Hpx. destruct Hpx as (_ & Hsm & Hstat).
    split; [auto|]. split; [apply Hsm; discriminate|].
    split; [apply Hstat; lia|].
    intros _. split; apply Hstat; lia.
  - unfold gdal_read_singleband in H.
    apply bind_Ret in H. destruct H as (info & _ & H).
    apply bind_Ret in H. destruct H as (buf & Hs & H).
    split; [|split; [exact (do_stretch_mode _ _ _ _ _ _ _ Hs)|
             split; [exact (do_stretch_statistics _ _ _ _ _ _ _ Hs)|
                     intros Hm; contradiction]]].
    destruct (Z.eqb_spec (mode (file_stretch file)) VIEWER_MODE_COLORTABLE);
      [auto|].
    destruct (Z.eqb_spec (mode (file_stretch file)) VIEWER_MODE_GREYSCALE);
      [auto|discriminate].
Qed.

Lemma read_colour_columns_seen (rows : nat) (cols : list RATColumn) :
  forall (blocks out : colour_blocks),
    read_colour_columns CPLMalloc_ints rows cols blocks = Ret out ->
    let seen u := existsb (fun c => usage_eqb (col_usage c) u) cols in
    (fst (fst out) <> None ->
     fst (fst blocks) <> None \/ seen GFU_Red = true)
    /\ (snd (fst out) <> None ->
        snd (fst blocks) <> None \/ seen GFU_Green = true)
    /\ (snd out <> None -> snd blocks <> None \/ seen GFU_Blue = true).
Proof.
  induction cols as [|c rest IH]; intros blocks out H seen.
  - simpl in H. injection H as <-. repeat split; auto.
  - destruct blocks as [[pRed pGreen] pBlue]. cbn [read_colour_columns] in H.
    subst seen. cbn [existsb fst snd].
    destruct (usage_eqb (col_usage c) GFU_Red) eqn:Hr.
    { destruct (IH _ _ H) as (H1 & H2 & H3). cbn [fst snd] in *.
      repeat split; intros Hx.
      - right. reflexivity.
      - destruct (H2 Hx) as [? | ->]; [auto|right; apply orb_true_r].
      - destruct (H3 Hx) as [? | ->]; [auto|right; apply orb_true_r]. }
    destruct (usage_eqb (col_usage c) GFU_Green) eqn:Hg.
    { destruct (IH _ _ H) as (H1 & H2 & H3). cbn [fst snd] in *.
      repeat split; intros Hx.
      - destruct (H1 Hx) as [? | ->]; [auto|right; apply orb_true_r].
      - right. reflexivity.
      - destruct (H3 Hx) as [? | ->]; [auto|right; apply orb_true_r]. }
    destruct (usage_eqb (col_usage c) GFU_Blue) eqn:Hb.
    { destruct rows as [|rows].
      - destruct (IH _ _ H) as (H1 & H2 & H3). cbn [fst snd] in *.
        repeat split; intros Hx.
        + destruct (H1 Hx) as [? | ->]; [auto|right; apply orb_true_r].
        + destruct (H2 Hx) as [? | ->]; [auto|right; apply orb_true_r].
        + right. reflexivity.
      - destruct pGreen as [green|]; [|discriminate].
        destruct (IH _ _ H) as (H1 & H2 & H3). cbn [fst snd] in *.
        repeat split; intros Hx.
        + destruct (H1 Hx) as [? | ->]; [auto|right; apply orb_true_r].
        + left. discriminate.
        + right. reflexivity. }
    destruct (IH _ _ H) as (H1 & H2 & H3). cbn [fst snd] in *.
    repeat split; intros Hx.
    + destruct (H1 Hx) as [? | ->]; auto.
    + destruct (H2 Hx) as [? | ->]; auto.
    + destruct (H3 Hx) as [? | ->]; auto.
Qed.

(** X11: In colour table mode an image comes out only when the displayed band
    has an attribute table with a red, a green and a blue column. *)
Theorem colour_table_render_needs_columns
  (file : gdalFile) (e : extent) (im : image) :
  mode (file_stretch file) = VIEWER_MODE_COLORTABLE ->
  gdal_load_image ww wh atof heap_past CPLMalloc_ints GDALRasterIO
    caca_create_dither file e = Ret im ->
  exists rath,
    GDALGetDefaultRAT
      (GDALGetRasterBand (ds file) (bands_at (file_stretch file) 0))
    = Some rath
    /\ has_column rath GFU_Red = true
    /\ has_column rath GFU_Green = true
    /\ has_column rath GFU_Blue = true.
Proof.
  intros Hmode H. unfold gdal_load_image in H.
  apply bind_Ret in H. destruct H as (overviewIndex & _ & H).
  rewrite Hmode in H.
  change (VIEWER_MODE_COLORTABLE =? VIEWER_MODE_RGB) with false in H.
  unfold gdal_read_singleband in H.
  apply bind_Ret in H. destruct H as (info & _ & H).
  apply bind_Ret in H. destruct H as (buf & _ & H).
  rewrite Hmode, Z.eqb_refl in H.
  destruct (GDALGetDefaultRAT _) as [rath|]; [|discriminate].
  apply bind_Ret in H. destruct H as (blocks & Hcols & H).
  exists rath. split; [reflexivity|].
  destruct blocks as [[[pRed|] [pGreen|]] [pBlue|]]; try discriminate.
  apply read_colour_columns_seen in Hcols. cbn [fst snd] in Hcols.
  destruct Hcols as (H1 & H2 & H3). unfold has_column.
  repeat split.
  - destruct H1 as [? | ?]; [discriminate|congruence|assumption].
  - destruct H2 as [? | ?]; [discriminate|congruence|assumption].
  - destruct H3 as [? | ?]; [discriminate|congruence|assumption].
Qed.

Lemma finish_image_fields (px : list Z) (iw ih : Z) (im : image) :
  finish_image caca_create_dither px iw ih = Ret im ->
  pixels im = px /\ w im = iw /\ h im = ih.
Proof.
  unfold finish_image.
  destruct (caca_create_dither _ _ _ _); [|discriminate].
  intros H. injection H as <-. repeat split.
Qed.

Lemma unsigned_nonneg (z : Z) : 0 <= C.unsigned z.
Proof. unfold C.unsigned. apply Z.mod_pos_bound. reflexivity. Qed.

(** The samples that a single band render turns into pixels: as many as
    the canvas has pixels, when the read keeps the buffer at its length. *)
Lemma single_band_samples (d : GDALDataset) (bandh : GDALRasterBandH)
  (ovh : GDALRasterBandH) (info : readInfo) (iw n size : Z) (s : stretch)
  (buf : list C.float) :
  keeps_length GDALRasterIO ->
  do_stretch atof heap_past
    (GDALRasterIO ovh info iw (zero_buffer n)) bandh size s = Ret buf ->
  List.length buf = Z.to_nat n.
Proof.
  intros Hkeep H. apply do_stretch_length in H. rewrite H.
  rewrite Hkeep. unfold zero_buffer. apply repeat_length.
Qed.

(** X12: When the pixel read keeps the buffer at its length, the block of
    pixel bytes of an image has three bytes for each of the [w * h]
    pixels, in every display mode. *)
Theorem gdal_load_image_pixels (file : gdalFile) (e : extent) (im : image) :
  keeps_length GDALRasterIO ->
  gdal_load_image ww wh atof heap_past CPLMalloc_ints GDALRasterIO
    caca_create_dither file e = Ret im ->
  Z.of_nat (List.length (pixels im))
  = IMG_DEPTH * C.unsigned (w im * h im).
Proof.
  intros Hkeep H. unfold gdal_load_image in H.
  apply bind_Ret in H. destruct H as (overviewIndex & _ & H).
  destruct (mode (file_stretch file) =? VIEWER_MODE_RGB).
  - unfold gdal_read_multiband in H.
    apply bind_Ret in H. destruct H as (info & _ & H).
    apply bind_Ret in H. destruct H as (px & Hpx & H).
    apply finish_image_fields in H. destruct H as (-> & -> & ->).
    apply read_bands_returns in Hpx. destruct Hpx as (-> & _).
    unfold zero_pixels. rewrite repeat_length.
    pose proof (unsigned_nonneg
                  (C.unsigned (C.mul PIX_PER_CELL ww)
                   * C.unsigned (C.mul PIX_PER_CELL wh))) as Hn.
    unfold IMG_DEPTH in *. lia.
  - unfold gdal_read_singleband in H.
    apply bind_Ret in H. destruct H as (info & _ & H).
    apply bind_Ret in H. destruct H as (buf & Hbuf & H).
    apply (single_band_samples (ds file)) in Hbuf; [|exact Hkeep].
    pose proof (unsigned_nonneg
                  (C.unsigned (C.mul PIX_PER_CELL ww)
                   * C.unsigned (C.mul PIX_PER_CELL wh))) as Hn.
    destruct (mode (file_stretch file) =? VIEWER_MODE_COLORTABLE).
    + destruct (GDALGetDefaultRAT _) as [rath|]; [|discriminate].
      apply bind_Ret in H. destruct H as (blocks & _ & H).
      destruct blocks as [[[pRed|] [pGreen|]] [pBlue|]]; try discriminate.
      apply bind_Ret in H. destruct H as (px & Hpx & H).
      apply finish_image_fields in H. destruct H as (-> & -> & ->).
      rewrite (lookup_colours_length _ _ _ _ _ Hpx), Hbuf.
      unfold IMG_DEPTH. lia.
    + destruct (mode (file_stretch file) =? VIEWER_MODE_GREYSCALE);
        [|discriminate].
      apply bind_Ret in H. destruct H as (bytes & Hbytes & H).
      apply finish_image_fields in H. destruct H as (-> & -> & ->).
      rewrite replicate_grey_length, (bytes_of_buffer_length _ _ Hbytes), Hbuf.
      unfold IMG_DEPTH. lia.
Qed.

(** X13: In greyscale mode the three bytes of every pixel of the image are
    equal. *)
Theorem greyscale_pixels_are_grey
  (file : gdalFile) (e : extent) (im : image) :
  mode (file_stretch file) = VIEWER_MODE_GREYSCALE ->
  gdal_load_image ww wh atof heap_past CPLMalloc_ints GDALRasterIO
    caca_create_dither file e = Ret im ->
  forall i : nat,
    nth_error (pixels im) (3 * i + 1) = nth_error (pixels im) (3 * i)
    /\ nth_error (pixels im) (3 * i + 2) = nth_error (pixels im) (3 * i).
Proof.
  intros Hmode H i. unfold gdal_load_image in H.
  apply bind_Ret in H. destruct H as (overviewIndex & _ & H).
  rewrite Hmode in H.
  change (VIEWER_MODE_GREYSCALE =? VIEWER_MODE_RGB) with false in H.
  unfold gdal_read_singleband in H.
  apply bind_Ret in H. destruct H as (info & _ & H).
  apply bind_Ret in H. destruct H as (buf & _ & H).
  rewrite Hmode in H.
  change (VIEWER_MODE_GREYSCALE =? VIEWER_MODE_COLORTABLE) with false in H.
  rewrite Z.eqb_refl in H.
  apply bind_Ret in H. destruct H as (bytes & _ & H).
  apply finish_image_fields in H. destruct H as (-> & _ & _).
  rewrite <- (Nat.add_0_r (3 * i)) at 2 4.
  rewrite !replicate_grey_channels by lia. split; reflexivity.
Qed.

End RenderNeeds.

Lemma constant_read_keeps_length (v : C.float) :
  keeps_length (constant_read v).
Proof. intros bandh info stride pBuffer. apply length_map. Qed.

Lemma gdal_load_image_needs_witness :
  has_range_statistics
    (GDALGetRasterBand (ds rgb_file) (bands_at (file_stretch rgb_file) 0))
  /\ has_range_statistics
       (GDALGetRasterBand (ds rgb_file) (bands_at (file_stretch rgb_file) 2)).
Proof.
  destruct (gdal_load_image_needs 1 1 atof_integers 0 stale_block
              (constant_read (C.float_of_int 7)) dither_created rgb_file
              (view 50 50 eight_meters) _ ltac:(vm_compute; reflexivity))
    as (_ & _ & H0 & Hrgb).
  split; [exact H0 | exact (proj2 (Hrgb eq_refl))].
Defined.

Lemma colour_table_render_needs_columns_witness :
  exists rath,
    GDALGetDefaultRAT
      (GDALGetRasterBand (ds thematic_file)
         (bands_at (file_stretch thematic_file) 0)) = Some rath
    /\ has_column rath GFU_Red = true
    /\ has_column rath GFU_Green = true
    /\ has_column rath GFU_Blue = true.
Proof.
  eapply (colour_table_render_needs_columns 1 1 atof_integers 0 stale_block
           (constant_read (C.float_of_int 1)) dither_created thematic_file
           (view 50 50 one_meter) _ eq_refl).
  vm_compute. reflexivity.
Defined.

Lemma gdal_load_image_pixels_witness :
  exists im,
    gdal_load_image 1 1 atof_integers 0 stale_block
      (constant_read (C.float_of_int 7)) dither_created grey_file
      (view 50 50 eight_meters) = Ret im
    /\ Z.of_nat (List.length (pixels im))
       = IMG_DEPTH * C.unsigned (w im * h im).
Proof.
  eexists. split; [vm_compute; reflexivity|].
  eapply (gdal_load_image_pixels 1 1 atof_integers 0 stale_block
           (constant_read (C.float_of_int 7)) dither_created grey_file
           (view 50 50 eight_meters) _
           (constant_read_keeps_length (C.float_of_int 7))).
  vm_compute. reflexivity.
Defined.

Lemma greyscale_pixels_are_grey_witness :
  exists im,
    gdal_load_image 1 1 atof_integers 0 stale_block
      (constant_read (C.float_of_int 7)) dither_created grey_file
      (view 50 50 eight_meters) = Ret im
    /\ nth_error (pixels im) (3 * 5 + 1) = nth_error (pixels im) (3 * 5)
    /\ nth_error (pixels im) (3 * 5 + 2) = nth_error (pixels im) (3 * 5).
Proof.
  eexists. split; [vm_compute; reflexivity|].
  eapply (greyscale_pixels_are_grey 1 1 atof_integers 0 stale_block
           (constant_read (C.float_of_int 7)) dither_created grey_file
           (view 50 50 eight_meters) _ eq_refl).
  vm_compute. reflexivity.
Defined.

(** ** What a render reports *)

Lemma failing_bind {A B : Type} (P : string -> Prop) (m : outcome A)
  (k : A -> outcome B) :
  failing P m -> (forall a, m = Ret a -> failing P (k a)) ->
  failing P (bind m k).
Proof.
  destruct m as [a|msg|]; simpl; intros Hm Hk; auto.
Qed.

Lemma failing_defined {A : Type} (P : string -> Prop) (o : option A) :
  failing P (defined o).
Proof. destruct o; exact I. Qed.

Lemma best_overview_loop_failing (P : string -> Prop) d bandh adf e todo :
  forall count nBestIndex dBest,
    failing P (best_overview_loop d bandh adf e todo count nBestIndex dBest).
Proof.
  induction todo as [|todo IH]; intros count nBestIndex dBest; [exact I|].
  cbn [best_overview_loop]. apply failing_bind.
  - unfold overview_pixels_per_cell. apply failing_bind; [|intros ? _; exact I].
    apply failing_defined.
  - intros p _. destruct (improves p dBest); apply IH.
Qed.

Lemma gdal_get_best_overview_failing (P : string -> Prop) d e :
  failing P (gdal_get_best_overview d e).
Proof.
  unfold gdal_get_best_overview.
  destruct (_ =? 0); [exact I|].
  destruct (GDALGetGeoTransform d); [|exact I].
  apply failing_bind; [apply best_overview_loop_failing | intros ? _; exact I].
Qed.

Lemma map_buffer_failing (P : string -> Prop) f size pBuffer :
  failing P (map_buffer f size pBuffer).
Proof. unfold map_buffer. destruct (_ <=? _); exact I. Qed.

Lemma lower_scan_failing (P : string -> Prop) dMin dMax dBandLower nbins cells :
  forall n sum, failing P (lower_scan dMin dMax dBandLower nbins cells n sum).
Proof.
  induction cells as [|c rest IH]; intros n sum; [exact I|].
  cbn [lower_scan]. destruct (C.gt _ _); [|apply IH].
  apply failing_bind; [apply failing_defined | intros ? _; exact I].
Qed.

Lemma upper_scan_failing (P : string -> Prop) dMax dBandUpper nbins cells :
  forall n sum, failing P (upper_scan dMax dBandUpper nbins cells n sum).
Proof.
  induction cells as [|c rest IH]; intros n sum; [exact I|].
  cbn [upper_scan]. destruct (C.gt _ _); [|apply IH].
  apply failing_bind; [apply failing_defined | intros ? _; exact I].
Qed.

Lemma do_stretch_failing (P : string -> Prop) atof heap_past pBuffer bandh
  size s :
  Forall P stretch_messages ->
  failing P (do_stretch atof heap_past pBuffer bandh size s).
Proof.
  intros HP. inversion HP as [|? ? Hstat HP1]; subst.
  inversion HP1 as [|? ? Hhist HP2]; subst.
  inversion HP2 as [|? ? Hsupp _]; subst.
  unfold do_stretch.
  destruct (GDALGetMetadataItem bandh "STATISTICS_MINIMUM"); [|exact Hstat].
  destruct (GDALGetMetadataItem bandh "STATISTICS_MAXIMUM"); [|exact Hstat].
  destruct (_ =? VIEWER_STRETCHMODE_STDDEV).
  { destruct (GDALGetMetadataItem bandh "STATISTICS_STDDEV"); [|exact Hstat].
    destruct (GDALGetMetadataItem bandh "STATISTICS_MEAN"); [|exact Hstat].
    apply map_buffer_failing. }
  destruct (_ =? VIEWER_STRETCHMODE_HIST).
  { destruct (GDALGetDefaultRAT bandh); [|exact Hhist].
    destruct (read_histogram _); [|exact Hhist].
    apply failing_bind; [|intros ? _; apply map_buffer_failing].
    unfold histogram_bounds.
    apply failing_bind; [apply lower_scan_failing|intros ? _].
    apply failing_bind; [apply upper_scan_failing|intros ? _; exact I]. }
  destruct (_ =? VIEWER_STRETCHMODE_LINEAR); [apply map_buffer_failing|].
  destruct (negb _); [exact Hsupp | exact I].
Qed.

Lemma clip_low_failing (P : string -> Prop) x : failing P (clip_low x).
Proof.
  unfold clip_low. destruct (C.lt _ _); [|exact I].
  apply failing_bind; [apply failing_defined | intros ? _; exact I].
Qed.

Lemma clip_high_failing (P : string -> Prop) x width :
  failing P (clip_high x width).
Proof.
  unfold clip_high. destruct (C.ge _ _); [|exact I].
  apply failing_bind; [apply failing_defined | intros ? _; exact I].
Qed.

Lemma clip_window_failing (P : string -> Prop) dataWidth dataHeight width
  height corners :
  failing P (clip_window dataWidth dataHeight width height corners).
Proof.
  unfold clip_window. destruct corners as [[[x1 y1] x2] y2].
  apply failing_bind; [apply failing_defined | intros ? _].
  apply failing_bind; [apply failing_defined | intros ? _].
  apply failing_bind; [apply clip_low_failing | intros [? ?] _].
  apply failing_bind; [apply clip_high_failing | intros [? ?] _].
  apply failing_bind; [apply clip_low_failing | intros [? ?] _].
  apply failing_bind; [apply clip_high_failing | intros [? ?] _].
  repeat (apply failing_bind;
          [first [apply failing_defined | unfold rescale_extra;
                                          apply failing_defined]
          | intros ? _]).
  exact I.
Qed.

Lemma source_corners_failing (P : string -> Prop) ww wh d ovh e :
  (GDALGetGeoTransform d = None -> P "Image has no geotransform") ->
  P "Unable to invert transform" ->
  failing P (source_corners ww wh d ovh e).
Proof.
  intros Hgeo Hinv. unfold source_corners.
  apply failing_bind; [apply failing_defined | intros nFactor _].
  destruct (GDALGetGeoTransform d) as [adf|]; [|exact (Hgeo eq_refl)].
  destruct (GDALInvGeoTransform _) as [inv|]; [|exact Hinv].
  destruct (GDALApplyGeoTransform inv _ _), (GDALApplyGeoTransform inv _ _).
  exact I.
Qed.

Lemma prepare_for_reading_failing (P : string -> Prop) ww wh dataWidth
  dataHeight d ovh e :
  (GDALGetGeoTransform d = None -> P "Image has no geotransform") ->
  P "Unable to invert transform" ->
  failing P (prepare_for_reading ww wh dataWidth dataHeight d ovh e).
Proof.
  intros Hgeo Hinv. unfold prepare_for_reading.
  apply failing_bind; [now apply source_corners_failing | intros ? _].
  apply clip_window_failing.
Qed.

Lemma bytes_of_buffer_failing (P : string -> Prop) pBuffer :
  failing P (bytes_of_buffer pBuffer).
Proof.
  induction pBuffer as [|v rest IH]; [exact I|].
  cbn [bytes_of_buffer].
  apply failing_bind; [apply failing_defined | intros ? _].
  apply failing_bind; [exact IH | intros ? _; exact I].
Qed.

Lemma read_int_failing (P : string -> Prop) p i : failing P (read_int p i).
Proof.
  unfold read_int. destruct (i <? 0); [exact I | apply failing_defined].
Qed.

Lemma lookup_colours_failing (P : string -> Prop) pRed pGreen pBlue pBuffer :
  failing P (lookup_colours pRed pGreen pBlue pBuffer).
Proof.
  induction pBuffer as [|v rest IH]; [exact I|].
  cbn [lookup_colours].
  apply failing_bind; [apply failing_defined | intros ? _].
  do 3 (apply failing_bind; [apply read_int_failing | intros ? _]).
  apply failing_bind; [exact IH | intros ? _; exact I].
Qed.

Lemma read_colour_columns_failing (P : string -> Prop) fresh rows cols :
  forall blocks, failing P (read_colour_columns fresh rows cols blocks).
Proof.
  induction cols as [|c rest IH]; intros [[pRed pGreen] pBlue]; [exact I|].
  cbn [read_colour_columns].
  destruct (usage_eqb _ GFU_Red); [apply IH|].
  destruct (usage_eqb _ GFU_Green); [apply IH|].
  destruct (usage_eqb _ GFU_Blue); [|apply IH].
  destruct rows; [apply IH|]. destruct pGreen; [apply IH | exact I].
Qed.

Section RenderReports.

Variables ww wh : Z.
Variable atof : string -> C.double.
Variable heap_past : Z.
Variable CPLMalloc_ints : nat -> list Z.
Variable GDALRasterIO :
  GDALRasterBandH -> readInfo -> Z -> list C.float -> list C.float.
Variable caca_create_dither : Z -> Z -> Z -> Z -> option Z.

Lemma finish_image_failing (P : string -> Prop) px iw ih :
  P "Unable to create dither" ->
  failing P (finish_image caca_create_dither px iw ih).
Proof.
  intros HP. unfold finish_image.
  destruct (caca_create_dither _ _ _ _); [exact I | exact HP].
Qed.

Lemma read_bands_failing (P : string -> Prop) d overviewIndex s info iw ih
  todo :
  Forall P stretch_messages ->
  forall count pBuffer px,
    failing P (read_bands atof heap_past GDALRasterIO d overviewIndex s info
                 iw ih todo count pBuffer px).
Proof.
  intros HP. induction todo as [|todo IH]; intros count pBuffer px;
    [exact I|].
  cbn [read_bands].
  apply failing_bind; [now apply do_stretch_failing | intros ? _].
  apply failing_bind; [apply bytes_of_buffer_failing | intros ? _].
  apply IH.
Qed.

(** Every message of a failing [gdal_load_image] satisfies [P], when the
    messages of the stages do; the message of a missing geotransform only
    has to when the dataset has none. *)
Lemma gdal_load_image_failing (P : string -> Prop) (file : gdalFile)
  (e : extent) :
  (GDALGetGeoTransform (ds file) = None -> P "Image has no geotransform") ->
  Forall P (tl load_messages) ->
  failing P (gdal_load_image ww wh atof heap_past CPLMalloc_ints
               GDALRasterIO caca_create_dither file e).
Proof.
  intros Hgeo HP.
  assert (Hin : forall m, In m (tl load_messages) -> P m).
  { apply Forall_forall. exact HP. }
  assert (Hstretch : Forall P stretch_messages).
  { apply Forall_forall. intros m Hm. apply Hin.
    simpl in Hm |- *. tauto. }
  unfold gdal_load_image.
  apply failing_bind; [apply gdal_get_best_overview_failing | intros ov _].
  destruct (_ =? VIEWER_MODE_RGB).
  - unfold gdal_read_multiband.
    apply failing_bind;
      [apply prepare_for_reading_failing;
       [exact Hgeo | apply Hin; simpl; tauto] | intros info _].
    apply failing_bind; [now apply read_bands_failing | intros px _].
    apply finish_image_failing. apply Hin. simpl. tauto.
  - unfold gdal_read_singleband.
    apply failing_bind;
      [apply prepare_for_reading_failing;
       [exact Hgeo | apply Hin; simpl; tauto] | intros info _].
    apply failing_bind; [now apply do_stretch_failing | intros buf _].
    destruct (_ =? VIEWER_MODE_COLORTABLE).
    + destruct (GDALGetDefaultRAT _); [|apply Hin; simpl; tauto].
      apply failing_bind;
        [apply read_colour_columns_failing | intros [[pRed pGreen] pBlue] _].
      destruct pRed; [|apply Hin; simpl; tauto].
      destruct pGreen; [|apply Hin; simpl; tauto].
      destruct pBlue; [|apply Hin; simpl; tauto].
      apply failing_bind; [apply lookup_colours_failing | intros px _].
      apply finish_image_failing. apply Hin. simpl. tauto.
    + destruct (_ =? VIEWER_MODE_GREYSCALE); [|apply Hin; simpl; tauto].
      apply failing_bind; [apply bytes_of_buffer_failing | intros bytes _].
      apply finish_image_failing. apply Hin. simpl. tauto.
Qed.

(** X14: When [gdal_load_image] returns NULL, the message it leaves is one of
    nine: two of the window mapper, three of the stretch, one of the dither
    and three of the single band reader. *)
Theorem gdal_load_image_messages (file : gdalFile) (e : extent)
  (msg : string) :
  gdal_load_image ww wh atof heap_past CPLMalloc_ints GDALRasterIO
    caca_create_dither file e = Err msg ->
  In msg load_messages.
Proof.
  intros H.
  pose proof (gdal_load_image_failing (fun m => In m load_messages) file e)
    as Hf.
  rewrite H in Hf. apply Hf.
  - intros _. left. reflexivity.
  - apply Forall_forall. intros m Hm. right. exact Hm.
Qed.

End RenderReports.

(** ** A file between open and close *)

Section OpenFacts.

Variables ww wh : Z.
Variable GDALOpen : string -> option GDALDataset.
Variable format_2f : C.double -> string.
Variable atof : string -> C.double.
Variable heap_past : Z.
Variable CPLMalloc_ints : nat -> list Z.
Variable GDALRasterIO :
  GDALRasterBandH -> readInfo -> Z -> list C.float -> list C.float.
Variable caca_create_dither : Z -> Z -> Z -> Z -> option Z.

Lemma gdal_open_file_geotransform (pszFile : string)
  (stretchList : stretchlist) (pCmdStretch : option stretch)
  (st : option string) (file : gdalFile) :
  gdal_open_file ww wh GDALOpen format_2f pszFile stretchList pCmdStretch
  = (st, Ret file) ->
  GDALGetGeoTransform (ds file) <> None.
Proof.
  unfold gdal_open_file.
  destruct (GDALOpen pszFile) as [d|]; [|discriminate].
  destruct (match pCmdStretch with Some s => Some s | None => _ end)
    as [s|]; [|discriminate].
  destruct (GDALGetGeoTransform d) as [adf|] eqn:Hgeo; [|discriminate].
  intros H. injection H as _ <-. cbn [ds]. rewrite Hgeo. discriminate.
Qed.

(** X15: A file that [gdal_open_file] has opened never makes a render report a
    missing geotransform, on whatever canvas and extent: that message of
    the window mapper is out of reach of the program. *)
Theorem opened_file_has_geotransform (pszFile : string)
  (stretchList : stretchlist) (pCmdStretch : option stretch)
  (st : option string) (file : gdalFile) :
  gdal_open_file ww wh GDALOpen format_2f pszFile stretchList pCmdStretch
  = (st, Ret file) ->
  forall (cw ch : Z) (e : extent),
    gdal_load_image cw ch atof heap_past CPLMalloc_ints GDALRasterIO
      caca_create_dither file e <> Err "Image has no geotransform".
Proof.
  intros Hopen cw ch e Hload.
  apply gdal_open_file_geotransform in Hopen.
  pose proof (gdal_load_image_failing cw ch atof heap_past CPLMalloc_ints
                GDALRasterIO caca_create_dither
                (fun m => m <> "Image has no geotransform") file e) as Hf.
  rewrite Hload in Hf. apply Hf; [contradiction| |reflexivity].
  repeat (apply Forall_cons || apply Forall_nil); discriminate.
Qed.

Lemma GDALGetRasterBand_NULL (n : Z) : GDALGetRasterBand NULL_dataset n = None.
Proof.
  unfold GDALGetRasterBand. cbn.
  destruct (Z.leb_spec 1 n), (Z.leb_spec n 0); try reflexivity. lia.
Qed.

Lemma gdal_load_image_closed (file : gdalFile) (e : extent) :
  gdal_load_image ww wh atof heap_past CPLMalloc_ints GDALRasterIO
    caca_create_dither (gdal_close_file file) e = Undef.
Proof.
  unfold gdal_load_image. cbn [gdal_close_file ds file_stretch].
  unfold gdal_get_best_overview. rewrite GDALGetRasterBand_NULL.
  cbn [GDALGetOverviewCount Z.eqb bind].
  destruct (_ =? VIEWER_MODE_RGB).
  - unfold gdal_read_multiband, prepare_for_reading, source_corners,
      level_band.
    rewrite GDALGetRasterBand_NULL. reflexivity.
  - unfold gdal_read_singleband, prepare_for_reading, source_corners,
      level_band.
    rewrite GDALGetRasterBand_NULL. reflexivity.
Qed.

End OpenFacts.

(** X16: A render that fails closes the file, and every later render of that
    file, on whatever canvas and extent, divides the width 0 of the closed
    dataset by the width 0 of its missing band: it is undefined. *)
Theorem failed_render_leaves_file_unusable
  (ww wh : Z) (atof : string -> C.double) (heap_past : Z)
  (CPLMalloc_ints : nat -> list Z)
  (GDALRasterIO :
     GDALRasterBandH -> readInfo -> Z -> list C.float -> list C.float)
  (caca_create_dither : Z -> Z -> Z -> Z -> option Z)
  (file file' : gdalFile) (e : extent) (msg : string) :
  gdal_load_image_on ww wh atof heap_past CPLMalloc_ints GDALRasterIO
    caca_create_dither file e = (Err msg, file') ->
  forall (cw ch : Z) (e' : extent),
    gdal_load_image_on cw ch atof heap_past CPLMalloc_ints GDALRasterIO
      caca_create_dither file' e' = (Undef, file').
Proof.
  unfold gdal_load_image_on. intros H cw ch e'.
  destruct (gdal_load_image ww wh _ _ _ _ _ file e); try discriminate.
  injection H as _ <-.
  now rewrite gdal_load_image_closed.
Qed.

Lemma gdal_load_image_messages_witness :
  In "Unable to create dither" load_messages.
Proof.
  apply (gdal_load_image_messages 1 1 atof_integers 0 stale_block
           (constant_read (C.float_of_int 7)) dither_refused grey_file
           (view 50 50 eight_meters)).
  vm_compute. reflexivity.
Defined.

Lemma opened_file_has_geotransform_witness :
  exists file,
    fst (gdal_open_file 1 1 open_continuous format_nothing "dem.kea"
           default_rules None) = Some "Color Table 1 No Stretch"
    /\ snd (gdal_open_file 1 1 open_continuous format_nothing "dem.kea"
              default_rules None) = Ret file
    /\ gdal_load_image 1 1 atof_integers 0 stale_block
         (constant_read (C.float_of_int 7)) dither_refused file
         (view 50 50 eight_meters) <> Err "Image has no geotransform".
Proof.
  eexists. split; [vm_compute; reflexivity|].
  split; [vm_compute; reflexivity|].
  eapply (opened_file_has_geotransform 1 1 open_continuous format_nothing
            atof_integers 0 stale_block (constant_read (C.float_of_int 7))
            dither_refused "dem.kea" default_rules None).
  vm_compute. reflexivity.
Defined.

Lemma failed_render_leaves_file_unusable_witness :
  gdal_load_image_on 2 3 atof_integers 0 stale_block
    (constant_read (C.float_of_int 7)) dither_refused
    (gdal_close_file grey_file) (view 10 10 one_meter)
  = (Undef, gdal_close_file grey_file).
Proof.
  apply (failed_render_leaves_file_unusable 1 1 atof_integers 0 stale_block
           (constant_read (C.float_of_int 7)) dither_refused grey_file
           (gdal_close_file grey_file) (view 50 50 eight_meters)
           "Unable to create dither").
  vm_compute. reflexivity.
Defined.

(** ** The overview selector of the first version *)

Lemma overview_loop_first (bandh : GDALRasterBandH) (todo : nat) :
  forall count overviewIndex,
    let r := FirstVersion.overview_loop bandh todo count overviewIndex in
    (r = overviewIndex
     /\ forall i, count <= i < count + Z.of_nat todo ->
                  small_overview bandh i = false)
    \/ (count <= r < count + Z.of_nat todo
        /\ small_overview bandh r = true
        /\ forall i, count <= i < r -> small_overview bandh i = false).
Proof.
  induction todo as [|todo IH]; intros count overviewIndex r; subst r.
  - left. split; [reflexivity|]. intros i Hi. lia.
  - cbn [FirstVersion.overview_loop].
    fold (small_overview bandh count).
    destruct (small_overview bandh count) eqn:Hsmall.
    + right. split; [lia|]. split; [exact Hsmall|]. intros i Hi. lia.
    + destruct (IH (count + 1) overviewIndex) as [[Hr Hnone] | (Hr & Hs & Hb)].
      * left. split; [exact Hr|]. intros i Hi.
        destruct (Z.eq_dec i count) as [->|Hne]; [exact Hsmall|].
        apply Hnone. lia.
      * right. split; [lia|]. split; [exact Hs|]. intros i Hi.
        destruct (Z.eq_dec i count) as [->|Hne]; [exact Hsmall|].
        apply Hb. lia.
Qed.

Lemma GDALGetOverviewCount_nonneg (bandh : GDALRasterBandH) :
  0 <= GDALGetOverviewCount bandh.
Proof. destruct bandh; simpl; lia. Qed.

(** X17: The first version of [gdal_get_best_overview] returns the index of the
    first overview of band 1 that is smaller than 3000 pixels both ways,
    whatever the extent shown, and -1 when no overview is that small. *)
Theorem first_version_takes_first_small_overview (d : GDALDataset) :
  let bandh := GDALGetRasterBand d 1 in
  let r := FirstVersion.gdal_get_best_overview d in
  (r = -1
   /\ forall i, 0 <= i < GDALGetOverviewCount bandh ->
                small_overview bandh i = false)
  \/ (0 <= r < GDALGetOverviewCount bandh
      /\ small_overview bandh r = true
      /\ forall i, 0 <= i < r -> small_overview bandh i = false).
Proof.
  intros bandh r. subst r. unfold FirstVersion.gdal_get_best_overview.
  fold bandh.
  pose proof (GDALGetOverviewCount_nonneg bandh) as Hn.
  pose proof (overview_loop_first bandh
                (Z.to_nat (GDALGetOverviewCount bandh)) 0 (-1)) as H.
  cbv zeta in H. rewrite Z2Nat.id in H by exact Hn.
  exact H.
Qed.

(** ** The gamma of the display *)

Lemma gammatab_length : List.length gammatab = 101%nat.
Proof. reflexivity. Qed.

Lemma read_float_gammatab (i : Z) :
  0 <= i <= GAMMA_MAX -> exists t, read_float gammatab i = Ret t.
Proof.
  intros Hi. unfold read_float.
  destruct (Z.ltb_spec i 0) as [|_]; [lia|].
  destruct (nth_error gammatab (Z.to_nat i)) as [t|] eqn:Hnth.
  - exists t. reflexivity.
  - apply nth_error_None in Hnth. rewrite gammatab_length in Hnth.
    unfold GAMMA_MAX in Hi. lia.
Qed.

Lemma gamma_index (new_gamma : Z) :
  let g := Z.max (- GAMMA_MAX) (Z.min GAMMA_MAX new_gamma) in
  (if (if new_gamma >? GAMMA_MAX then GAMMA_MAX else new_gamma)
      <? - GAMMA_MAX
   then - GAMMA_MAX
   else if new_gamma >? GAMMA_MAX then GAMMA_MAX else new_gamma) = g
  /\ 0 <= (if g <? 0 then C.sub 0 g else g) <= GAMMA_MAX.
Proof.
  intros g. subst g. unfold GAMMA_MAX. cbn [Z.opp].
  assert (Hwrap : forall z, -100 <= z <= 100 -> C.sub 0 z = - z).
  { intros z Hz. unfold C.sub. rewrite wrap_small; [lia|].
    unfold C.INT_MIN, C.INT_MAX. lia. }
  split.
  - destruct (Z.gtb_spec new_gamma 100);
      [destruct (Z.ltb_spec 100 (-100)) | destruct (Z.ltb_spec new_gamma (-100))];
      lia.
  - destruct (Z.ltb_spec (Z.max (-100) (Z.min 100 new_gamma)) 0).
    + rewrite Hwrap by lia. lia.
    + lia.
Qed.

Lemma set_gamma_with_image (g new_gamma : Z) :
  exists g' t,
    set_gamma true g new_gamma = Ret (g', Some t)
    /\ - GAMMA_MAX <= g' <= GAMMA_MAX.
Proof.
  unfold set_gamma. cbn [negb].
  destruct (gamma_index new_gamma) as [-> Hidx].
  destruct (read_float_gammatab _ Hidx) as [t ->].
  cbn [bind]. do 2 eexists. split; [reflexivity|].
  unfold GAMMA_MAX. lia.
Qed.

(** X18: With an image loaded, [set_gamma] leaves [g] at the gamma asked for,
    cut to -100..100, and its read of [gammatab] stays inside the 101
    entries of the table, whatever gamma is asked for. *)
Theorem set_gamma_stays_in_table (g new_gamma : Z) :
  exists t,
    set_gamma true g new_gamma
    = Ret (Z.max (- GAMMA_MAX) (Z.min GAMMA_MAX new_gamma), Some t).
Proof.
  unfold set_gamma. cbn [negb].
  destruct (gamma_index new_gamma) as [-> Hidx].
  destruct (read_float_gammatab _ Hidx) as [t ->].
  cbn [bind]. eexists. reflexivity.
Qed.

(** ** A view inside the level *)

(** X19: When the four corners of the view lie inside the level read, nothing
    is clipped: whenever the window mapper returns, the read fills the
    destination from its first sample and over its whole size. *)
Theorem view_inside_level_fills_buffer
  (ww wh dataWidth dataHeight : Z) (d : GDALDataset) (ovh : GDALRasterBandH)
  (e : extent) (corners : C.double * C.double * C.double * C.double)
  (info : readInfo) :
  C.INT_MIN <= dataWidth <= C.INT_MAX ->
  C.INT_MIN <= dataHeight <= C.INT_MAX ->
  source_corners ww wh d ovh e = Ret corners ->
  corners_inside corners (GDALGetRasterBandXSize ovh)
    (GDALGetRasterBandYSize ovh) = true ->
  prepare_for_reading ww wh dataWidth dataHeight d ovh e = Ret info ->
  nDataOffset info = 0
  /\ nBufXSize info = dataWidth
  /\ nBufYSize info = dataHeight.
Proof.
  intros Hw Hh Hcorners Hin H. unfold prepare_for_reading in H.
  rewrite Hcorners in H. cbn [bind] in H.
  exact (clip_window_inside_level _ _ _ _ _ _ Hw Hh Hin H).
Qed.

Lemma view_inside_level_fills_buffer_witness :
  exists info,
    prepare_for_reading 80 24 2400 720 continuous_dataset
      (Some (continuous_band 1)) (view 50 50 one_meter) = Ret info
    /\ nDataOffset info = 0
    /\ nBufXSize info = 2400
    /\ nBufYSize info = 720.
Proof.
  eexists. split; [vm_compute; reflexivity|].
  eapply (view_inside_level_fills_buffer 80 24 2400 720 continuous_dataset
            (Some (continuous_band 1)) (view 50 50 one_meter));
    [vm_compute; split; discriminate
    | vm_compute; split; discriminate
    | vm_compute; reflexivity
    | vm_compute; reflexivity
    | vm_compute; reflexivity].
Defined.

(** ** The keys *)

Section KeyFacts.

Variable has_image : bool.
Variable fullExtent : extent.
Variable algos : list (option string).

Lemma key_press_keeps_move (ch : Z) (v v' : Keys.view) :
  Keys.rezoom v <> 0 ->
  Keys.key_press has_image fullExtent algos ch v = Ret v' ->
  Keys.dispExtent v' = Keys.dispExtent v /\ Keys.rezoom v' = Keys.rezoom v.
Proof.
  intros Hrez H. unfold Keys.key_press, Keys.key_gamma in H.
  apply Z.eqb_neq in Hrez. rewrite Hrez in H.
  repeat match type of H with
         | context [if ?c then _ else _] =>
             lazymatch c with
             | (_ =? _) => destruct c
             | (_ || _) => destruct c
             end
         end;
    repeat match type of H with
           | bind _ _ = Ret _ =>
               apply bind_Ret in H; let x := fresh "x" in
                                    let Hx := fresh "Hx" in
                                    destruct H as (x & Hx & H)
           end;
    injection H as <-; split; reflexivity.
Qed.

Lemma handle_event_keeps_move (ev : Keys.caca_event) (v v' : Keys.view) :
  Keys.rezoom v <> 0 ->
  Keys.handle_event has_image fullExtent algos ev v = Ret v' ->
  Keys.dispExtent v' = Keys.dispExtent v /\ Keys.rezoom v' <> 0.
Proof.
  intros Hrez H. unfold Keys.handle_event in H.
  apply bind_Ret in H. destruct H as (mid & Hmid & H).
  injection H as <-. cbn [Keys.settle Keys.dispExtent Keys.rezoom].
  destruct ev as [ch|width height|].
  - destruct (key_press_keeps_move _ _ _ Hrez Hmid) as [-> ->].
    split; [reflexivity | exact Hrez].
  - injection Hmid as <-. split; [reflexivity | discriminate].
  - injection Hmid as <-. split; [reflexivity | exact Hrez].
Qed.

(** X20: Once a key has moved or zoomed the view, or the window was resized, no
    further event of the same redraw changes the extent shown: the keys
    that pan, zoom and reset are ignored until the image is read again. *)
Theorem one_move_per_redraw (events : list Keys.caca_event)
  (v v' : Keys.view) :
  Keys.rezoom v <> 0 ->
  Keys.events_loop has_image fullExtent algos events v = Ret v' ->
  Keys.dispExtent v' = Keys.dispExtent v.
Proof.
  revert v. induction events as [|ev rest IH]; intros v Hrez H.
  - injection H as <-. reflexivity.
  - cbn [Keys.events_loop] in H.
    apply bind_Ret in H. destruct H as (mid & Hmid & H).
    destruct (handle_event_keeps_move _ _ _ Hrez Hmid) as [<- Hrez'].
    exact (IH _ Hrez' H).
Qed.

(** X21: A key that changes the dithering, pressed while no image is loaded,
    reads the dither of a NULL image: whatever events follow, the loop is
    undefined. *)
Theorem dither_key_without_image (ch : Z) (rest : list Keys.caca_event)
  (v : Keys.view) :
  has_image = false ->
  ch = Keys.chr "d" \/ ch = Keys.chr "D" ->
  Keys.events_loop has_image fullExtent algos (Keys.KeyPress ch :: rest) v
  = Undef.
Proof.
  intros Him Hch. cbn [Keys.events_loop].
  assert (Hkey : Keys.key_press has_image fullExtent algos ch v = Undef).
  { assert (Hset : forall da, Keys.set_dither_algorithm has_image algos da
                              = Undef).
    { intros da. unfold Keys.set_dither_algorithm. rewrite Him.
      destruct (Keys.read_algos algos _) as [a|msg|] eqn:Hr; try reflexivity.
      unfold Keys.read_algos in Hr.
      destruct (_ <? 0); [discriminate|].
      destruct (nth_error algos _); discriminate. }
    assert (Hread : forall i msg, Keys.read_algos algos i <> Err msg).
    { intros i msg. unfold Keys.read_algos.
      destruct (i <? 0); [discriminate|].
      destruct (nth_error algos _); discriminate. }
    unfold Keys.key_press. destruct Hch as [-> | ->].
    - rewrite Z.eqb_refl.
      destruct (Keys.read_algos algos _) as [a|msg|] eqn:Hr;
        [|exfalso; exact (Hread _ _ Hr)|reflexivity].
      cbn [bind]. rewrite Hset. reflexivity.
    - change (Keys.chr "D" =? Keys.chr "d") with false.
      rewrite Z.eqb_refl. cbv iota.
      destruct (if _ <? 0 then _ else _) as [da|msg|] eqn:Hda;
        [cbn [bind]; rewrite Hset; reflexivity | | reflexivity].
      exfalso. destruct (_ <? 0); [|discriminate].
      revert Hda. generalize (C.sub (Keys.dither_algorithm v) 1).
      induction (List.length algos) as [|fuel IH]; intros da Hda.
      + cbn [Keys.last_algorithm] in Hda.
        destruct (Keys.read_algos algos _) as [[a|]|m|] eqn:Hr;
          try discriminate.
        exact (Hread _ _ Hr).
      + cbn [Keys.last_algorithm] in Hda.
        destruct (Keys.read_algos algos _) as [[a|]|m|] eqn:Hr;
          try discriminate.
        * cbn [bind] in Hda. exact (IH _ Hda).
        * exact (Hread _ _ Hr). }
  unfold Keys.handle_event. rewrite Hkey. reflexivity.
Qed.

End KeyFacts.

Lemma one_move_per_redraw_witness :
  exists v',
    Keys.events_loop true (view 50 50 (C.double_of_int 100))
      (algorithm_list two_algorithms)
      [Keys.KeyPress (Keys.chr "+"); Keys.KeyPress (Keys.chr "h");
       Keys.KeyPress (Keys.chr "x")] (first_view 1) = Ret v'
    /\ Keys.dispExtent v' = view 50 50 one_meter.
Proof.
  eexists. split; [vm_compute; reflexivity|].
  eapply (one_move_per_redraw true (view 50 50 (C.double_of_int 100))
            (algorithm_list two_algorithms)
            [Keys.KeyPress (Keys.chr "+"); Keys.KeyPress (Keys.chr "h");
             Keys.KeyPress (Keys.chr "x")] (first_view 1));
    [vm_compute; discriminate | vm_compute; reflexivity].
Defined.

Lemma dither_key_without_image_witness :
  Keys.events_loop false (view 50 50 (C.double_of_int 100))
    (algorithm_list two_algorithms)
    [Keys.KeyPress (Keys.chr "d"); Keys.KeyPress (Keys.chr "q")]
    (first_view 0) = Undef.
Proof.
  apply dither_key_without_image; [reflexivity | left; reflexivity].
Defined.

(** ** A batch of events is handled *)

Section KeySafety.

Variable fullExtent : extent.
Variable names : list string.
Variable n : Z.
Hypothesis names_paired : Z.of_nat (List.length names) = 2 * n.
Hypothesis names_few : 1 <= n <= 536870912.

Lemma read_algos_inside (i : Z) :
  0 <= i <= 2 * n ->
  Keys.read_algos (algorithm_list names) i
  = Ret (nth_error names (Z.to_nat i)).
Proof.
  intros Hi. unfold Keys.read_algos, algorithm_list.
  destruct (Z.ltb_spec i 0) as [|_]; [lia|].
  destruct (Z.eq_dec i (2 * n)) as [->|Hne].
  - rewrite nth_error_app2 by (rewrite length_map; lia).
    rewrite length_map.
    replace (Z.to_nat (2 * n) - List.length names)%nat with 0%nat by lia.
    cbn [nth_error defined].
    replace (nth_error names (Z.to_nat (2 * n))) with (@None string);
      [reflexivity|].
    symmetry. apply nth_error_None. lia.
  - rewrite nth_error_app1 by (rewrite length_map; lia).
    rewrite nth_error_map.
    destruct (nth_error names (Z.to_nat i)) eqn:Hnth; [reflexivity|].
    apply nth_error_None in Hnth. lia.
Qed.

Lemma nth_error_name (i : Z) :
  0 <= i < 2 * n -> exists a, nth_error names (Z.to_nat i) = Some a.
Proof.
  intros Hi. destruct (nth_error names (Z.to_nat i)) eqn:Hnth;
    [eexists; reflexivity|].
  apply nth_error_None in Hnth. lia.
Qed.

Lemma nth_error_end : nth_error names (Z.to_nat (2 * n)) = None.
Proof. apply nth_error_None. lia. Qed.

Lemma small_index (z : Z) :
  -1073741826 <= z <= 1073741826 -> C.wrap z = z.
Proof.
  intros Hz. apply wrap_small. unfold C.INT_MIN, C.INT_MAX. lia.
Qed.

Lemma set_dither_algorithm_inside (da : Z) :
  0 <= da < n ->
  Keys.set_dither_algorithm true (algorithm_list names) da = Ret tt.
Proof.
  intros Hda. unfold Keys.set_dither_algorithm, C.mul.
  rewrite small_index by lia.
  rewrite read_algos_inside by lia. reflexivity.
Qed.

Lemma last_algorithm_end (k : nat) :
  forall fuel da,
    da = n - 1 - Z.of_nat k -> -1 <= da -> (k <= fuel)%nat ->
    Keys.last_algorithm (algorithm_list names) fuel da = Ret (n - 1).
Proof.
  induction k as [|k IH]; intros fuel da Hda Hlow Hfuel.
  - assert (Hread : Keys.read_algos (algorithm_list names)
                      (C.add (C.mul da 2) 2) = Ret None).
    { unfold C.add, C.mul. rewrite (small_index (da * 2)) by lia.
      rewrite small_index by lia.
      rewrite read_algos_inside by lia.
      replace (da * 2 + 2) with (2 * n) by lia.
      now rewrite nth_error_end. }
    destruct fuel; cbn [Keys.last_algorithm]; rewrite Hread; cbn [bind];
      f_equal; lia.
  - destruct fuel as [|fuel]; [lia|].
    cbn [Keys.last_algorithm].
    unfold C.add at 1. unfold C.mul. rewrite (small_index (da * 2)) by lia.
    rewrite small_index by lia.
    rewrite read_algos_inside by lia.
    destruct (nth_error_name (da * 2 + 2)) as [a ->]; [lia|].
    cbn [bind].
    replace (C.add da 1) with (da + 1)
      by (unfold C.add; rewrite small_index by lia; reflexivity).
    apply IH; lia.
Qed.

Lemma key_press_handled (ch : Z) (v : Keys.view) :
  in_range n v ->
  exists v',
    Keys.key_press true fullExtent (algorithm_list names) ch v = Ret v'
    /\ in_range n v'.
Proof.
  intros [Hda Hg]. unfold Keys.key_press, Keys.key_gamma.
  assert (Hgamma : forall new_gamma (u : Keys.view),
             0 <= Keys.dither_algorithm u < n ->
             exists v',
               bind (set_gamma true (Keys.g v) new_gamma)
                 (fun r => Ret (Keys.with_gamma u (fst r))) = Ret v'
               /\ in_range n v').
  { intros new_gamma u Hu.
    destruct (set_gamma_with_image (Keys.g v) new_gamma)
      as (g' & t & -> & Hg').
    cbn [bind fst]. eexists. split; [reflexivity|].
    split; [exact Hu|]. cbn [Keys.with_gamma Keys.g]. exact Hg'. }
  assert (Hkeep : forall u,
             Keys.dither_algorithm u = Keys.dither_algorithm v ->
             Keys.g u = Keys.g v ->
             exists v', Ret u = Ret v' /\ in_range n v').
  { intros u Hu1 Hu2. exists u. split; [reflexivity|].
    unfold in_range. rewrite Hu1, Hu2. split; assumption. }
  destruct (ch =? Keys.chr "d").
  { unfold C.add, C.mul.
    rewrite (small_index (Keys.dither_algorithm v + 1)) by lia.
    rewrite small_index by lia.
    rewrite read_algos_inside by lia.
    destruct (Z.eq_dec (Keys.dither_algorithm v + 1) n) as [Hend|Hmid].
    - replace ((Keys.dither_algorithm v + 1) * 2) with (2 * n) by lia.
      rewrite nth_error_end. cbn [bind].
      rewrite set_dither_algorithm_inside by lia. cbn [bind].
      eexists. split; [reflexivity|].
      split; [cbn; lia | exact Hg].
    - destruct (nth_error_name ((Keys.dither_algorithm v + 1) * 2))
        as [a ->]; [lia|].
      cbn [bind]. rewrite set_dither_algorithm_inside by lia. cbn [bind].
      eexists. split; [reflexivity|].
      split; [cbn; lia | exact Hg]. }
  destruct (ch =? Keys.chr "D").
  { unfold C.sub. rewrite small_index by lia.
    destruct (Z.ltb_spec (Keys.dither_algorithm v - 1) 0) as [Hneg|Hpos].
    - rewrite (last_algorithm_end (Z.to_nat n)); [|lia|lia|].
      + cbn [bind]. rewrite set_dither_algorithm_inside by lia. cbn [bind].
        eexists. split; [reflexivity|].
        split; [cbn; lia | exact Hg].
      + unfold algorithm_list. rewrite length_app, length_map. simpl. lia.
    - cbn [bind]. rewrite set_dither_algorithm_inside by lia. cbn [bind].
      eexists. split; [reflexivity|].
      split; [cbn; lia | exact Hg]. }
  destruct (ch =? Keys.chr "+").
  { destruct (Keys.rezoom v =? 0); apply Hkeep; reflexivity. }
  destruct (ch =? Keys.chr "-").
  { destruct (Keys.rezoom v =? 0); apply Hkeep; reflexivity. }
  destruct (ch =? Keys.chr "G"); [apply Hgamma; exact Hda|].
  destruct (ch =? Keys.chr "g"); [apply Hgamma; exact Hda|].
  destruct (_ || _).
  { destruct (Keys.rezoom v =? 0); [|apply Hkeep; reflexivity].
    apply (Hgamma 0 (Keys.with_extent v fullExtent)). exact Hda. }
  repeat (destruct (_ || _);
          [destruct (Keys.rezoom v =? 0); apply Hkeep; reflexivity|]).
  destruct (ch =? Keys.chr "?"); [apply Hkeep; reflexivity|].
  destruct (_ || _); apply Hkeep; reflexivity.
Qed.

Lemma handle_event_handled (ev : Keys.caca_event) (v : Keys.view) :
  in_range n v ->
  exists v',
    Keys.handle_event true fullExtent (algorithm_list names) ev v = Ret v'
    /\ in_range n v'.
Proof.
  intros Hv. unfold Keys.handle_event.
  destruct ev as [ch|width height|].
  - destruct (key_press_handled ch v Hv) as (mid & -> & Hmid).
    cbn [bind]. eexists. split; [reflexivity | exact Hmid].
  - cbn [bind]. eexists. split; [reflexivity | exact Hv].
  - cbn [bind]. eexists. split; [reflexivity | exact Hv].
Qed.

(** X22: With an image loaded and a list of [n] dithering algorithms, each with
    its description and the list closed by NULL, every batch of events is
    handled without a read outside [algos] or [gammatab]: from a view
    whose dithering algorithm is one of the [n] and whose gamma index is
    within -100..100 the loop returns a view of which the same holds. *)
Theorem events_are_handled (events : list Keys.caca_event) (v : Keys.view) :
  in_range n v ->
  exists v',
    Keys.events_loop true fullExtent (algorithm_list names) events v = Ret v'
    /\ in_range n v'.
Proof.
  revert v. induction events as [|ev rest IH]; intros v Hv.
  - exists v. split; [reflexivity | exact Hv].
  - cbn [Keys.events_loop].
    destruct (handle_event_handled ev v Hv) as (mid & -> & Hmid).
    cbn [bind]. exact (IH mid Hmid).
Qed.

End KeySafety.

Lemma events_are_handled_witness :
  exists v',
    Keys.events_loop true (view 50 50 (C.double_of_int 100))
      (algorithm_list two_algorithms)
      [Keys.KeyPress (Keys.chr "D"); Keys.KeyPress (Keys.chr "d");
       Keys.KeyPress (Keys.chr "d"); Keys.KeyPress (Keys.chr "G");
       Keys.Resize 100 40] (first_view 0) = Ret v'
    /\ in_range 2 v'.
Proof.
  apply (events_are_handled (view 50 50 (C.double_of_int 100))
           two_algorithms 2);
    [reflexivity | vm_compute; split; discriminate
    | vm_compute; repeat split; discriminate].
Defined.

(** ** The default rules on a continuous band *)

Section DefaultDisplay.

Variables ww wh : Z.
Variable GDALOpen : string -> option GDALDataset.
Variable format_2f : C.double -> string.
Variable atof : string -> C.double.
Variable fresh : nat -> stretch.
Variable heap_past : Z.
Variable CPLMalloc_ints : nat -> list Z.
Variable GDALRasterIO :
  GDALRasterBandH -> readInfo -> Z -> list C.float -> list C.float.
Variable caca_create_dither : Z -> Z -> Z -> Z -> option Z.

Lemma gdal_open_file_by_rules (pszFile : string) (stretchList : stretchlist)
  (st : option string) (file : gdalFile) :
  gdal_open_file ww wh GDALOpen format_2f pszFile stretchList None
  = (st, Ret file) ->
  GDALOpen pszFile = Some (ds file)
  /\ get_stretch_for_gdal stretchList (ds file) = Some (file_stretch file).
Proof.
  unfold gdal_open_file.
  destruct (GDALOpen pszFile) as [d|]; [|discriminate].
  destruct (get_stretch_for_gdal stretchList d) as [s|] eqn:Hs;
    [|discriminate].
  destruct (GDALGetGeoTransform d) as [adf|]; [|discriminate].
  intros H. injection H as _ <-. cbn [ds file_stretch].
  split; [reflexivity | exact Hs].
Qed.

Lemma single_band_render_in_colour (d : GDALDataset) (overviewIndex : Z)
  (s : stretch) (e : extent) (cw ch : Z) (im : image) :
  mode s = VIEWER_MODE_COLORTABLE ->
  gdal_read_singleband cw ch atof heap_past CPLMalloc_ints GDALRasterIO
    caca_create_dither d overviewIndex s e = Ret im ->
  exists rath,
    GDALGetDefaultRAT (GDALGetRasterBand d (bands_at s 0)) = Some rath
    /\ has_column rath GFU_Red && has_column rath GFU_Green
       && has_column rath GFU_Blue = true.
Proof.
  intros Hmode H. unfold gdal_read_singleband in H.
  apply bind_Ret in H. destruct H as (info & _ & H).
  apply bind_Ret in H. destruct H as (buf & _ & H).
  rewrite Hmode, Z.eqb_refl in H.
  destruct (GDALGetDefaultRAT _) as [rath|]; [|discriminate].
  apply bind_Ret in H. destruct H as (blocks & Hcols & H).
  exists rath. split; [reflexivity|].
  destruct blocks as [[[pRed|] [pGreen|]] [pBlue|]]; try discriminate.
  apply read_colour_columns_seen in Hcols. cbn [fst snd] in Hcols.
  destruct Hcols as (H1 & H2 & H3). unfold has_column.
  destruct H1 as [H1 | H1]; [discriminate | congruence |].
  destruct H2 as [H2 | H2]; [discriminate | congruence |].
  destruct H3 as [H3 | H3]; [discriminate | congruence |].
  rewrite H1, H2, H3. reflexivity.
Qed.

(** X23: With the default rules and no stretch on the command line, a dataset
    of one band that is not thematic and whose attribute table lacks a
    red, green or blue column (or that has no table) opens, but is never
    shown: the colour table rule matches it, and on every canvas and at
    every extent [gdal_load_image] returns no image. *)
Theorem continuous_band_is_not_shown (pszFile : string) (l : stretchlist)
  (st : option string) (file : gdalFile) :
  load_rules atof fresh 0 pszDefaultStretchRules = Ret l ->
  gdal_open_file ww wh GDALOpen format_2f pszFile l None = (st, Ret file) ->
  GDALGetRasterCount (ds file) = 1 ->
  is_thematic (ds file) 1 = false ->
  has_usage (ds file) 1 GFU_Red && has_usage (ds file) 1 GFU_Green
  && has_usage (ds file) 1 GFU_Blue = false ->
  mode (file_stretch file) = VIEWER_MODE_COLORTABLE
  /\ forall (cw ch : Z) (e : extent) (im : image),
       gdal_load_image cw ch atof heap_past CPLMalloc_ints GDALRasterIO
         caca_create_dither file e <> Ret im.
Proof.
  intros Hload Hopen Hn Hth Hcols.
  apply gdal_open_file_by_rules in Hopen. destruct Hopen as [_ Hrule].
  rewrite (load_default_rules atof fresh) in Hload. injection Hload as <-.
  unfold get_stretch_for_gdal in Hrule.
  rewrite get_stretch_loop_cons in Hrule by (right; right; reflexivity).
  rewrite colour_table_check_not_thematic in Hrule by exact Hth.
  rewrite Hn in Hrule.
  change (comparator_holds 1 _) with true in Hrule.
  injection Hrule as Hrule.
  assert (Hmode : mode (file_stretch file) = VIEWER_MODE_COLORTABLE)
    by (rewrite <- Hrule; reflexivity).
  assert (Hband : bands_at (file_stretch file) 0 = 1)
    by (rewrite <- Hrule; apply single_band_rule_band).
  split; [exact Hmode|].
  intros cw ch e im H. unfold gdal_load_image in H.
  apply bind_Ret in H. destruct H as (overviewIndex & _ & H).
  rewrite Hmode in H.
  change (VIEWER_MODE_COLORTABLE =? VIEWER_MODE_RGB) with false in H.
  apply (single_band_render_in_colour _ _ _ _ _ _ _ Hmode) in H.
  destruct H as (rath & Hrat & Hall). rewrite Hband in Hrat.
  unfold has_usage in Hcols. rewrite Hrat in Hcols.
  unfold has_column in Hall. rewrite Hall in Hcols. discriminate.
Qed.

End DefaultDisplay.

Lemma continuous_band_is_not_shown_witness :
  exists l file,
    load_rules atof_integers (fun _ => greyscale_rule) 0
      pszDefaultStretchRules = Ret l
    /\ snd (gdal_open_file 80 24 open_continuous format_nothing "dem.tif"
              l None) = Ret file
    /\ mode (file_stretch file) = VIEWER_MODE_COLORTABLE
    /\ gdal_load_image 1 1 atof_integers 0 stale_block
         (constant_read (C.float_of_int 7)) dither_created file
         (view 50 50 eight_meters)
       = Err "Unable to Raster Attribute Table".
Proof.
  do 2 eexists. split; [vm_compute; reflexivity|].
  split; [vm_compute; reflexivity|].
  split; [|vm_compute; reflexivity].
  eapply (continuous_band_is_not_shown 80 24 open_continuous format_nothing
            atof_integers (fun _ => greyscale_rule) 0 stale_block
            (constant_read (C.float_of_int 7)) dither_created "dem.tif");
    [vm_compute; reflexivity | vm_compute; reflexivity | reflexivity
    | reflexivity | reflexivity].
Defined.

(** ** The bounds of the histogram stretch *)





